(** * Two Keras example notebooks, embedded and checked

    - [examples/timeseries/ipynb/timeseries_classification_transformer.ipynb]:
      the data loader ([readucr] and the statements after it), the layer
      composition ([transformer_encoder], [build_model]) and the call that
      builds the model from the loaded data.
    - [guides/ipynb/training_keras_models_on_cloud.ipynb]: the code cells
      after the configuration, from the authentication to the submission:
      they branch on [tfc.remote()], write [requirements.txt] and call
      [tfc.run].

    The notebooks are Python glue around NumPy, Keras and TensorFlow Cloud.
    Python values live in a store that is threaded explicitly: NumPy arrays
    are views (buffer, offset, shape, strides) on buffers held in a heap, so
    that slicing shares memory and a masked assignment writes in place, as in
    NumPy.  Exceptions are an error result. *)

From Stdlib Require Import ZArith QArith Permutation Ascii String.
From stdpp Require Import gmap strings list.

Open Scope string_scope.
Open Scope list_scope.
Open Scope nat_scope.

(** ** Python results and the store-passing monad *)

Module Py.

(** The exception classes the modelled library calls raise. *)
Inductive exn :=
| IndexError
| ValueError
| TypeError
| OSError
| LibraryError (origin : string) (code : nat).

Inductive result (A : Type) :=
| Ok (a : A)
| Raise (e : exn).
Global Arguments Ok {A} a.
Global Arguments Raise {A} e.

(** A statement runs on a store [S]; an exception keeps the store as it
    was when it was raised and skips the rest. *)
Definition M (S A : Type) : Type := S → result A * S.

Definition ret {S A} (a : A) : M S A := λ s, (Ok a, s).

Definition bind {S A B} (m : M S A) (k : A → M S B) : M S B :=
  λ s, match m s with
       | (Ok a, s') => k a s'
       | (Raise e, s') => (Raise e, s')
       end.

Global Instance M_ret {S} : MRet (M S) := λ A, ret.
Global Instance M_bind {S} : MBind (M S) := λ A B k m, bind m k.

Definition raise {S A} (e : exn) : M S A := λ s, (Raise e, s).

Definition get {S} : M S S := λ s, (Ok s, s).
Definition put {S} (s : S) : M S unit := λ _, (Ok tt, s).

(** [for x in xs: body], threading an accumulator. *)
Fixpoint for_each {S A X} (xs : list X) (body : X → A → M S A) (a : A) : M S A :=
  match xs with
  | [] => mret a
  | x :: xs' => a' ← body x a; for_each xs' body a'
  end.

(** Python's [range(n)] for an integer [n]: empty when [n <= 0]. *)
Definition range (n : Z) : list Z := Z.of_nat <$> seq 0 (Z.to_nat n).

(** [t[i]] on a tuple. *)
Definition tuple_get {S A} (t : list A) (i : nat) : M S A :=
  match t !! i with
  | Some a => mret a
  | None => raise IndexError
  end.

End Py.

(** ** float64 values

    The notebooks never compute with floating-point numbers themselves: they
    read them from text, compare labels and cast them to integers.  These
    operations are an interface; everything below holds for every
    implementation of it. *)

Class Float64 := {
  float64 : Type;
  (** Python's [float(s)]; [None] stands for its ValueError. *)
  float_of_string : string → option float64;
  (** [astype(int)] on one element. *)
  float_to_int : float64 → Z;
  (** Conversion of a Python int stored into a float64 array. *)
  float_of_Z : Z → float64;
  (** [==] on float64. *)
  float_eqb : float64 → float64 → bool
}.

(** ** NumPy arrays *)

Module Numpy.

Inductive dtype := DFloat | DInt | DBool.

(** An array element; [T] is the type of the float64 values. *)
Inductive scalar_of (T : Type) :=
| SFloat (f : T)
| SInt (z : Z)
| SBool (b : bool).
Global Arguments SFloat {T} f.
Global Arguments SInt {T} z.
Global Arguments SBool {T} b.

Section numpy.
Context {F : Float64}.

Local Abbreviation scalar := (scalar_of float64).

(** The heap holds the data buffers; a buffer's address is its index.
    Buffers are never freed. *)
Local Abbreviation heap := (list (list scalar)).

(** An array object is a view on a buffer: element [(i1, .., ik)] is at
    address [offset + i1 * s1 + .. + ik * sk] of buffer [base].  Strides
    count elements, not bytes. *)
Record ndarray := {
  base : nat;
  offset : nat;
  shape : list nat;
  strides : list nat;
  dt : dtype
}.

(** The addresses of a view's elements, in row-major (C) order. *)
Fixpoint addresses (off : nat) (shp str : list nat) : list nat :=
  match shp, str with
  | [], _ => [off]
  | n :: shp', s :: str' =>
      flat_map (λ i, addresses (off + i * s) shp' str') (seq 0 n)
  | _ :: _, [] => []
  end.

Definition size (shp : list nat) : nat := foldr Nat.mul 1 shp.

(** Strides of a freshly allocated (C-contiguous) array. *)
Fixpoint c_strides (shp : list nat) : list nat :=
  match shp with
  | [] => []
  | _ :: shp' => size shp' :: c_strides shp'
  end.

Definition alloc (b : list scalar) : Py.M heap nat :=
  λ h, (Py.Ok (length h), h ++ [b]).

Definition new_array (d : dtype) (shp : list nat) (data : list scalar)
  : Py.M heap ndarray :=
  l ← alloc data;
  mret {| base := l; offset := 0; shape := shp; strides := c_strides shp; dt := d |}.

(** The elements of a view, in row-major order. *)
Definition elements_in (h : heap) (a : ndarray) : option (list scalar) :=
  b ← h !! base a;
  mapM (λ k, b !! k) (addresses (offset a) (shape a) (strides a)).

(** The rows of a view (its slices along the first axis), each in
    row-major order. *)
Definition rows_in (h : heap) (a : ndarray) : option (list (list scalar)) :=
  match shape a, strides a with
  | n :: shp, s :: str =>
      b ← h !! base a;
      mapM (λ i, mapM (λ k, b !! k) (addresses (offset a + i * s) shp str)) (seq 0 n)
  | _, _ => None
  end.

(** A view is well formed when it has one stride per axis and no two of
    its elements share an address. *)
Definition well_formed (a : ndarray) : Prop :=
  length (strides a) = length (shape a) ∧
  NoDup (addresses (offset a) (shape a) (strides a)).

Definition elements (a : ndarray) : Py.M heap (list scalar) :=
  λ h, match elements_in h a with
       | Some l => (Py.Ok l, h)
       | None => (Py.Raise Py.IndexError, h)
       end.

(** *** np.loadtxt(fname, delimiter=d) *)

Fixpoint split_on (c : ascii) (s : string) : list string :=
  match s with
  | EmptyString => [EmptyString]
  | String a s' =>
      if Ascii.eqb a c then EmptyString :: split_on c s'
      else match split_on c s' with
           | w :: ws => String a w :: ws
           | [] => [String a EmptyString]
           end
  end.

(** The lines of a text as a file opened in text mode yields them: a
    line ends at a line feed, at a carriage return, or at the two in a
    row (which leaves an empty line here, skipped below). *)
Definition split_lines (text : string) : list string :=
  flat_map (split_on "013") (split_on "010" text).

(** Removes a trailing carriage return of a line. *)
Fixpoint strip_cr (s : string) : string :=
  match s with
  | EmptyString => EmptyString
  | String a s' =>
      match strip_cr s' with
      | EmptyString => if Ascii.eqb a "013" then EmptyString else String a EmptyString
      | t => String a t
      end
  end.

(** One line of the file: the text before a [#] comment, without the line
    end. *)
Definition clean_line (line : string) : string :=
  strip_cr (default EmptyString (head (split_on "#" line))).

Definition nonempty (s : string) : bool :=
  match s with EmptyString => false | _ => true end.

(** The rows of numbers of a text: blank lines are skipped, every other
    line is cut at the delimiter and each field converted with [float]. *)
Definition parse_rows (d : ascii) (text : string) : option (list (list float64)) :=
  mapM (λ line, mapM float_of_string (split_on d line))
       (List.filter nonempty (clean_line <$> split_lines text)).

(** A table: at least two rows, all of the same width [c] of at least
    two columns. *)
Definition is_table {A} (rows : list (list A)) (c : nat) : Prop :=
  2 ≤ length rows ∧ 2 ≤ c ∧ Forall (λ r, length r = c) rows.

(** The numbers of a table as array elements. *)
Definition float_rows (rows : list (list float64)) : list (list scalar) :=
  fmap (M:=list) SFloat <$> rows.

(** With the default [ndmin=0] axes of length one are squeezed out. *)
Definition squeeze (shp : list nat) : list nat :=
  List.filter (λ n, negb (n =? 1)) shp.

(** [fs] maps a file name or URL to the text found there. *)
Definition loadtxt (fs : gmap string string) (fname : string) (d : ascii)
  : Py.M heap ndarray :=
  match fs !! fname with
  | None => Py.raise Py.OSError
  | Some text =>
      match parse_rows d text with
      | None => Py.raise Py.ValueError
      | Some [] => new_array DFloat [0] []
      | Some (r0 :: rs) =>
          if forallb (λ r, length r =? length r0) rs
          then new_array DFloat (squeeze [length (r0 :: rs); length r0])
                         (SFloat <$> concat (r0 :: rs))
          else Py.raise Py.ValueError
      end
  end.

(** *** Indexing *)

(** [a[:, j]] for a non-negative integer [j]: a view without axis 1. *)
Definition getitem_col (a : ndarray) (j : nat) : Py.M heap ndarray :=
  match shape a, strides a with
  | n0 :: n1 :: shp, s0 :: s1 :: str =>
      if j <? n1
      then mret {| base := base a; offset := offset a + j * s1;
                   shape := n0 :: shp; strides := s0 :: str; dt := dt a |}
      else Py.raise Py.IndexError
  | _, _ => Py.raise Py.IndexError
  end.

(** [a[:, k:]] for a non-negative integer [k]: a view on the columns from
    [k] on; a start beyond the end is clipped. *)
Definition getitem_cols_from (a : ndarray) (k : nat) : Py.M heap ndarray :=
  match shape a, strides a with
  | n0 :: n1 :: shp, s0 :: s1 :: str =>
      mret {| base := base a; offset := offset a + (k `min` n1) * s1;
              shape := n0 :: (n1 - k `min` n1) :: shp;
              strides := s0 :: s1 :: str; dt := dt a |}
  | _, _ => Py.raise Py.IndexError
  end.

(** [len(a)] *)
Definition len (a : ndarray) : Py.M heap nat :=
  match shape a with
  | n :: _ => mret n
  | [] => Py.raise Py.TypeError
  end.

(** *** Conversions and copies *)

Definition scalar_to_int (v : scalar) : Z :=
  match v with
  | SFloat f => float_to_int f
  | SInt z => z
  | SBool b => if b then 1%Z else 0%Z
  end.

(** [a.astype(int)]: always a new array. *)
Definition astype_int (a : ndarray) : Py.M heap ndarray :=
  l ← elements a;
  new_array DInt (shape a) (SInt ∘ scalar_to_int <$> l).

(** [a.reshape(shp)].  The element count must not change.  The result is
    a view when the array is contiguous or when [shp] only appends an axis
    of length one (the reshape of the loader); the data are copied
    otherwise. *)
Definition reshape (a : ndarray) (shp : list nat) : Py.M heap ndarray :=
  if negb (size shp =? size (shape a)) then Py.raise Py.ValueError
  else if bool_decide (strides a = c_strides (shape a))
  then mret {| base := base a; offset := offset a; shape := shp;
               strides := c_strides shp; dt := dt a |}
  else if bool_decide (shp = shape a ++ [1])
  then mret {| base := base a; offset := offset a; shape := shp;
               strides := strides a ++ [1]; dt := dt a |}
  else l ← elements a; new_array (dt a) shp l.

(** *** np.random.permutation(n)

    [draw] is the arrangement of [0 .. n-1] the generator produces. *)
Definition random_permutation (draw : nat → list nat) (n : nat) : Py.M heap ndarray :=
  new_array DInt [n] (SInt ∘ Z.of_nat <$> draw n).

(** *** a[idx] with an integer array [idx]: a new array whose rows are the
    rows of [a] that [idx] names (negative indices count from the end). *)
Definition row_index (n : nat) (v : scalar) : option nat :=
  match v with
  | SInt z =>
      if bool_decide (0 ≤ z < Z.of_nat n)%Z then Some (Z.to_nat z)
      else if bool_decide (- Z.of_nat n ≤ z < 0)%Z then Some (Z.to_nat (z + Z.of_nat n))
      else None
  | _ => None
  end.

Definition take_rows (a idx : ndarray) : Py.M heap ndarray :=
  match shape a, strides a with
  | n :: shp, s :: str =>
      ixs ← elements idx;
      match mapM (row_index n) ixs with
      | None => Py.raise Py.IndexError
      | Some rows =>
          h ← Py.get;
          match b ← h !! base a;
                mapM (λ k, b !! k)
                     (flat_map (λ i, addresses (offset a + i * s) shp str) rows) with
          | Some data => new_array (dt a) (shape idx ++ shp) data
          | None => Py.raise Py.IndexError
          end
      end
  | _, _ => Py.raise Py.IndexError
  end.

(** *** Comparison and masked assignment *)

Definition scalar_eq_int (v : scalar) (k : Z) : bool :=
  match v with
  | SFloat f => float_eqb f (float_of_Z k)
  | SInt z => (z =? k)%Z
  | SBool b => ((if b then 1 else 0) =? k)%Z
  end.

(** [a == k]: a new boolean array. *)
Definition eq_int (a : ndarray) (k : Z) : Py.M heap ndarray :=
  l ← elements a;
  new_array DBool (shape a) ((λ v, SBool (scalar_eq_int v k)) <$> l).

(** The integer [k] as an element of an array of type [d]. *)
Definition cast (d : dtype) (k : Z) : scalar :=
  match d with
  | DFloat => SFloat (float_of_Z k)
  | DInt => SInt k
  | DBool => SBool (negb (k =? 0)%Z)
  end.

(** One store of the loop of [a[mask] = k]. *)
Definition store_if (v : scalar) (b : list scalar) (am : nat * scalar) : list scalar :=
  match am.2 with
  | SBool true => <[am.1 := v]> b
  | _ => b
  end.

(** The element left by one store: [v] under a true mask, else the old
    element [x]. *)
Definition chosen (v x m : scalar) : scalar :=
  match m with SBool true => v | _ => x end.

(** [a[mask] = k] for a boolean array [mask] of the shape of [a]: writes
    [k] into the buffer of [a] wherever [mask] holds. *)
Definition setitem_mask (a mask : ndarray) (k : Z) : Py.M heap unit :=
  if negb (bool_decide (shape mask = shape a)) then Py.raise Py.IndexError
  else
    ms ← elements mask;
    h ← Py.get;
    match h !! base a with
    | None => Py.raise Py.IndexError
    | Some b =>
        let ads := addresses (offset a) (shape a) (strides a) in
        Py.put (<[base a := foldl (store_if (cast (dt a) k)) b (zip ads ms)]> h)
    end.

(** What [a[a == k] = k'] makes of one element of an array of type [d]. *)
Definition replaced (d : dtype) (k k' : Z) (v : scalar) : scalar :=
  if scalar_eq_int v k then cast d k' else v.

(** *** len(np.unique(a)) *)

Definition scalar_eqb (u v : scalar) : bool :=
  match u, v with
  | SFloat f, SFloat g => float_eqb f g
  | SInt y, SInt z => (y =? z)%Z
  | SBool b, SBool c => eqb b c
  | _, _ => false
  end.

Fixpoint distinct (l : list scalar) : list scalar :=
  match l with
  | [] => []
  | v :: l' => v :: List.filter (λ u, negb (scalar_eqb v u)) (distinct l')
  end.

Definition unique_count (a : ndarray) : Py.M heap nat :=
  l ← elements a; mret (length (distinct l)).

End numpy.

Abbreviation scalar := (scalar_of float64).
Abbreviation heap := (list (list scalar)).

End Numpy.

(** ** The timeseries notebook: data loader *)

Module Timeseries.
Section loader.
Context {F : Float64}.
Import Numpy.

(** [fs] is what the URLs serve. *)
Variable fs : gmap string string.
(** [draw] is the outcome of the random generator. *)
Variable draw : nat → list nat.

Definition readucr (filename : string) : Py.M heap (ndarray * ndarray) :=
  data ← loadtxt fs filename "009";
  y ← getitem_col data 0;
  x ← getitem_cols_from data 1;
  y' ← astype_int y;
  mret (x, y').

Definition root_url : string :=
  "https://raw.githubusercontent.com/hfawaz/cd-diagram/master/FordA/".
Definition train_url : string := root_url +:+ "FordA_TRAIN.tsv".
Definition test_url : string := root_url +:+ "FordA_TEST.tsv".

(** The global variables of the loader cell. *)
Record globals := {
  x_train : ndarray;
  y_train : ndarray;
  x_test : ndarray;
  y_test : ndarray;
  n_classes : nat;
  idx : ndarray
}.

(** The two calls of [readucr]. *)
Definition load_data : Py.M heap ((ndarray * ndarray) * (ndarray * ndarray)) :=
  train ← readucr train_url;
  test ← readucr test_url;
  mret (train, test).

(** [x = x.reshape((x.shape[0], x.shape[1], 1))] *)
Definition add_feature_axis (x : ndarray) : Py.M heap ndarray :=
  n0 ← Py.tuple_get (shape x) 0;
  n1 ← Py.tuple_get (shape x) 1;
  reshape x [n0; n1; 1].

(** [y[y == -1] = 0] *)
Definition remap_labels (y : ndarray) : Py.M heap unit :=
  mask ← eq_int y (-1);
  setitem_mask y mask 0.

(** [idx = np.random.permutation(len(x)); x = x[idx]; y = y[idx]] *)
Definition shuffle (x y : ndarray) : Py.M heap (ndarray * ndarray * ndarray) :=
  n ← len x;
  idx ← random_permutation draw n;
  x' ← take_rows x idx;
  y' ← take_rows y idx;
  mret (idx, x', y').

(** The statements after the two calls of [readucr]. *)
Definition prepare (loaded : (ndarray * ndarray) * (ndarray * ndarray))
  : Py.M heap globals :=
  let '((x_train, y_train), (x_test, y_test)) := loaded in
  x_train ← add_feature_axis x_train;
  x_test ← add_feature_axis x_test;
  n_classes ← unique_count y_train;
  '(idx, x_train, y_train) ← shuffle x_train y_train;
  remap_labels y_train;;
  remap_labels y_test;;
  mret {| x_train := x_train; y_train := y_train; x_test := x_test;
          y_test := y_test; n_classes := n_classes; idx := idx |}.

Definition loader : Py.M heap globals :=
  loaded ← load_data; prepare loaded.

(** *** What the loader is expected to produce *)

(** [rows] is the table of numbers the URL [name] serves. *)
Definition served (name : string) (rows : list (list float64)) : Prop :=
  ∃ text, fs !! name = Some text ∧ parse_rows "009" text = Some rows.

(** Column 0 of every row, cast to integer. *)
Definition labels_of (rows : list (list float64)) : list Z :=
  float_to_int <$> concat (take 1 <$> rows).

Definition label_column (rows : list (list float64)) : list scalar :=
  SInt <$> labels_of rows.

(** The remaining columns of every row. *)
Definition feature_rows (rows : list (list float64)) : list (list scalar) :=
  fmap (M:=list) SFloat <$> (drop 1 <$> rows).

(** The arrays [readucr] returns for a table of [n] rows and [c] columns
    loaded into buffer [l]: [x] is a view on the loaded buffer, [y] a new
    array in the next buffer. *)
Definition loaded_x (l n c : nat) : ndarray :=
  {| base := l; offset := 1; shape := [n; c - 1]; strides := [c; 1]; dt := DFloat |}.
Definition loaded_y (l n : nat) : ndarray :=
  {| base := S l; offset := 0; shape := [n]; strides := [1]; dt := DInt |}.

End loader.
End Timeseries.

(** ** A decimal implementation of the float64 interface

    Numbers are exact rationals written as an optional sign, digits and an
    optional fraction; used to run the loader on concrete files. *)

Module Decimal.

Definition digit_of (c : ascii) : option Z :=
  let n := nat_of_ascii c in
  if (48 <=? n) && (n <=? 57) then Some (Z.of_nat (n - 48)) else None.

Fixpoint digits (s : string) (acc : Z) (den : positive) (frac : bool) : option Q :=
  match s with
  | EmptyString => Some (acc # den)
  | String c s' =>
      if Ascii.eqb c "." then (if frac then None else digits s' acc den true)
      else d ← digit_of c;
           digits s' (10 * acc + d)%Z (if frac then (10 * den)%positive else den) frac
  end.

Definition of_string (s : string) : option Q :=
  match s with
  | EmptyString => None
  | String c s' =>
      if Ascii.eqb c "-"
      then (if Numpy.nonempty s' then Qopp <$> digits s' 0 1 false else None)
      else digits s 0 1 false
  end.

Definition to_int (q : Q) : Z := (Qnum q ÷ Z.pos (Qden q))%Z.

Definition decimal : Float64 := {|
  float64 := Q;
  float_of_string := of_string;
  float_to_int := to_int;
  float_of_Z := inject_Z;
  float_eqb := Qeq_bool
|}.

(** Two small files in the layout of the FordA files: the label first,
    then the measurements, separated by tabs. *)
Definition tab : string := String "009" EmptyString.
Definition nl : string := String "010" EmptyString.

Definition train_text : string :=
  "-1" +:+ tab +:+ "0.5" +:+ tab +:+ "1.5" +:+ nl +:+
  "1" +:+ tab +:+ "2" +:+ tab +:+ "3" +:+ nl +:+
  "-1" +:+ tab +:+ "4" +:+ tab +:+ "5" +:+ nl.

Definition test_text : string :=
  "1" +:+ tab +:+ "6" +:+ tab +:+ "7" +:+ nl +:+
  "-1" +:+ tab +:+ "8" +:+ tab +:+ "9" +:+ nl.

Definition sample_fs : gmap string string :=
  <[Timeseries.train_url := train_text]>
    (<[Timeseries.test_url := test_text]> ∅).

(** The numbers in the two files. *)
Definition train_rows : list (list Q) :=
  [[-1; 0.5; 1.5]; [1; 2; 3]; [-1; 4; 5]]%Q.
Definition test_rows : list (list Q) :=
  [[1; 6; 7]; [-1; 8; 9]]%Q.

(** The generator reverses the rows. *)
Definition sample_draw (n : nat) : list nat := rev (seq 0 n).

(** The heap once the two files are loaded. *)
Definition loaded_heap : list (list (Numpy.scalar_of (@float64 decimal))) :=
  (Timeseries.load_data (F:=decimal) sample_fs []).2.

(** A file with a single row. *)
Definition one_row_text : string :=
  "1" +:+ tab +:+ "2" +:+ tab +:+ "3" +:+ nl.
Definition one_row_fs : gmap string string := {["one.tsv" := one_row_text]}.

(** A file with a single column, and a file whose rows differ in width. *)
Definition one_column_text : string := "1" +:+ nl +:+ "-1" +:+ nl.
Definition one_column_fs : gmap string string :=
  {["labels.tsv" := one_column_text]}.

Definition ragged_text : string :=
  "1" +:+ tab +:+ "2" +:+ nl +:+ "3" +:+ nl.
Definition ragged_fs : gmap string string := {["ragged.tsv" := ragged_text]}.

(** A table whose lines end with a carriage return alone. *)
Definition cr : string := String "013" EmptyString.
Definition mac_text : string :=
  "1" +:+ tab +:+ "2" +:+ cr +:+ "-1" +:+ tab +:+ "3" +:+ cr.
Definition mac_fs : gmap string string := {["mac.tsv" := mac_text]}.

End Decimal.


(** ** The timeseries notebook: model builder

    The Keras functional API builds a graph: calling a layer on symbolic
    tensors appends a node and returns the symbolic output tensor, whose
    shape the framework infers (or it raises).  What the framework accepts
    and which shape it infers is its own matter: it is a parameter here. *)

Module Keras.

(** A dimension is an integer or [None]. *)
Definition dim := option Z.
Definition tshape := list dim.

(** The layers the notebook uses; [Add] is the [+] of two symbolic
    tensors. *)
Inductive layer :=
| InputLayer (input_shape : list Z)
| LayerNormalization (epsilon : Q)
| MultiHeadAttention (key_dim num_heads : Z) (dropout : Q)
| Dropout (rate : Q)
| Add
| Conv1D (filters : dim) (kernel_size : Z) (activation : option string)
| GlobalAveragePooling1D (data_format : string)
| Dense (units : Z) (activation : option string).

(** A symbolic tensor: the node that outputs it, and its shape. *)
Record tensor := { tid : nat; shape_of : tshape }.

Record node := { n_layer : layer; n_inputs : list nat }.

(** The graph built so far; node [k] outputs tensor [k]. *)
Definition graph := list node.

Record model := { m_inputs : tensor; m_outputs : tensor }.

Section builder.
(** The framework's shape inference and validation. *)
Variable infer : layer → list tshape → Py.result tshape.
(** The global [n_classes] of the notebook. *)
Variable n_classes : nat.

(** Calling a layer on its input tensors. *)
Definition call (l : layer) (ins : list tensor) : Py.M graph tensor :=
  λ g, match infer l (shape_of <$> ins) with
       | Py.Ok shp =>
           (Py.Ok {| tid := length g; shape_of := shp |},
            g ++ [{| n_layer := l; n_inputs := tid <$> ins |}])
       | Py.Raise e => (Py.Raise e, g)
       end.

(** [t.shape[-1]] *)
Definition shape_last (t : tensor) : Py.M graph dim :=
  match last (shape_of t) with
  | Some d => mret d
  | None => Py.raise Py.IndexError
  end.

Definition transformer_encoder (inputs : tensor) (head_size num_heads ff_dim : Z)
    (dropout : Q) : Py.M graph tensor :=
  (* Normalization and Attention *)
  x ← call (LayerNormalization (1 # 1000000)) [inputs];
  x ← call (MultiHeadAttention head_size num_heads dropout) [x; x];
  x ← call (Dropout dropout) [x];
  res ← call Add [x; inputs];
  (* Feed Forward Part *)
  x ← call (LayerNormalization (1 # 1000000)) [res];
  x ← call (Conv1D (Some ff_dim) 1 (Some "relu")) [x];
  x ← call (Dropout dropout) [x];
  filters ← shape_last inputs;
  x ← call (Conv1D filters 1 None) [x];
  call Add [x; res].

Definition build_model (input_shape : list Z)
    (head_size num_heads ff_dim num_transformer_blocks : Z)
    (mlp_units : list Z) (dropout mlp_dropout : Q) : Py.M graph model :=
  inputs ← call (InputLayer input_shape) [];
  let x := inputs in
  x ← Py.for_each (Py.range num_transformer_blocks)
        (λ _ x, transformer_encoder x head_size num_heads ff_dim dropout) x;
  x ← call (GlobalAveragePooling1D "channels_first") [x];
  x ← Py.for_each mlp_units
        (λ dim x,
           x ← call (Dense dim (Some "relu")) [x];
           call (Dropout mlp_dropout) [x]) x;
  outputs ← call (Dense (Z.of_nat n_classes) (Some "softmax")) [x];
  mret {| m_inputs := inputs; m_outputs := outputs |}.

(** The framework accepts every layer call and gives every tensor at
    least one axis. *)
Definition accepts_all : Prop :=
  ∀ l ins, ∃ shp, infer l ins = Py.Ok shp ∧ shp ≠ [].

(** An exception of the framework, or the IndexError of [shape[-1]] on a
    tensor without axes. *)
Definition raised_by_framework (e : Py.exn) : Prop :=
  (∃ l ins, infer l ins = Py.Raise e) ∨ e = Py.IndexError.

(** *** The composition as the specification words it *)

(** The block applied [n] times in sequence. *)
Fixpoint encoder_stack (n : nat) (x : tensor) (head_size num_heads ff_dim : Z)
    (dropout : Q) : Py.M graph tensor :=
  match n with
  | O => mret x
  | S n' =>
      x' ← transformer_encoder x head_size num_heads ff_dim dropout;
      encoder_stack n' x' head_size num_heads ff_dim dropout
  end.

(** One Dense and Dropout pair per entry of [mlp_units], in order. *)
Fixpoint mlp_pairs (mlp_units : list Z) (mlp_dropout : Q) (x : tensor)
  : Py.M graph tensor :=
  match mlp_units with
  | [] => mret x
  | d :: ds =>
      x ← call (Dense d (Some "relu")) [x];
      x ← call (Dropout mlp_dropout) [x];
      mlp_pairs ds mlp_dropout x
  end.

(** The classification head. *)
Definition classification_head (mlp_units : list Z) (mlp_dropout : Q) (x : tensor)
  : Py.M graph tensor :=
  x ← call (GlobalAveragePooling1D "channels_first") [x];
  x ← mlp_pairs mlp_units mlp_dropout x;
  call (Dense (Z.of_nat n_classes) (Some "softmax")) [x].

Definition stack_then_head (input_shape : list Z)
    (head_size num_heads ff_dim : Z) (blocks : nat)
    (mlp_units : list Z) (dropout mlp_dropout : Q) : Py.M graph model :=
  inputs ← call (InputLayer input_shape) [];
  x ← encoder_stack blocks inputs head_size num_heads ff_dim dropout;
  outputs ← classification_head mlp_units mlp_dropout x;
  mret {| m_inputs := inputs; m_outputs := outputs |}.

End builder.

(** The layers one encoder block creates, in order; [filters] is the last
    dimension of the block's input. *)
Definition encoder_layers (head_size num_heads ff_dim : Z) (dropout : Q)
    (filters : dim) : list layer :=
  [ LayerNormalization (1 # 1000000);
    MultiHeadAttention head_size num_heads dropout;
    Dropout dropout;
    Add;
    LayerNormalization (1 # 1000000);
    Conv1D (Some ff_dim) 1 (Some "relu");
    Dropout dropout;
    Conv1D filters 1 None;
    Add ].

(** The layers of the head. *)
Definition head_layers (n_classes : nat) (mlp_units : list Z) (mlp_dropout : Q)
  : list layer :=
  GlobalAveragePooling1D "channels_first"
  :: flat_map (λ d, [Dense d (Some "relu"); Dropout mlp_dropout]) mlp_units
  ++ [Dense (Z.of_nat n_classes) (Some "softmax")].

(** The nodes one encoder block appends when its input is tensor [i] and
    the graph has [k] nodes: the wiring of [transformer_encoder]. *)
Definition encoder_nodes (head_size num_heads ff_dim : Z) (dropout : Q)
    (i k : nat) (filters : dim) : list node :=
  [ {| n_layer := LayerNormalization (1 # 1000000); n_inputs := [i] |};
    {| n_layer := MultiHeadAttention head_size num_heads dropout; n_inputs := [k; k] |};
    {| n_layer := Dropout dropout; n_inputs := [k + 1] |};
    {| n_layer := Add; n_inputs := [k + 2; i] |};
    {| n_layer := LayerNormalization (1 # 1000000); n_inputs := [k + 3] |};
    {| n_layer := Conv1D (Some ff_dim) 1 (Some "relu"); n_inputs := [k + 4] |};
    {| n_layer := Dropout dropout; n_inputs := [k + 5] |};
    {| n_layer := Conv1D filters 1 None; n_inputs := [k + 6] |};
    {| n_layer := Add; n_inputs := [k + 7; k + 3] |} ].

(** One block per entry of [fs], each fed with the output of the block
    before it. *)
Fixpoint stack_nodes (head_size num_heads ff_dim : Z) (dropout : Q)
    (i k : nat) (fs : list dim) : list node :=
  match fs with
  | [] => []
  | f :: fs' =>
      encoder_nodes head_size num_heads ff_dim dropout i k f
      ++ stack_nodes head_size num_heads ff_dim dropout (k + 8) (k + 9) fs'
  end.

(** Layers applied one after the other, the first to tensor [i]. *)
Fixpoint chain_nodes (i k : nat) (ls : list layer) : list node :=
  match ls with
  | [] => []
  | l :: ls' => {| n_layer := l; n_inputs := [i] |} :: chain_nodes k (S k) ls'
  end.

(** A shape inference in the manner of Keras, used to run the builder:
    normalisation, attention and dropout keep the shape of their first
    input, a convolution of kernel size 1 replaces the channel dimension,
    the pooling drops the last axis, a dense layer replaces the last
    dimension. *)
Definition sample_infer (l : layer) (ins : list tshape) : Py.result tshape :=
  match l, ins with
  | InputLayer s, [] => Py.Ok (None :: (Some <$> s))
  | LayerNormalization _, [s] => Py.Ok s
  | MultiHeadAttention _ _ _, [q; _] => Py.Ok q
  | Dropout _, [s] => Py.Ok s
  | Add, [s1; s2] => if bool_decide (s1 = s2) then Py.Ok s1 else Py.Raise Py.ValueError
  | Conv1D f _ _, [[b; t; _]] => Py.Ok [b; t; f]
  | GlobalAveragePooling1D _, [[b; c; _]] => Py.Ok [b; c]
  | Dense u _, [s] =>
      match s with
      | _ :: _ :: _ => Py.Ok (removelast s ++ [Some u])
      | _ => Py.Raise Py.ValueError
      end
  | _, _ => Py.Raise Py.ValueError
  end.

(** The call of the notebook, with two classes, on an empty graph. *)
Definition notebook_build : Py.result model * graph :=
  build_model sample_infer 2 [500; 1]%Z 256 4 4 4 [128]%Z 0.25 0.4 [].

(** What the builder needs from the framework for its layers to fit
    together: the layers of the notebook, with valid arguments and on
    inputs of known size, are accepted, and their output shapes are those
    of Keras (normalisation, attention, dropout and the sum keep the shape,
    a convolution of kernel size 1 replaces the channels, the
    channels-first pooling averages over the last axis, a dense layer
    replaces the last dimension). *)
Record keras_shapes (infer : layer → list tshape → Py.result tshape) : Prop := {
  shape_input : ∀ s,
    Forall (λ d, 0 < d)%Z s →
    infer (InputLayer s) [] = Py.Ok (None :: (Some <$> s));
  shape_normalization : ∀ e b t c,
    infer (LayerNormalization e) [[b; Some t; Some c]] = Py.Ok [b; Some t; Some c];
  shape_attention : ∀ k n d b t c,
    (0 < k)%Z → (0 < n)%Z → (0 <= d)%Q → (d < 1)%Q →
    infer (MultiHeadAttention k n d) [[b; Some t; Some c]; [b; Some t; Some c]]
    = Py.Ok [b; Some t; Some c];
  shape_dropout : ∀ r s,
    (0 <= r)%Q → (r < 1)%Q → infer (Dropout r) [s] = Py.Ok s;
  shape_add : ∀ b t c,
    infer Add [[b; Some t; Some c]; [b; Some t; Some c]] = Py.Ok [b; Some t; Some c];
  shape_conv : ∀ f a b t c,
    (0 < f)%Z →
    infer (Conv1D (Some f) 1 a) [[b; Some t; Some c]] = Py.Ok [b; Some t; Some f];
  shape_pooling : ∀ b t c,
    infer (GlobalAveragePooling1D "channels_first") [[b; Some t; Some c]]
    = Py.Ok [b; Some t];
  shape_dense : ∀ u a b c,
    (0 < u)%Z → infer (Dense u a) [[b; Some c]] = Py.Ok [b; Some u]
}.

(** [infer'] is [infer] made to reject some layer calls with [e]. *)
Definition rejecting (e : Py.exn)
    (infer infer' : layer → list tshape → Py.result tshape) : Prop :=
  ∀ l ins, infer' l ins = infer l ins ∨ infer' l ins = Py.Raise e.

(** A builder step that ends with [e], or else runs as [m] does. *)
Definition ends_or_agrees {A} (e : Py.exn) (m' m : Py.M graph A) : Prop :=
  ∀ g, (m' g).1 = Py.Raise e ∨ m' g = m g.

(** [sample_infer] with every dense layer rejected. *)
Definition reject_dense (l : layer) (ins : list tshape) : Py.result tshape :=
  match l with
  | Dense _ _ => Py.Raise (Py.LibraryError "Dense" 400)
  | _ => sample_infer l ins
  end.

End Keras.

(** ** The timeseries notebook: from the loaded data to the model

    The first two statements of the cell "Train and evaluate"; the rest of
    the cell hands the model and the arrays to Keras. *)

Module Training.
Section driver.
Context {F : Float64}.
Variable infer : Keras.layer → list Keras.tshape → Py.result Keras.tshape.

(** [input_shape = x_train.shape[1:]] *)
Definition input_shape (g : Timeseries.globals) : list Z :=
  Z.of_nat <$> drop 1 (Numpy.shape (Timeseries.x_train g)).

(** [model = build_model(input_shape, head_size=256, num_heads=4, ff_dim=4,
    num_transformer_blocks=4, mlp_units=[128], mlp_dropout=0.4,
    dropout=0.25)], with the global [n_classes] of the loader. *)
Definition build (g : Timeseries.globals) : Py.M Keras.graph Keras.model :=
  Keras.build_model infer (Timeseries.n_classes g) (input_shape g)
    256 4 4 4 [128]%Z 0.25 0.4.

End driver.
End Training.

(** ** The cloud notebook

    The cells after the imports and the project configuration.  The
    notebook talks to the outside through library calls (Keras, the Kaggle
    and Colab helpers, TensorFlow Cloud): every call, constructor,
    subscript on a library object and import is one, made in the order
    Python evaluates them, so that the arguments of a call are built
    before the call itself.  A call is recorded in the order it is made;
    whether it raises is the library's matter and is a parameter.  The
    process environment, the loaded modules and the files of the working
    directory are part of the store, as the statements of the notebook
    read and change them: what a library does to them on its own account
    (a credentials helper exporting variables, a job submission writing
    build files) is outside the model, and library calls are taken to
    leave alone what the notebook itself reads there.  Opening a file
    for writing is a call too: it may fail, and then leaves the file as it
    was; the write of the one line into the opened file is taken to
    succeed. *)

Module Cloud.

Inductive callback :=
| TensorBoard (log_dir : string)
| ModelCheckpoint (filepath : string) (save_best_only : bool)
| EarlyStopping (monitor : string) (min_delta : Q) (patience : Z).

(** The training data handed to [fit]: [x_train] or [x_train[:n]]. *)
Inductive samples :=
| AllSamples
| FirstSamples (n : Z).

Record docker_config := {
  parent_image : string;
  image_build_bucket : string
}.

Inductive libcall :=
| ImportFrom (package name : string)
| Open (name mode : string)
| NewUserSecretsClient
| SetGcloudCredentials (project : string)
| AuthenticateUser
| MnistLoadData
| ReshapeX (shp : list Z)
| AstypeX (dtype : string)
| DivideX (divisor : Z)
| NewLayer (l : Keras.layer) (input_shape : option (list Z))
| Sequential (layers : list Keras.layer) (input_shape : list Z)
| NewAdam
| Compile (loss optimizer : string) (metrics : list string)
| Slice (array : string) (stop : Z)
| NewCallback (cb : callback)
| Fit (x y : samples) (validation_split : Q) (epochs : Z)
      (callbacks : option (list callback))
| Save (path : string)
| NewDockerConfig (docker : docker_config)
| MachineConfig (key : string)
| Run (distribution_strategy requirements_txt : string)
      (docker : docker_config)
      (chief_config : string)
      (job_labels : list (string * string)).

Record world := {
  environ : gmap string string;
  sys_modules : gset string;
  files : gmap string string;
  calls : list libcall
}.

Definition starts_with_slash (s : string) : bool :=
  match s with
  | String c _ => Ascii.eqb c "/"
  | EmptyString => false
  end.

Fixpoint ends_with_slash (s : string) : bool :=
  match s with
  | EmptyString => false
  | String c EmptyString => Ascii.eqb c "/"
  | String _ s' => ends_with_slash s'
  end.

(** [os.path.join(a, b)] on a POSIX system. *)
Definition os_path_join (a b : string) : string :=
  if starts_with_slash b then b
  else if negb (Numpy.nonempty a) || ends_with_slash a then a +:+ b
  else a +:+ "/" +:+ b.

(** *** Project configuration *)

Definition GCP_PROJECT_ID : string := "YOUR_PROJECT_ID".
Definition GCS_BUCKET : string := "YOUR_GCS_BUCKET_NAME".
Definition REGION : string := "us-central1".
Definition JOB_NAME : string := "mnist".
Definition GCS_BASE_PATH : string := "gs://" +:+ GCS_BUCKET +:+ "/" +:+ JOB_NAME.
Definition TENSORBOARD_LOGS_DIR : string := os_path_join GCS_BASE_PATH "logs".
Definition MODEL_CHECKPOINT_DIR : string := os_path_join GCS_BASE_PATH "checkpoints".
Definition SAVED_MODEL_DIR : string := os_path_join GCS_BASE_PATH "saved_model".

Definition TF_GPU_IMAGE : string := "gcr.io/deeplearning-platform-release/tf2-cpu.2-5".
Definition TF_CPU_IMAGE : string := "gcr.io/deeplearning-platform-release/tf2-gpu.2-5".

(** *** The store *)

Definition add_call (c : libcall) (w : world) : world :=
  {| environ := environ w; sys_modules := sys_modules w;
     files := files w; calls := calls w ++ [c] |}.

Definition set_environ (k v : string) (w : world) : world :=
  {| environ := <[k := v]> (environ w); sys_modules := sys_modules w;
     files := files w; calls := calls w |}.

Definition set_file (name text : string) (w : world) : world :=
  {| environ := environ w; sys_modules := sys_modules w;
     files := <[name := text]> (files w); calls := calls w |}.

Definition add_module (name : string) (w : world) : world :=
  {| environ := environ w; sys_modules := {[name]} ∪ sys_modules w;
     files := files w; calls := calls w |}.

(** TensorFlow Cloud marks the remote worker with an environment
    variable; [tfc.remote()] is its truth value. *)
Definition remote_flag (w : world) : bool :=
  match environ w !! "TF_KERAS_RUNNING_REMOTELY" with
  | Some v => Numpy.nonempty v
  | None => false
  end.

Definition requirements_text : string :=
  "tensorflow-cloud" +:+ String "010" EmptyString.

Section notebook.
(** [raises k c]: the exception the library raises when [c] is the
    [k]-th call made, if any. *)
Variable raises : nat → libcall → option Py.exn.

Definition lib (c : libcall) : Py.M world unit :=
  λ w, match raises (length (calls w)) c with
       | Some e => (Py.Raise e, add_call c w)
       | None => (Py.Ok tt, add_call c w)
       end.

(** [tfc.remote()] *)
Definition remote : Py.M world bool := λ w, (Py.Ok (remote_flag w), w).

(** [name in sys.modules] *)
Definition in_sys_modules (name : string) : Py.M world bool :=
  λ w, (Py.Ok (bool_decide (name ∈ sys_modules w)), w).

(** [os.environ[k] = v] *)
Definition setenv (k v : string) : Py.M world unit :=
  λ w, (Py.Ok tt, set_environ k v w).

(** [f.write(text)] on a file just opened for writing, and its closing:
    the file holds [text]. *)
Definition f_write (name text : string) : Py.M world unit :=
  λ w, (Py.Ok tt, set_file name text w).

(** [with open(name, "w") as f: f.write(text)] *)
Definition write_file (name text : string) : Py.M world unit :=
  lib (Open name "w");;
  f_write name text.

(** [from package import name]: the import machinery runs, and when it
    returns the package is among the loaded modules. *)
Definition loaded (name : string) : Py.M world unit :=
  λ w, (Py.Ok tt, add_module name w).

Definition import_from (package name : string) : Py.M world unit :=
  lib (ImportFrom package name);;
  loaded package.

Definition when (b : bool) (m : Py.M world unit) : Py.M world unit :=
  if b then m else mret tt.

(** Cell "Authenticating the notebook". *)
Definition authenticate : Py.M world unit :=
  r ← remote;
  when (negb r)
    (k ← in_sys_modules "kaggle_secrets";
     when k (import_from "kaggle_secrets" "UserSecretsClient";;
             lib NewUserSecretsClient;;
             lib (SetGcloudCredentials GCP_PROJECT_ID));;
     c ← in_sys_modules "google.colab";
     when c (import_from "google.colab" "auth";;
             lib AuthenticateUser;;
             setenv "GOOGLE_CLOUD_PROJECT" GCP_PROJECT_ID)).

(** Cell "Load and split data". *)
Definition load_and_split : Py.M world unit :=
  lib MnistLoadData;;
  lib (ReshapeX [60000; 28 * 28]%Z);;
  lib (AstypeX "float32");;
  lib (DivideX 255).

(** Cell "Create a model and prepare for training". *)
Definition model_layers : list Keras.layer :=
  [Keras.Dense 512 (Some "relu"); Keras.Dropout 0.2;
   Keras.Dense 10 (Some "softmax")].

Definition create_model : Py.M world unit :=
  import_from "tensorflow.keras" "layers";;
  lib (NewLayer (Keras.Dense 512 (Some "relu")) (Some [28 * 28]%Z));;
  lib (NewLayer (Keras.Dropout 0.2) None);;
  lib (NewLayer (Keras.Dense 10 (Some "softmax")) None);;
  lib (Sequential model_layers [28 * 28]%Z);;
  lib NewAdam;;
  lib (Compile "sparse_categorical_crossentropy" "Adam" ["accuracy"]).

(** Cell "Quick validation training". *)
Definition smoke_fit : libcall :=
  Fit (FirstSamples 100) (FirstSamples 100) 0.2 1 None.

Definition quick_validation : Py.M world unit :=
  r ← remote;
  when (negb r)
    (lib (Slice "x_train" 100);;
     lib (Slice "y_train" 100);;
     lib smoke_fit).

(** Cell "Prepare for remote training". *)
Definition training_callbacks : list callback :=
  [ TensorBoard TENSORBOARD_LOGS_DIR;
    ModelCheckpoint MODEL_CHECKPOINT_DIR true;
    EarlyStopping "loss" 0.001 3 ].

Definition full_fit : libcall :=
  Fit AllSamples AllSamples 0.2 100 (Some training_callbacks).

Definition remote_training : Py.M world unit :=
  r ← remote;
  when r
    (lib (NewCallback (TensorBoard TENSORBOARD_LOGS_DIR));;
     lib (NewCallback (ModelCheckpoint MODEL_CHECKPOINT_DIR true));;
     lib (NewCallback (EarlyStopping "loss" 0.001 3));;
     lib full_fit;;
     lib (Save SAVED_MODEL_DIR)).

(** Cell "Start the remote training". *)
Definition run_docker_config : docker_config :=
  {| parent_image := TF_GPU_IMAGE; image_build_bucket := GCS_BUCKET |}.

Definition run_call : libcall :=
  Run "auto" "requirements.txt" run_docker_config "K80_1X" [("job", JOB_NAME)].

Definition start_remote_training : Py.M world unit :=
  write_file "requirements.txt" requirements_text;;
  lib (NewDockerConfig run_docker_config);;
  lib (MachineConfig "K80_1X");;
  lib run_call.

(** The code cells before the last one, in order. *)
Definition cells_before_submit : Py.M world unit :=
  authenticate;;
  load_and_split;;
  create_model;;
  quick_validation;;
  remote_training.

(** The notebook. *)
Definition notebook : Py.M world unit :=
  cells_before_submit;;
  start_remote_training.

(** *** The notebook as a script

    What a run does to the outside, one item after the other. *)
Inductive item :=
| Call (c : libcall)
| SetEnv (k v : string)
| WriteFile (name text : string)
| AddModule (name : string).

Fixpoint run_items (items : list item) : Py.M world unit :=
  match items with
  | [] => mret tt
  | Call c :: items' => lib c;; run_items items'
  | SetEnv k v :: items' => setenv k v;; run_items items'
  | WriteFile n t :: items' => f_write n t;; run_items items'
  | AddModule n :: items' => loaded n;; run_items items'
  end.

End notebook.

(** The authentication of a Kaggle session, and of a Colab session. *)
Definition script_kaggle : list item :=
  [ Call (ImportFrom "kaggle_secrets" "UserSecretsClient");
    AddModule "kaggle_secrets";
    Call NewUserSecretsClient;
    Call (SetGcloudCredentials GCP_PROJECT_ID) ].

Definition script_colab : list item :=
  [ Call (ImportFrom "google.colab" "auth");
    AddModule "google.colab";
    Call AuthenticateUser;
    SetEnv "GOOGLE_CLOUD_PROJECT" GCP_PROJECT_ID ].

Definition script_authenticate (is_remote kaggle colab : bool) : list item :=
  if is_remote then []
  else (if kaggle then script_kaggle else [])
       ++ (if colab then script_colab else []).

(** Loading the data and creating the model, the same on every host. *)
Definition script_model : list item :=
  [ Call MnistLoadData;
    Call (ReshapeX [60000; 28 * 28]%Z);
    Call (AstypeX "float32");
    Call (DivideX 255);
    Call (ImportFrom "tensorflow.keras" "layers");
    AddModule "tensorflow.keras";
    Call (NewLayer (Keras.Dense 512 (Some "relu")) (Some [28 * 28]%Z));
    Call (NewLayer (Keras.Dropout 0.2) None);
    Call (NewLayer (Keras.Dense 10 (Some "softmax")) None);
    Call (Sequential model_layers [28 * 28]%Z);
    Call NewAdam;
    Call (Compile "sparse_categorical_crossentropy" "Adam" ["accuracy"]) ].

Definition script_fit (is_remote : bool) : list item :=
  if is_remote
  then [ Call (NewCallback (TensorBoard TENSORBOARD_LOGS_DIR));
         Call (NewCallback (ModelCheckpoint MODEL_CHECKPOINT_DIR true));
         Call (NewCallback (EarlyStopping "loss" 0.001 3));
         Call full_fit;
         Call (Save SAVED_MODEL_DIR) ]
  else [ Call (Slice "x_train" 100);
         Call (Slice "y_train" 100);
         Call smoke_fit ].

(** The script of the cells before the last, by host: on the remote
    worker, in a Kaggle notebook, in a Colab notebook. *)
Definition script_before_submit (is_remote kaggle colab : bool) : list item :=
  script_authenticate is_remote kaggle colab
  ++ script_model
  ++ script_fit is_remote.

Definition script_submit : list item :=
  [ Call (Open "requirements.txt" "w");
    WriteFile "requirements.txt" requirements_text;
    Call (NewDockerConfig run_docker_config);
    Call (MachineConfig "K80_1X");
    Call run_call ].

Definition calls_of (items : list item) : list libcall :=
  omap (λ i, match i with Call c => Some c | _ => None end) items.

(** The effect of one item that does not raise. *)
Definition apply_item (w : world) (i : item) : world :=
  match i with
  | Call c => add_call c w
  | SetEnv k v => set_environ k v w
  | WriteFile n t => set_file n t w
  | AddModule n => add_module n w
  end.

Definition kaggle_flag (w : world) : bool :=
  bool_decide ("kaggle_secrets" ∈ sys_modules w).
Definition colab_flag (w : world) : bool :=
  bool_decide ("google.colab" ∈ sys_modules w).

(** An item that leaves the marker of the remote worker alone. *)
Definition keeps_marker (i : item) : Prop :=
  match i with
  | SetEnv k _ => k ≠ "TF_KERAS_RUNNING_REMOTELY"
  | _ => True
  end.

(** The calls that train or persist the model. *)
Definition is_training (c : libcall) : bool :=
  match c with
  | Fit _ _ _ _ _ | Save _ => true
  | _ => false
  end.

Definition is_run (c : libcall) : bool :=
  match c with
  | Run _ _ _ _ _ => true
  | _ => false
  end.

(** A notebook host for running the cells: a Colab session, or the
    remote worker. *)
Definition colab_world : world := {|
  environ := ∅;
  sys_modules := {["google.colab"]};
  files := ∅;
  calls := []
|}.

Definition worker_world : world := {|
  environ := {["TF_KERAS_RUNNING_REMOTELY" := "1"]};
  sys_modules := ∅;
  files := ∅;
  calls := []
|}.

Definition never_raises : nat → libcall → option Py.exn := λ _ _, None.

(** The cloud SDK rejects the submission. *)
Definition run_raises : nat → libcall → option Py.exn :=
  λ _ c, if is_run c then Some (Py.LibraryError "tfc.run" 403) else None.

(** The Colab authentication fails. *)
Definition auth_raises : nat → libcall → option Py.exn :=
  λ _ c, match c with
         | AuthenticateUser => Some (Py.LibraryError "auth.authenticate_user" 401)
         | _ => None
         end.

End Cloud.

(** * Facts *)

(** ** The store-passing monad *)

Section monad_facts.
Context {S A B : Type}.

Lemma bind_run (m : Py.M S A) (k : A → Py.M S B) s a s' :
  m s = (Py.Ok a, s') → (m ≫= k) s = k a s'.
Proof. unfold mbind, Py.M_bind, Py.bind. by intros ->. Qed.

Lemma ret_bind_run (a : A) (k : A → Py.M S B) s :
  (mret a ≫= k) s = k a s.
Proof. reflexivity. Qed.

Lemma bind_raise (m : Py.M S A) (k : A → Py.M S B) s e s' :
  m s = (Py.Raise e, s') → (m ≫= k) s = (Py.Raise e, s').
Proof. unfold mbind, Py.M_bind, Py.bind. by intros ->. Qed.

Lemma bind_inv (m : Py.M S A) (k : A → Py.M S B) s b s' :
  (m ≫= k) s = (Py.Ok b, s') →
  ∃ a s1, m s = (Py.Ok a, s1) ∧ k a s1 = (Py.Ok b, s').
Proof.
  unfold mbind, Py.M_bind, Py.bind.
  destruct (m s) as [[a|e] s1]; [eauto|done].
Qed.

Lemma bind_raise_inv (m : Py.M S A) (k : A → Py.M S B) s e s' :
  (m ≫= k) s = (Py.Raise e, s') →
  m s = (Py.Raise e, s') ∨ ∃ a s1, m s = (Py.Ok a, s1) ∧ k a s1 = (Py.Raise e, s').
Proof.
  unfold mbind, Py.M_bind, Py.bind.
  destruct (m s) as [[a|e1] s1]; [eauto|]. intros [= <- <-]. by left.
Qed.

Lemma bind_ext (m : Py.M S A) (k k' : A → Py.M S B) s :
  (∀ a s1, k a s1 = k' a s1) → (m ≫= k) s = (m ≫= k') s.
Proof.
  intros Hk. unfold mbind, Py.M_bind, Py.bind.
  destruct (m s) as [[a|e] s1]; [apply Hk|done].
Qed.

Lemma bind_cong_l (m m' : Py.M S A) (k : A → Py.M S B) s :
  m s = m' s → (m ≫= k) s = (m' ≫= k) s.
Proof. unfold mbind, Py.M_bind, Py.bind. by intros ->. Qed.

Lemma bind_assoc {C} (m : Py.M S A) (k : A → Py.M S B) (k' : B → Py.M S C) s :
  ((m ≫= k) ≫= k') s = (m ≫= λ a, k a ≫= k') s.
Proof.
  unfold mbind, Py.M_bind, Py.bind. by destruct (m s) as [[a|e] s1].
Qed.

End monad_facts.

(** ** Reading arrays *)

Section numpy_facts.
Context {F : Float64}.
Import Numpy.

Lemma mapM_app_Some {A B} (f : A → option B) l1 l2 k1 k2 :
  mapM f l1 = Some k1 → mapM f l2 = Some k2 → mapM f (l1 ++ l2) = Some (k1 ++ k2).
Proof.
  rewrite !mapM_Some. apply Forall2_app.
Qed.

Lemma mapM_cons {A B} (f : A → option B) x l :
  mapM f (x :: l) = y ← f x; k ← mapM f l; Some (y :: k).
Proof. reflexivity. Qed.

(** A run of consecutive addresses reads a window of the buffer. *)
Lemma read_seq {A} (b : list A) off n :
  off + n ≤ length b →
  mapM (λ k, b !! k) (seq off n) = Some (take n (drop off b)).
Proof.
  revert off. induction n as [|n IH]; intros off Hlen; simpl.
  - by rewrite take_0.
  - destruct (lookup_lt_is_Some_2 b off) as [v Hv]; [lia|].
    rewrite Hv. simpl. rewrite IH by lia. simpl.
    rewrite (drop_S _ _ _ Hv). reflexivity.
Qed.

Lemma flat_map_seq_rows off m n :
  flat_map (λ i, seq (off + i * m) m) (seq 0 n) = seq off (n * m).
Proof.
  induction n as [|n IH]; [done|].
  rewrite seq_S, flat_map_app, IH. cbn [flat_map]. rewrite app_nil_r.
  rewrite Nat.mul_succ_l, seq_app. done.
Qed.

(** A contiguous array occupies consecutive addresses. *)
Lemma addresses_contiguous shp off :
  addresses off shp (c_strides shp) = seq off (size shp).
Proof.
  revert off. induction shp as [|n shp IH]; intros off; [done|].
  simpl. rewrite <- flat_map_seq_rows.
  apply flat_map_ext. intros i. apply IH.
Qed.

(** Appending an axis of length one does not move any element. *)
Lemma addresses_unit_axis shp : ∀ str off s,
  length str = length shp →
  addresses off (shp ++ [1]) (str ++ [s]) = addresses off shp str.
Proof.
  induction shp as [|n shp IH]; intros [|s0 str] off s Hlen; simplify_eq/=.
  - f_equal. lia.
  - apply flat_map_ext. intros i. by apply IH.
Qed.

Lemma size_unit_axis shp : size (shp ++ [1]) = size shp.
Proof. induction shp as [|n shp IH]; simpl; lia. Qed.

Lemma c_strides_unit_axis shp : c_strides (shp ++ [1]) = c_strides shp ++ [1].
Proof.
  induction shp as [|n shp IH]; [done|].
  simpl. by rewrite size_unit_axis, IH.
Qed.

Lemma length_c_strides shp : length (c_strides shp) = length shp.
Proof. induction shp; simpl; auto. Qed.

(** Allocation keeps every older buffer. *)
Lemma elements_in_app h h' a l :
  elements_in h a = Some l → elements_in (h ++ h') a = Some l.
Proof.
  unfold elements_in. intros Hl.
  destruct (h !! base a) as [b|] eqn:Hb; simplify_eq/=.
  by rewrite (lookup_app_l_Some _ _ _ _ Hb).
Qed.

Lemma elements_in_new h d shp data :
  length data = size shp →
  elements_in (h ++ [data])
    {| base := length h; offset := 0; shape := shp; strides := c_strides shp; dt := d |}
  = Some data.
Proof.
  intros Hlen. unfold elements_in. simpl.
  rewrite lookup_app_r, Nat.sub_diag by lia. simpl.
  rewrite addresses_contiguous, read_seq by lia.
  by rewrite drop_0, <- Hlen, firstn_all.
Qed.


Lemma length_addresses shp : ∀ str off,
  length str = length shp → length (addresses off shp str) = size shp.
Proof.
  induction shp as [|n shp IH]; intros [|s str] off Hlen; simplify_eq/=; [done|].
  assert (∀ l, length (flat_map (λ i, addresses (off + i * s) shp str) l)
               = length l * size shp) as Hl.
  { induction l as [|i l IHl]; [done|].
    cbn [flat_map]. rewrite length_app, IHl, IH by done. simpl. lia. }
  by rewrite Hl, length_seq.
Qed.

Lemma elements_in_length h a l :
  length (strides a) = length (shape a) →
  elements_in h a = Some l → length l = size (shape a).
Proof.
  unfold elements_in. intros Hwf Hl.
  destruct (h !! base a) as [b|]; simplify_eq/=.
  apply length_mapM in Hl. rewrite <- Hl. by apply length_addresses.
Qed.

(** *** Running the primitive operations *)

Lemma new_array_run d shp data (h : heap) :
  new_array d shp data h
  = (Py.Ok {| base := length h; offset := 0; shape := shp;
              strides := c_strides shp; dt := d |}, h ++ [data]).
Proof. reflexivity. Qed.

Lemma elements_run (h : heap) a l :
  elements_in h a = Some l → elements a h = (Py.Ok l, h).
Proof. unfold elements. by intros ->. Qed.

Lemma astype_int_run (h : heap) a l :
  elements_in h a = Some l →
  astype_int a h
  = (Py.Ok {| base := length h; offset := 0; shape := shape a;
              strides := c_strides (shape a); dt := DInt |},
     h ++ [SInt ∘ scalar_to_int <$> l]).
Proof.
  intros Hl. unfold astype_int.
  by rewrite (bind_run _ _ _ _ _ (elements_run _ _ _ Hl)).
Qed.

Lemma eq_int_run (h : heap) a k l :
  elements_in h a = Some l →
  eq_int a k h
  = (Py.Ok {| base := length h; offset := 0; shape := shape a;
              strides := c_strides (shape a); dt := DBool |},
     h ++ [(λ v, SBool (scalar_eq_int v k)) <$> l]).
Proof.
  intros Hl. unfold eq_int.
  by rewrite (bind_run _ _ _ _ _ (elements_run _ _ _ Hl)).
Qed.

(** Appending the unit axis: the result is a view on the same buffer with
    the same element addresses, whichever way [reshape] takes. *)
Lemma reshape_unit_axis_run (h : heap) a :
  length (strides a) = length (shape a) →
  ∃ a', reshape a (shape a ++ [1]) h = (Py.Ok a', h)
        ∧ base a' = base a ∧ offset a' = offset a ∧ dt a' = dt a
        ∧ shape a' = shape a ++ [1]
        ∧ length (strides a') = length (shape a')
        ∧ addresses (offset a') (shape a') (strides a')
          = addresses (offset a) (shape a) (strides a).
Proof.
  intros Hwf. unfold reshape.
  rewrite size_unit_axis, Nat.eqb_refl. simpl.
  case_bool_decide as Hc.
  - eexists. split; [done|]. simpl. repeat split.
    + by rewrite length_c_strides.
    + rewrite Hc, c_strides_unit_axis.
      apply addresses_unit_axis, length_c_strides.
  - rewrite bool_decide_eq_true_2 by done.
    eexists. split; [done|]. simpl. repeat split.
    + rewrite !length_app. simpl. lia.
    + by apply addresses_unit_axis.
Qed.


(** *** Rows *)

Lemma mapM_fmap_list {A B C} (f : B → option C) (g : A → B) l :
  mapM f (g <$> l) = mapM (f ∘ g) l.
Proof. induction l as [|x l IH]; [done|]. by rewrite fmap_cons, !mapM_cons, IH. Qed.

Lemma mapM_flat_map {A B C} (f : B → option C) (g : A → list B) l ks :
  mapM (λ i, mapM f (g i)) l = Some ks →
  mapM f (flat_map g l) = Some (concat ks).
Proof.
  revert ks. induction l as [|i l IH]; intros ks Hks; [by injection Hks as <-|].
  rewrite mapM_cons in Hks. cbn [flat_map].
  destruct (mapM f (g i)) as [k|] eqn:Hk; [|done].
  destruct (mapM _ l) as [ks'|] eqn:Hks'; [|done].
  injection Hks as <-. apply mapM_app_Some; auto.
Qed.

(** Reading the same columns [k .. k+w) of every row of a table stored
    row by row. *)
Lemma read_table_rows {A} (rows : list (list A)) c k w : ∀ pre post,
  Forall (λ r, length r = c) rows → k + w ≤ c →
  mapM (λ i, mapM (λ j, (pre ++ concat rows ++ post) !! j)
                  (seq (length pre + k + i * c) w))
       (seq 0 (length rows))
  = Some ((λ r, take w (drop k r)) <$> rows).
Proof.
  induction rows as [|r rows IH]; intros pre post Hc Hkw; [done|].
  inversion_clear Hc as [|?? Hr Hrows].
  change (seq 0 (length (r :: rows))) with (0 :: seq 1 (length rows)).
  rewrite <- fmap_S_seq.
  change (concat (r :: rows)) with (r ++ concat rows).
  rewrite fmap_cons, mapM_cons, mapM_fmap_list.
  rewrite read_seq by (rewrite !length_app; lia).
  rewrite Nat.mul_0_l, Nat.add_0_r, drop_app_add' by done.
  rewrite <- app_assoc, drop_app_le, take_app_le by (rewrite ?length_drop; lia).
  specialize (IH (pre ++ r) post Hrows Hkw).
  rewrite <- !app_assoc in IH.
  erewrite mapM_ext; [rewrite IH; done|].
  intros i. simpl. rewrite length_app, Hr. do 2 f_equal. lia.
Qed.

Lemma rows_in_elements (h : heap) a rs :
  rows_in h a = Some rs → elements_in h a = Some (concat rs).
Proof.
  unfold rows_in, elements_in. intros Hrs.
  destruct (shape a) as [|n shp], (strides a) as [|s str]; try done.
  destruct (h !! base a) as [b|]; [|done].
  simpl in *. by apply mapM_flat_map.
Qed.

(** A freshly allocated array holds its rows one after the other. *)
Lemma rows_in_new (h : heap) d shp rs :
  Forall (λ r, length r = size shp) rs →
  rows_in (h ++ [concat rs])
    {| base := length h; offset := 0; shape := length rs :: shp;
       strides := c_strides (length rs :: shp); dt := d |}
  = Some rs.
Proof.
  intros Hrs. unfold rows_in. simpl.
  rewrite lookup_app_r, Nat.sub_diag by lia. simpl.
  assert ((λ r : list scalar, take (size shp) (drop 0 r)) <$> rs = rs) as Hid.
  { induction Hrs as [|r rs' Hr _ IH]; [done|].
    rewrite fmap_cons, IH. f_equal. rewrite drop_0, <- Hr. apply firstn_all. }
  pose proof (read_table_rows rs (size shp) 0 (size shp) [] [] Hrs (Nat.le_refl _)) as Hread.
  rewrite Hid in Hread. simpl in Hread. rewrite app_nil_r in Hread.
  rewrite <- Hread. apply mapM_ext. intros i. simpl.
  by rewrite addresses_contiguous.
Qed.

Lemma rows_in_app (h h' : heap) a rs :
  rows_in h a = Some rs → rows_in (h ++ h') a = Some rs.
Proof.
  unfold rows_in. intros Hrs.
  destruct (shape a) as [|n shp], (strides a) as [|s str]; try done.
  destruct (h !! base a) as [b|] eqn:Hb; simplify_eq/=.
  by rewrite (lookup_app_l_Some _ _ _ _ Hb).
Qed.

Lemma rows_in_row_length (h : heap) a n shp rs :
  shape a = n :: shp → length (strides a) = length (shape a) →
  rows_in h a = Some rs →
  length rs = n ∧ Forall (λ r, length r = size shp) rs.
Proof.
  unfold rows_in. intros -> Hlen Hrs.
  destruct (strides a) as [|s str]; [done|].
  destruct (h !! base a) as [b|]; simplify_eq/=.
  apply mapM_Some in Hrs. split.
  - apply Forall2_length in Hrs. by rewrite length_seq in Hrs.
  - eapply Forall2_Forall_r; [exact Hrs|].
    apply Forall_forall. intros i _ r Hr.
    apply length_mapM in Hr. rewrite <- Hr. by apply length_addresses.
Qed.


(** *** Loading a table *)

Lemma fmap_concat {A B} (f : A → B) (ls : list (list A)) :
  f <$> concat ls = concat (fmap (M:=list) f <$> ls).
Proof.
  induction ls as [|l ls IH]; [done|].
  by rewrite fmap_cons, !concat_cons, fmap_app, IH.
Qed.

Lemma is_table_float_rows rows c :
  is_table rows c → is_table (float_rows rows) c.
Proof.
  intros (Hn & Hc & Hrows). unfold is_table, float_rows.
  rewrite length_fmap. repeat split; [done..|].
  apply Forall_fmap. eapply Forall_impl; [exact Hrows|].
  intros r Hr. simpl. by rewrite length_fmap.
Qed.

Lemma loadtxt_run fs name d text rows c (h : heap) :
  fs !! name = Some text →
  parse_rows d text = Some rows →
  is_table rows c →
  loadtxt fs name d h
  = (Py.Ok {| base := length h; offset := 0; shape := [length rows; c];
              strides := [c; 1]; dt := DFloat |},
     h ++ [concat (float_rows rows)]).
Proof.
  intros Hfs Hparse (Hn & Hc & Hrows). unfold loadtxt. rewrite Hfs, Hparse.
  destruct rows as [|r0 rs]; [simpl in Hn; lia|].
  inversion Hrows as [|?? Hr0 Hrs]; subst.
  rewrite (proj2 (forallb_forall _ _)); cycle 1.
  { intros r Hr. apply Nat.eqb_eq.
    rewrite Forall_forall in Hrs. apply Hrs. by apply list_elem_of_In. }
  unfold squeeze. cbn [List.filter].
  rewrite (proj2 (Nat.eqb_neq _ 1)) by lia.
  rewrite (proj2 (Nat.eqb_neq (length r0) 1)) by lia.
  cbn [negb]. rewrite new_array_run.
  unfold float_rows. rewrite <- fmap_concat.
  cbn [c_strides size foldr]. by rewrite !Nat.mul_1_r.
Qed.

(** The first column and the remaining columns of a loaded table, read
    through the views [data[:, 0]] and [data[:, 1:]]. *)
Lemma table_columns (h : heap) rs c k w shp' d :
  is_table rs c → k + w ≤ c → shp' = [w] ∨ (shp' = [] ∧ w = 1) →
  rows_in (h ++ [concat rs])
    {| base := length h; offset := k; shape := length rs :: shp';
       strides := c :: (const 1 <$> shp'); dt := d |}
  = Some ((λ r, take w (drop k r)) <$> rs).
Proof.
  intros (_ & _ & Hrs) Hkw Hshp. unfold rows_in. cbn [shape strides base offset].
  rewrite lookup_app_r, Nat.sub_diag by lia. simpl.
  pose proof (read_table_rows rs c k w [] [] Hrs Hkw) as Hread.
  simpl in Hread. rewrite app_nil_r in Hread.
  rewrite <- Hread. apply mapM_ext. intros i.
  destruct Hshp as [->|[-> ->]]; simpl.
  - f_equal.
    pose proof (addresses_contiguous [w] (k + i * c)) as Ha.
    simpl in Ha. rewrite Nat.mul_1_r in Ha. exact Ha.
  - done.
Qed.


Lemma table_first_column (h : heap) rs c d :
  is_table rs c →
  elements_in (h ++ [concat rs])
    {| base := length h; offset := 0; shape := [length rs];
       strides := [c]; dt := d |}
  = Some (concat (take 1 <$> rs)).
Proof.
  intros Ht. apply rows_in_elements.
  assert (0 + 1 ≤ c) as Hk by (destruct Ht as (_ & ? & _); lia).
  exact (table_columns h rs c 0 1 [] d Ht Hk (or_intror (conj eq_refl eq_refl))).
Qed.

Lemma table_other_columns (h h' : heap) rs c d :
  is_table rs c →
  rows_in (h ++ concat rs :: h')
    {| base := length h; offset := 1; shape := [length rs; c - 1];
       strides := [c; 1]; dt := d |}
  = Some (drop 1 <$> rs).
Proof.
  intros Ht. change (concat rs :: h') with ([concat rs] ++ h').
  rewrite app_assoc. apply rows_in_app.
  assert (1 + (c - 1) ≤ c) as Hk by (destruct Ht as (_ & ? & _); lia).
  etrans; [exact (table_columns h rs c 1 (c - 1) [c - 1] d Ht Hk (or_introl eq_refl))|].
  f_equal. destruct Ht as (_ & _ & Hrs).
  induction Hrs as [|r rs' Hr _ IH]; [done|].
  rewrite !fmap_cons, IH. f_equal.
  apply take_ge. rewrite length_drop. lia.
Qed.

Lemma readucr_run fs name text rows c (h : heap) :
  fs !! name = Some text →
  parse_rows "009" text = Some rows →
  is_table rows c →
  Timeseries.readucr fs name h
  = (Py.Ok ({| base := length h; offset := 1; shape := [length rows; c - 1];
               strides := [c; 1]; dt := DFloat |},
            {| base := S (length h); offset := 0; shape := [length rows];
               strides := [1]; dt := DInt |}),
     h ++ [concat (float_rows rows);
           SInt ∘ scalar_to_int <$> concat (take 1 <$> float_rows rows)]).
Proof.
  intros Hfs Hparse Ht. unfold Timeseries.readucr.
  rewrite (bind_run _ _ _ _ _ (loadtxt_run _ _ _ _ _ _ _ Hfs Hparse Ht)).
  pose proof Ht as (Hn & Hc & _).
  unfold getitem_col at 1. cbn [shape strides base offset dt].
  rewrite (proj2 (Nat.ltb_lt 0 c)) by lia.
  unfold getitem_cols_from. cbn [shape strides base offset dt].
  rewrite Nat.min_l by lia.
  rewrite !ret_bind_run. simpl offset.
  apply is_table_float_rows in Ht.
  pose proof (table_first_column h _ _ DFloat Ht) as Hy.
  unfold float_rows in Hy at 2. rewrite length_fmap in Hy.
  rewrite (bind_run _ _ _ _ _ (astype_int_run _ _ _ Hy)).
  cbn [shape c_strides size foldr].
  rewrite length_app, <- app_assoc. simpl. rewrite Nat.add_1_r. done.
Qed.

(** *** Picking rows *)

Lemma mapM_pick {B} (g : nat → option B) n (rs : list B) (ixs : list nat) picked :
  mapM g (seq 0 n) = Some rs →
  mapM (λ i, rs !! i) ixs = Some picked →
  mapM g ixs = Some picked.
Proof.
  rewrite !mapM_Some. intros Hrs Hp.
  eapply Forall2_impl; [exact Hp|]. intros i r Hi. simpl in Hi.
  destruct (Forall2_lookup_r _ _ _ _ _ Hrs Hi) as (j & Hj & Hg).
  apply lookup_seq in Hj as [-> _]. done.
Qed.

Lemma mapM_row_index n (ixs : list nat) :
  Forall (λ i, i < n) ixs →
  mapM (row_index n) (SInt ∘ Z.of_nat <$> ixs) = Some ixs.
Proof.
  induction 1 as [|i ixs Hi _ IH]; [done|].
  rewrite fmap_cons, mapM_cons, IH. simpl.
  rewrite bool_decide_eq_true_2 by lia. simpl. by rewrite Nat2Z.id.
Qed.

Lemma take_rows_run (h : heap) a idx n shp ixs rs picked :
  shape a = n :: shp → length (strides a) = length (shape a) →
  rows_in h a = Some rs →
  elements_in h idx = Some (SInt ∘ Z.of_nat <$> ixs) →
  mapM (λ i, rs !! i) ixs = Some picked →
  take_rows a idx h
  = (Py.Ok {| base := length h; offset := 0; shape := shape idx ++ shp;
              strides := c_strides (shape idx ++ shp); dt := dt a |},
     h ++ [concat picked]).
Proof.
  intros Hshp Hlen Hrs Hidx Hp. unfold take_rows.
  pose proof (rows_in_row_length _ _ _ _ _ Hshp Hlen Hrs) as [Hn _].
  unfold rows_in in Hrs. rewrite Hshp in *.
  destruct (strides a) as [|s str]; [done|].
  rewrite (bind_run _ _ _ _ _ (elements_run _ _ _ Hidx)).
  rewrite mapM_row_index; cycle 1.
  { apply mapM_Some in Hp. eapply Forall2_Forall_l; [exact Hp|].
    apply Forall_forall. intros r _ i Hi. apply lookup_lt_Some in Hi. lia. }
  destruct (h !! base a) as [b|] eqn:Hb; [|done]. simpl in Hrs.
  unfold mbind at 1, Py.M_bind, Py.bind, Py.get. rewrite Hb. simpl.
  rewrite (mapM_flat_map _ _ _ picked); [done|].
  eapply mapM_pick; [exact Hrs|exact Hp].
Qed.


Lemma mapM_lookup_Some {A} (l : list A) (ixs : list nat) :
  Forall (λ i, i < length l) ixs → ∃ picked, mapM (λ i, l !! i) ixs = Some picked.
Proof.
  intros Hixs. apply (mapM_is_Some_2 (λ i, l !! i)).
  eapply Forall_impl; [exact Hixs|]. intros i Hi. simpl.
  by apply lookup_lt_is_Some_2.
Qed.

Lemma shuffle_run draw (h : heap) x y n shx shy xs ys xs' ys' :
  shape x = n :: shx → length (strides x) = length (shape x) →
  rows_in h x = Some xs →
  shape y = n :: shy → length (strides y) = length (shape y) →
  rows_in h y = Some ys →
  length (draw n) = n →
  mapM (λ i, xs !! i) (draw n) = Some xs' →
  mapM (λ i, ys !! i) (draw n) = Some ys' →
  Timeseries.shuffle draw x y h
  = (Py.Ok ({| base := length h; offset := 0; shape := [n];
               strides := [1]; dt := DInt |},
            {| base := S (length h); offset := 0; shape := n :: shx;
               strides := c_strides (n :: shx); dt := dt x |},
            {| base := S (S (length h)); offset := 0; shape := n :: shy;
               strides := c_strides (n :: shy); dt := dt y |}),
     h ++ [SInt ∘ Z.of_nat <$> draw n; concat xs'; concat ys']).
Proof.
  intros Hsx Hlx Hxs Hsy Hly Hys Hn Hpx Hpy. unfold Timeseries.shuffle.
  unfold len. rewrite Hsx. rewrite ret_bind_run.
  unfold random_permutation. rewrite (bind_run _ _ _ _ _ (new_array_run _ _ _ _)).
  assert (elements_in (h ++ [SInt ∘ Z.of_nat <$> draw n])
            {| base := length h; offset := 0; shape := [n];
               strides := c_strides [n]; dt := DInt |}
          = Some (SInt ∘ Z.of_nat <$> draw n)) as Hidx.
  { apply elements_in_new. rewrite length_fmap, Hn. simpl. lia. }
  rewrite (bind_run _ _ _ _ _
    (take_rows_run _ _ _ _ _ _ _ _ Hsx Hlx (rows_in_app _ _ _ _ Hxs) Hidx Hpx)).
  rewrite (bind_run _ _ _ _ _
    (take_rows_run _ _ _ _ _ _ _ _ Hsy Hly
       (rows_in_app _ _ _ _ (rows_in_app _ _ _ _ Hys))
       (elements_in_app _ _ _ _ Hidx) Hpy)).
  rewrite !length_app, <- !app_assoc. simpl.
  rewrite !Nat.add_1_r. done.
Qed.

(** *** Masked assignment *)

Lemma store_frame v ads : ∀ ms b k,
  k ∉ ads → foldl (store_if v) b (zip ads ms) !! k = b !! k.
Proof.
  induction ads as [|a ads IH]; intros [|m ms] b k Hk; try done.
  apply not_elem_of_cons in Hk as [Hka Hk]. simpl.
  rewrite IH by done. unfold store_if. simpl.
  destruct m as [| |[]]; try done. by apply list_lookup_insert_ne.
Qed.

Lemma store_read v ads : ∀ ms b l,
  NoDup ads → length ms = length ads →
  mapM (λ k, b !! k) ads = Some l →
  mapM (λ k, foldl (store_if v) b (zip ads ms) !! k) ads
  = Some (zip_with (chosen v) l ms).
Proof.
  induction ads as [|a ads IH]; intros [|m ms] b l Hnd Hlen Hl; try done.
  { by injection Hl as <-. }
  apply NoDup_cons in Hnd as [Ha Hnd].
  rewrite mapM_cons in Hl.
  destruct (b !! a) as [x|] eqn:Hx; [|done].
  destruct (mapM _ ads) as [l'|] eqn:Hl'; [|done].
  injection Hl as <-.
  rewrite mapM_cons. cbn [zip zip_with foldl].
  rewrite store_frame by done.
  assert (store_if v b (a, m) !! a = Some (chosen v x m)) as ->.
  { unfold store_if, chosen. simpl. destruct m as [| |[]]; try done.
    apply list_lookup_insert_eq. by eapply lookup_lt_Some. }
  rewrite (IH ms (store_if v b (a, m)) l'); [done|done|by injection Hlen|].
  rewrite <- Hl'. apply Forall_mapM_ext, Forall_forall. intros k Hk.
  unfold store_if. simpl. destruct m as [| |[]]; try done.
  apply list_lookup_insert_ne. intros ->. done.
Qed.

Lemma elements_in_insert_ne (h : heap) l b a :
  base a ≠ l → elements_in (<[l := b]> h) a = elements_in h a.
Proof. intros Hne. unfold elements_in. by rewrite list_lookup_insert_ne. Qed.

Lemma rows_in_insert_ne (h : heap) l b a :
  base a ≠ l → rows_in (<[l := b]> h) a = rows_in h a.
Proof. intros Hne. unfold rows_in. by rewrite list_lookup_insert_ne. Qed.

(** [y[y == k] = k'] allocates the mask and rewrites the buffer of [y];
    read back through [y], every element equal to [k] has become [k'] and
    every other element is as before. *)
Lemma remap_run (h : heap) y l :
  well_formed y → elements_in h y = Some l →
  ∃ b' m,
    Timeseries.remap_labels y h = (Py.Ok tt, <[base y := b']> (h ++ [m]))
    ∧ elements_in (<[base y := b']> (h ++ [m])) y
      = Some (replaced (dt y) (-1) 0 <$> l).
Proof.
  intros [Hlen Hnd] Hl. unfold Timeseries.remap_labels.
  rewrite (bind_run _ _ _ _ _ (eq_int_run _ _ _ _ Hl)).
  unfold setitem_mask. cbn [shape]. rewrite bool_decide_eq_true_2 by done.
  cbn [negb].
  pose proof (elements_in_length _ _ _ Hlen Hl) as Hsize.
  set (m := (λ v, SBool (scalar_eq_int v (-1))) <$> l).
  assert (elements_in (h ++ [m])
            {| base := length h; offset := 0; shape := shape y;
               strides := c_strides (shape y); dt := DBool |} = Some m) as Hm.
  { apply elements_in_new. unfold m. by rewrite length_fmap. }
  rewrite (bind_run _ _ _ _ _ (elements_run _ _ _ Hm)).
  unfold elements_in in Hl.
  destruct (h !! base y) as [b|] eqn:Hb; [|done]. simpl in Hl.
  unfold mbind at 1, Py.M_bind, Py.bind, Py.get.
  rewrite (lookup_app_l_Some _ _ _ _ Hb). cbn [base].
  eexists _, m. split; [reflexivity|].
  unfold elements_in.
  rewrite list_lookup_insert_eq
    by (rewrite length_app; apply lookup_lt_Some in Hb; lia).
  simpl. rewrite (store_read _ _ _ _ l); [|done| |done].
  - f_equal. unfold m. clear.
    induction l as [|v l IH]; [done|].
    rewrite !fmap_cons. cbn [zip_with]. rewrite IH. f_equal.
  - unfold m. rewrite length_fmap. apply length_mapM in Hl. done.
Qed.


(** *** The loader, step by step *)

Lemma length_first_column {A} (rs : list (list A)) c :
  is_table rs c → length (concat (take 1 <$> rs)) = length rs.
Proof.
  intros (_ & Hc & Hrs). induction Hrs as [|r rs' Hr _ IH]; [done|].
  rewrite fmap_cons, concat_cons, length_app, IH, length_take.
  rewrite Nat.min_l by lia. done.
Qed.

Lemma label_column_alt rows :
  Timeseries.label_column rows
  = SInt ∘ scalar_to_int <$> concat (take 1 <$> float_rows rows).
Proof.
  unfold Timeseries.label_column, Timeseries.labels_of, float_rows.
  rewrite <- !list_fmap_compose.
  rewrite (list_fmap_ext (take 1 ∘ fmap SFloat) (fmap SFloat ∘ take 1) rows)
    by (intros i r _; simpl; symmetry; apply fmap_take).
  rewrite (list_fmap_compose (take 1) (fmap SFloat)), <- fmap_concat.
  by rewrite <- list_fmap_compose.
Qed.

Lemma feature_rows_alt rows :
  Timeseries.feature_rows rows = drop 1 <$> float_rows rows.
Proof.
  unfold Timeseries.feature_rows, float_rows.
  rewrite <- !list_fmap_compose. apply list_fmap_ext.
  intros i r _. simpl. apply fmap_drop.
Qed.

Lemma length_label_column rows c :
  is_table rows c → length (Timeseries.label_column rows) = length rows.
Proof.
  intros Ht. unfold Timeseries.label_column, Timeseries.labels_of.
  by rewrite !length_fmap, (length_first_column _ c).
Qed.

Lemma load_data_run fs (h : heap) tr c te c' :
  Timeseries.served fs Timeseries.train_url tr → is_table tr c →
  Timeseries.served fs Timeseries.test_url te → is_table te c' →
  Timeseries.load_data fs h
  = (Py.Ok ((Timeseries.loaded_x (length h) (length tr) c,
             Timeseries.loaded_y (length h) (length tr)),
            (Timeseries.loaded_x (2 + length h) (length te) c',
             Timeseries.loaded_y (2 + length h) (length te))),
     h ++ [concat (float_rows tr); Timeseries.label_column tr;
           concat (float_rows te); Timeseries.label_column te]).
Proof.
  intros (ttext & Hfs & Hparse) Ht (etext & Hfs' & Hparse') Ht'.
  unfold Timeseries.load_data.
  rewrite (bind_run _ _ _ _ _ (readucr_run _ _ _ _ _ _ Hfs Hparse Ht)).
  rewrite (bind_run _ _ _ _ _ (readucr_run _ _ _ _ _ _ Hfs' Hparse' Ht')).
  rewrite length_app, <- app_assoc. simpl.
  rewrite <- !label_column_alt.
  by replace (length h + 2) with (S (S (length h))) by lia.
Qed.

Lemma rows_in_unit_axis (h : heap) a n shp :
  shape a = n :: shp → length (strides a) = length (shape a) →
  rows_in h {| base := base a; offset := offset a; shape := shape a ++ [1];
               strides := strides a ++ [1]; dt := dt a |}
  = rows_in h a.
Proof.
  intros Hshp Hlen. unfold rows_in. cbn [shape strides base offset].
  rewrite Hshp in *.
  destruct (strides a) as [|s str]; [done|].
  rewrite <- !app_comm_cons.
  destruct (h !! base a) as [b|]; [|reflexivity]. simpl.
  apply mapM_ext. intros i. rewrite addresses_unit_axis; [done|].
  by injection Hlen.
Qed.

Lemma add_feature_axis_run (h : heap) a n0 n1 :
  shape a = [n0; n1] → length (strides a) = 2 →
  Timeseries.add_feature_axis a h
  = (Py.Ok {| base := base a; offset := offset a; shape := [n0; n1; 1];
              strides := strides a ++ [1]; dt := dt a |}, h).
Proof.
  intros Hshp Hlen. unfold Timeseries.add_feature_axis, Py.tuple_get.
  rewrite Hshp. cbn [lookup list_lookup]. rewrite !ret_bind_run.
  unfold reshape. rewrite Hshp.
  replace (size [n0; n1; 1] =? size [n0; n1]) with true
    by (symmetry; apply Nat.eqb_eq; simpl; lia).
  cbn [negb]. case_bool_decide as Hc; [|by rewrite bool_decide_eq_true_2].
  rewrite Hc. simpl. by rewrite !Nat.mul_1_r.
Qed.

Lemma rows_in_1d (h : heap) a n s l :
  shape a = [n] → strides a = [s] →
  elements_in h a = Some l → rows_in h a = Some ((λ v, [v]) <$> l).
Proof.
  unfold elements_in, rows_in. intros -> -> Hl.
  destruct (h !! base a) as [b|]; [|done]. simpl in *.
  revert l Hl. generalize (seq 0 n). intros ixs.
  induction ixs as [|i ixs IH]; intros l Hl.
  { by injection Hl as <-. }
  cbn [flat_map app] in Hl. rewrite mapM_cons in Hl. rewrite mapM_cons.
  destruct (b !! (offset a + i * s)) as [v|]; [|done]. simpl in *.
  destruct (mapM _ (flat_map _ ixs)) as [l'|]; [|done].
  injection Hl as <-. rewrite (IH l') by done. done.
Qed.

Lemma pick_singletons {A} (l : list A) (ixs : list nat) p :
  mapM (λ i, l !! i) ixs = Some p →
  mapM (λ i, (fmap (M:=list) (λ v : A, [v]) l) !! i) ixs
  = Some (fmap (M:=list) (λ v : A, [v]) p).
Proof.
  rewrite !mapM_Some. intros Hp.
  apply Forall2_fmap_r. eapply Forall2_impl; [exact Hp|].
  intros i v Hi. simpl in *. by rewrite list_lookup_fmap, Hi.
Qed.

Lemma concat_singletons {A} (l : list A) :
  concat (fmap (M:=list) (λ v : A, [v]) l) = l.
Proof. induction l as [|v l IH]; [done|]. by rewrite fmap_cons, concat_cons, IH. Qed.


(** *** Reading arrays out of a known buffer *)

Lemma elements_in_buffer (h : heap) l data d shp :
  h !! l = Some data → length data = size shp →
  elements_in h {| base := l; offset := 0; shape := shp;
                   strides := c_strides shp; dt := d |} = Some data.
Proof.
  intros Hl Hlen. apply list_elem_of_split_length in Hl as (h1 & h2 & -> & ->).
  change (data :: h2) with ([data] ++ h2). rewrite app_assoc.
  by apply elements_in_app, elements_in_new.
Qed.

Lemma rows_in_buffer (h : heap) l d shp rs :
  h !! l = Some (concat rs) → Forall (λ r, length r = size shp) rs →
  rows_in h {| base := l; offset := 0; shape := length rs :: shp;
               strides := c_strides (length rs :: shp); dt := d |} = Some rs.
Proof.
  intros Hl Hlen. apply list_elem_of_split_length in Hl as (h1 & h2 & -> & ->).
  change (concat rs :: h2) with ([concat rs] ++ h2). rewrite app_assoc.
  by apply rows_in_app, rows_in_new.
Qed.

Lemma loaded_x_rows (h : heap) l rows c :
  h !! l = Some (concat (float_rows rows)) → is_table rows c →
  rows_in h (Timeseries.loaded_x l (length rows) c)
  = Some (Timeseries.feature_rows rows).
Proof.
  intros Hl Ht. apply list_elem_of_split_length in Hl as (h1 & h2 & -> & ->).
  apply is_table_float_rows in Ht.
  pose proof (table_other_columns h1 h2 _ _ DFloat Ht) as Hx.
  unfold float_rows in Hx at 2. rewrite length_fmap in Hx.
  by rewrite feature_rows_alt.
Qed.

Lemma loaded_y_elements (h : heap) l rows c :
  h !! S l = Some (Timeseries.label_column rows) → is_table rows c →
  elements_in h (Timeseries.loaded_y l (length rows))
  = Some (Timeseries.label_column rows).
Proof.
  intros Hl Ht.
  apply (elements_in_buffer h (S l) _ DInt [length rows] Hl).
  rewrite (length_label_column _ c Ht). simpl. lia.
Qed.

Lemma loaded_y_well_formed l n : well_formed (Timeseries.loaded_y l n).
Proof.
  split; [done|]. simpl.
  pose proof (addresses_contiguous [n] 0) as Ha. simpl in Ha. rewrite Ha.
  apply NoDup_seq.
Qed.


End numpy_facts.

(** Finds a buffer in a heap written as [h ++ [b0; b1; ..]]. *)
Ltac find_buffer :=
  first [ by (apply list_lookup_middle; rewrite ?length_app; simpl; lia)
        | rewrite cons_middle, app_assoc; find_buffer ].

(** Carries a reading over later allocations and over in-place writes to
    other buffers. *)
Ltac frame :=
  repeat first
    [ assumption
    | rewrite elements_in_insert_ne by (simpl; lia)
    | rewrite rows_in_insert_ne by (simpl; lia)
    | match goal with
      | |- Numpy.elements_in (_ ++ _) _ = Some _ => apply elements_in_app
      | |- Numpy.rows_in (_ ++ _) _ = Some _ => apply rows_in_app
      end ].

Section loader_steps.
Context {F : Float64}.
Import Numpy.

Lemma Forall_pick {A} (P : A → Prop) (l : list A) (ixs : list nat) p :
  mapM (λ i, l !! i) ixs = Some p → Forall P l → Forall P p.
Proof.
  rewrite mapM_Some, Forall_forall. intros Hp Hl.
  eapply Forall2_Forall_r; [exact Hp|].
  apply Forall_forall. intros i _ x Hx. eapply Hl, list_elem_of_lookup_2, Hx.
Qed.

Lemma feature_rows_length rows c :
  is_table rows c → Forall (λ r, length r = c - 1) (Timeseries.feature_rows rows).
Proof.
  intros (_ & _ & Hrows). rewrite feature_rows_alt. unfold float_rows.
  rewrite <- list_fmap_compose. apply Forall_fmap.
  eapply Forall_impl; [exact Hrows|]. intros r Hr. unfold compose.
  rewrite length_drop, length_fmap. simpl in Hr. lia.
Qed.

Lemma unique_count_run (h : heap) a l :
  elements_in h a = Some l →
  unique_count a h = (Py.Ok (length (distinct l)), h).
Proof.
  intros Hl. unfold unique_count.
  by rewrite (bind_run _ _ _ _ _ (elements_run _ _ _ Hl)).
Qed.

Lemma prepare_run draw (h : heap) tr c te c' xs' ys' :
  is_table tr c → is_table te c' →
  length (draw (length tr)) = length tr →
  mapM (λ i, Timeseries.feature_rows tr !! i) (draw (length tr)) = Some xs' →
  mapM (λ i, Timeseries.label_column tr !! i) (draw (length tr)) = Some ys' →
  let x0 := Timeseries.loaded_x (length h) (length tr) c in
  let y0 := Timeseries.loaded_y (length h) (length tr) in
  let xt0 := Timeseries.loaded_x (2 + length h) (length te) c' in
  let yt0 := Timeseries.loaded_y (2 + length h) (length te) in
  ∃ g h',
    Timeseries.prepare draw ((x0, y0), (xt0, yt0))
      (h ++ [concat (float_rows tr); Timeseries.label_column tr;
             concat (float_rows te); Timeseries.label_column te])
    = (Py.Ok g, h')
    ∧ shape (Timeseries.x_train g) = [length tr; c - 1; 1]
    ∧ shape (Timeseries.x_test g) = [length te; c' - 1; 1]
    ∧ shape (Timeseries.y_train g) = [length tr]
    ∧ Timeseries.y_test g = yt0
    ∧ Timeseries.n_classes g = length (distinct (Timeseries.label_column tr))
    ∧ elements_in h' (Timeseries.idx g) = Some (SInt ∘ Z.of_nat <$> draw (length tr))
    ∧ rows_in h' (Timeseries.x_train g) = Some xs'
    ∧ elements_in h' (Timeseries.y_train g) = Some (replaced DInt (-1) 0 <$> ys')
    ∧ rows_in h' (Timeseries.x_test g) = Some (Timeseries.feature_rows te)
    ∧ elements_in h' yt0 = Some (replaced DInt (-1) 0 <$> Timeseries.label_column te)
    ∧ rows_in h' x0 = Some (Timeseries.feature_rows tr)
    ∧ elements_in h' y0 = Some (Timeseries.label_column tr)
    ∧ rows_in h' xt0 = Some (Timeseries.feature_rows te).
Proof.
  intros Ht Ht' Hdraw Hxs' Hys' x0 y0 xt0 yt0.
  set (h1 := h ++ _).
  assert (length h1 = 4 + length h) as Hh1
    by (unfold h1; rewrite length_app; simpl; lia).
  assert (rows_in h1 x0 = Some (Timeseries.feature_rows tr)) as Hx0.
  { apply (loaded_x_rows _ _ _ c); [|done]. unfold h1. find_buffer. }
  assert (elements_in h1 y0 = Some (Timeseries.label_column tr)) as Hy0.
  { apply (loaded_y_elements _ _ _ c); [|done]. unfold h1. find_buffer. }
  assert (rows_in h1 xt0 = Some (Timeseries.feature_rows te)) as Hxt0.
  { apply (loaded_x_rows _ _ _ c'); [|done]. unfold h1. find_buffer. }
  assert (elements_in h1 yt0 = Some (Timeseries.label_column te)) as Hyt0.
  { apply (loaded_y_elements _ _ _ c'); [|done]. unfold h1. find_buffer. }
  unfold Timeseries.prepare.
  (* the two reshapes *)
  rewrite (bind_run _ _ _ _ _
    (add_feature_axis_run h1 x0 _ _ eq_refl eq_refl)).
  rewrite (bind_run _ _ _ _ _
    (add_feature_axis_run h1 xt0 _ _ eq_refl eq_refl)).
  set (x1 := {| base := base x0 |}). set (xt1 := {| base := base xt0 |}).
  assert (rows_in h1 x1 = Some (Timeseries.feature_rows tr)) as Hx1.
  { rewrite <- Hx0. by apply (rows_in_unit_axis h1 x0 (length tr) [c - 1]). }
  assert (∀ h2, rows_in h2 xt1 = rows_in h2 xt0) as Hxt1.
  { intros h2. by apply (rows_in_unit_axis h2 xt0 (length te) [c' - 1]). }
  (* n_classes *)
  rewrite (bind_run _ _ _ _ _ (unique_count_run _ _ _ Hy0)).
  (* the shuffle *)
  pose proof (rows_in_1d h1 y0 _ _ _ eq_refl eq_refl Hy0) as Hy0r.
  rewrite (bind_run _ _ _ _ _
    (shuffle_run draw h1 x1 y0 (length tr) [c - 1; 1] [] _ _ xs' _
       eq_refl eq_refl Hx1 eq_refl eq_refl Hy0r Hdraw Hxs'
       (pick_singletons _ _ _ Hys'))).
  rewrite concat_singletons. rewrite Hh1.
  set (h2 := h1 ++ _).
  set (x2 := {| base := S (4 + length h) |}).
  set (y2 := {| base := S (S (4 + length h)) |}).
  set (ix := {| base := 4 + length h |}).
  assert (length ys' = length tr) as Hlys.
  { apply length_mapM in Hys'. lia. }
  assert (elements_in h2 y2 = Some ys') as Hy2.
  { apply elements_in_buffer; [unfold h2, h1; rewrite <- app_assoc; find_buffer|].
    simpl. lia. }
  assert (well_formed y2) as Hwf2.
  { split; [done|]. simpl.
    pose proof (addresses_contiguous [length tr] 0) as Ha. simpl in Ha.
    rewrite Ha. apply NoDup_seq. }
  (* the two remaps *)
  destruct (remap_run h2 y2 ys' Hwf2 Hy2) as (b1 & m1 & Hrun1 & Hread1).
  rewrite (bind_run _ _ _ _ _ Hrun1).
  set (h3 := <[base y2 := b1]> (h2 ++ [m1])) in *.
  assert (elements_in h3 yt0 = Some (Timeseries.label_column te)) as Hyt3.
  { unfold h3, h2. by frame. }
  destruct (remap_run h3 yt0 _ (loaded_y_well_formed _ _) Hyt3)
    as (b2 & m2 & Hrun2 & Hread2).
  rewrite (bind_run _ _ _ _ _ Hrun2).
  set (h4 := <[base yt0 := b2]> (h3 ++ [m2])) in *.
  eexists _, h4. split; [reflexivity|]. cbn [Timeseries.x_train
    Timeseries.y_train Timeseries.x_test Timeseries.y_test
    Timeseries.n_classes Timeseries.idx].
  repeat split.
  - unfold h4, h3. frame.
    apply elements_in_buffer; [unfold h2, h1; rewrite <- app_assoc; find_buffer|].
    rewrite length_fmap. simpl. lia.
  - unfold h4, h3. frame.
    assert (length xs' = length tr) as Hlxs by (apply length_mapM in Hxs'; lia).
    unfold x2. rewrite <- Hlxs.
    apply rows_in_buffer; [unfold h2, h1; rewrite <- app_assoc; find_buffer|].
    eapply Forall_impl; [exact (Forall_pick _ _ _ _ Hxs' (feature_rows_length _ _ Ht))|].
    intros r Hr. simpl in *. lia.
  - unfold h4. by frame.
  - unfold h4, h3, h2. rewrite Hxt1. by frame.
  - exact Hread2.
  - unfold h4, h3, h2. by frame.
  - unfold h4, h3, h2. by frame.
  - unfold h4, h3, h2. by frame.
Qed.

End loader_steps.

(** ** The data loader *)

Section loader_facts.
Context {F : Float64}.
Import Numpy Timeseries.

Lemma permutation_bounds (p : list nat) n :
  Permutation p (seq 0 n) → length p = n ∧ Forall (λ i, i < n) p.
Proof.
  intros Hp. split.
  - by rewrite (Permutation_length Hp), length_seq.
  - apply Forall_forall. intros i Hi.
    rewrite Hp in Hi. apply elem_of_seq in Hi. lia.
Qed.

Lemma pick_fmap {A B} (f : A → B) (l : list A) (ixs : list nat) p :
  mapM (λ i, l !! i) ixs = Some p →
  mapM (λ i, (fmap (M:=list) f l) !! i) ixs = Some (fmap (M:=list) f p).
Proof.
  rewrite !mapM_Some. intros Hp.
  apply Forall2_fmap_r. eapply Forall2_impl; [exact Hp|].
  intros i v Hi. simpl in *. by rewrite list_lookup_fmap, Hi.
Qed.

Lemma pick_zip {A B} (xs : list A) (ys : list B) (ixs : list nat) xs' ys' :
  mapM (λ i, xs !! i) ixs = Some xs' →
  mapM (λ i, ys !! i) ixs = Some ys' →
  mapM (λ i, zip xs ys !! i) ixs = Some (zip xs' ys').
Proof.
  revert xs' ys'. induction ixs as [|i ixs IH]; intros xs' ys' Hx Hy.
  { injection Hx as <-. by injection Hy as <-. }
  rewrite mapM_cons in Hx. rewrite mapM_cons in Hy. rewrite mapM_cons.
  destruct (xs !! i) as [x|] eqn:Hxi; [|done].
  destruct (ys !! i) as [y|] eqn:Hyi; [|done].
  destruct (mapM _ ixs) as [xs''|] eqn:Hxs in Hx; [|done].
  destruct (mapM _ ixs) as [ys''|] eqn:Hys in Hy; [|done].
  injection Hx as <-. injection Hy as <-.
  rewrite (IH xs'' ys'') by done.
  assert (zip xs ys !! i = Some (x, y)) as ->; [|done].
  apply lookup_zip_with_Some. eauto.
Qed.

(** Picking the elements of a list along a permutation of its indices
    rearranges the list. *)
Lemma pick_permutation {A} (l : list A) (ixs : list nat) p :
  Permutation ixs (seq 0 (length l)) →
  mapM (λ i, l !! i) ixs = Some p → Permutation p l.
Proof.
  intros Hperm Hp. apply mapM_Some in Hp.
  assert (omap (λ i, l !! i) ixs = p) as <-.
  { clear Hperm. induction Hp as [|i x ixs' p' Hi _ IH]; [done|].
    cbn [omap list_omap]. simpl in Hi. by rewrite Hi, IH. }
  assert (omap (λ i, l !! i) (seq 0 (length l)) = l) as Hall.
  { clear. induction l as [|x l IH] using rev_ind; [done|].
    rewrite length_app. simpl. rewrite Nat.add_1_r, seq_S, omap_app. simpl.
    rewrite lookup_app_r, Nat.sub_diag by lia. simpl. f_equal.
    rewrite <- IH at 2. apply list_omap_ext, Forall2_same_length_lookup_2; [done|].
    intros i j k Hj Hk. apply lookup_seq in Hj as [-> Hi].
    apply lookup_seq in Hk as [-> _]. by rewrite lookup_app_l. }
  transitivity (omap (λ i, l !! i) (seq 0 (length l))).
  - by apply omap_Permutation.
  - by rewrite Hall.
Qed.


Lemma loader_run fs draw (h : heap) tr c te c' xs' ys' :
  served fs train_url tr → is_table tr c →
  served fs test_url te → is_table te c' →
  length (draw (length tr)) = length tr →
  mapM (λ i, feature_rows tr !! i) (draw (length tr)) = Some xs' →
  mapM (λ i, label_column tr !! i) (draw (length tr)) = Some ys' →
  ∃ g h',
    loader fs draw h = (Py.Ok g, h')
    ∧ shape (x_train g) = [length tr; c - 1; 1]
    ∧ shape (x_test g) = [length te; c' - 1; 1]
    ∧ shape (y_train g) = [length tr]
    ∧ y_test g = loaded_y (2 + length h) (length te)
    ∧ n_classes g = length (distinct (label_column tr))
    ∧ elements_in h' (idx g) = Some (SInt ∘ Z.of_nat <$> draw (length tr))
    ∧ rows_in h' (x_train g) = Some xs'
    ∧ elements_in h' (y_train g) = Some (replaced DInt (-1) 0 <$> ys')
    ∧ rows_in h' (x_test g) = Some (feature_rows te)
    ∧ elements_in h' (y_test g)
      = Some (replaced DInt (-1) 0 <$> label_column te).
Proof.
  intros Hs Ht Hs' Ht' Hdraw Hxs' Hys'.
  destruct (prepare_run draw h tr c te c' xs' ys' Ht Ht' Hdraw Hxs' Hys')
    as (g & h' & Hrun & H1 & H2 & H3 & H4 & H5 & H6 & H7 & H8 & H9 & H10 & _).
  exists g, h'. unfold loader.
  rewrite (bind_run _ _ _ _ _ (load_data_run fs h tr c te c' Hs Ht Hs' Ht')).
  rewrite H4 at 2. done.
Qed.

Lemma replaced_labels (zs : list Z) :
  replaced DInt (-1) 0 <$> (SInt <$> zs)
  = SInt ∘ (λ z, if (z =? -1)%Z then 0%Z else z) <$> zs.
Proof.
  rewrite <- list_fmap_compose. apply list_fmap_ext. intros _ z _.
  unfold replaced. simpl. by destruct (z =? -1)%Z.
Qed.

(** C9.  The shuffle draws one arrangement [idx] of the row numbers and
    indexes both arrays with it: row [k] of the new [x_train] and row [k]
    of the new [y_train] are the rows [idx[k]] of the old ones, so the
    (sample, label) pairs after the shuffle are a rearrangement of the
    pairs before it. *)
Theorem shuffle_keeps_pairs draw (h : heap) x y n shx shy xs ys :
  shape x = n :: shx → length (strides x) = length (shape x) →
  rows_in h x = Some xs →
  shape y = n :: shy → length (strides y) = length (shape y) →
  rows_in h y = Some ys →
  Permutation (draw n) (seq 0 n) →
  ∃ ix x' y' h' xs' ys',
    shuffle draw x y h = (Py.Ok (ix, x', y'), h')
    ∧ elements_in h' ix = Some (SInt ∘ Z.of_nat <$> draw n)
    ∧ rows_in h' x' = Some xs' ∧ rows_in h' y' = Some ys'
    ∧ mapM (λ i, xs !! i) (draw n) = Some xs'
    ∧ mapM (λ i, ys !! i) (draw n) = Some ys'
    ∧ Permutation (zip xs' ys') (zip xs ys).
Proof.
  intros Hsx Hlx Hxs Hsy Hly Hys Hperm.
  destruct (permutation_bounds _ _ Hperm) as [Hlen Hlt].
  destruct (rows_in_row_length _ _ _ _ _ Hsx Hlx Hxs) as [Hnx Hrx].
  destruct (rows_in_row_length _ _ _ _ _ Hsy Hly Hys) as [Hny Hry].
  destruct (mapM_lookup_Some xs (draw n)) as [xs' Hxs']; [by rewrite Hnx|].
  destruct (mapM_lookup_Some ys (draw n)) as [ys' Hys']; [by rewrite Hny|].
  eexists _, _, _, _, xs', ys'.
  split; [exact (shuffle_run draw h x y n shx shy xs ys xs' ys'
                   Hsx Hlx Hxs Hsy Hly Hys Hlen Hxs' Hys')|].
  assert (length xs' = n) as Hlx' by (apply length_mapM in Hxs'; lia).
  assert (length ys' = n) as Hly' by (apply length_mapM in Hys'; lia).
  repeat split; try done.
  - apply (elements_in_buffer _ _ _ DInt [n]); [find_buffer|].
    rewrite length_fmap, Hlen. simpl. lia.
  - pose proof (rows_in_buffer
                  (h ++ [SInt ∘ Z.of_nat <$> draw n; concat xs'; concat ys'])
                  (S (length h)) (dt x) shx xs') as Hx'.
    rewrite Hlx' in Hx'. apply Hx'; [find_buffer|]. by eapply Forall_pick.
  - pose proof (rows_in_buffer
                  (h ++ [SInt ∘ Z.of_nat <$> draw n; concat xs'; concat ys'])
                  (S (S (length h))) (dt y) shy ys') as Hy'.
    rewrite Hly' in Hy'. apply Hy'; [find_buffer|]. by eapply Forall_pick.
  - apply (pick_permutation _ (draw n)); [|by apply pick_zip].
    rewrite length_zip_with, Hnx, Hny, Nat.min_id. done.
Qed.


(** C1.  When the loader has run, [y_train] holds the shuffled training
    labels and [y_test] the test labels, in both of them every label -1
    replaced by 0 and every other label as it was; labels drawn from
    {-1, 1} therefore end up in {0, 1}. *)
Theorem labels_remapped fs draw (h : heap) tr c te c' :
  served fs train_url tr → is_table tr c →
  served fs test_url te → is_table te c' →
  Permutation (draw (length tr)) (seq 0 (length tr)) →
  ∃ g h' shuffled,
    loader fs draw h = (Py.Ok g, h')
    ∧ mapM (λ i, labels_of tr !! i) (draw (length tr)) = Some shuffled
    ∧ elements_in h' (y_train g)
      = Some ((λ z, SInt (if (z =? -1)%Z then 0%Z else z)) <$> shuffled)
    ∧ elements_in h' (y_test g)
      = Some ((λ z, SInt (if (z =? -1)%Z then 0%Z else z)) <$> labels_of te)
    ∧ (Forall (λ z, z = (-1)%Z ∨ z = 1%Z) (labels_of tr ++ labels_of te) →
       Forall (λ z, z = 0%Z ∨ z = 1%Z)
         ((λ z, if (z =? -1)%Z then 0%Z else z) <$> shuffled ++ labels_of te)).
Proof.
  intros Hs Ht Hs' Ht' Hperm.
  destruct (permutation_bounds _ _ Hperm) as [Hlen Hlt].
  destruct (mapM_lookup_Some (labels_of tr) (draw (length tr))) as [zs Hzs].
  { pose proof (length_label_column tr c Ht) as Hl.
    unfold label_column in Hl. rewrite length_fmap in Hl. by rewrite Hl. }
  destruct (mapM_lookup_Some (feature_rows tr) (draw (length tr))) as [xs' Hxs'].
  { unfold feature_rows. by rewrite !length_fmap. }
  destruct (loader_run fs draw h tr c te c' xs' (SInt <$> zs)
              Hs Ht Hs' Ht' Hlen Hxs' (pick_fmap SInt _ _ _ Hzs))
    as (g & h' & Hrun & _ & _ & _ & _ & _ & _ & _ & Hytr & _ & Hyte).
  exists g, h', zs. split; [done|]. split; [done|].
  unfold label_column in Hyte. rewrite replaced_labels in Hytr, Hyte.
  split; [done|]. split; [done|].
  intros Hin. apply Forall_app in Hin as [Htr Hte].
  assert (Forall (λ z, z = (-1)%Z ∨ z = 1%Z) zs) as Hzs'
    by (by eapply Forall_pick).
  rewrite fmap_app. apply Forall_app. split; apply Forall_fmap.
  - eapply Forall_impl; [exact Hzs'|]. intros z [-> | ->]; simpl; auto.
  - eapply Forall_impl; [exact Hte|]. intros z [-> | ->]; simpl; auto.
Qed.

(** C2, amended.  After the two calls of [readucr] the loader never writes
    to the arrays returned for [x_train], [y_train] and [x_test]: the
    reshapes are views and the shuffle builds new arrays, to which the
    names [x_train] and [y_train] are rebound.  The array returned for
    [y_test] stays bound to [y_test] and is written in place: every -1 in
    it becomes 0. *)
Theorem loaded_arrays_after_prepare fs draw (h : heap) tr c te c' :
  served fs train_url tr → is_table tr c →
  served fs test_url te → is_table te c' →
  Permutation (draw (length tr)) (seq 0 (length tr)) →
  ∃ x0 y0 xt0 yt0 h1 g h',
    load_data fs h = (Py.Ok ((x0, y0), (xt0, yt0)), h1)
    ∧ prepare draw ((x0, y0), (xt0, yt0)) h1 = (Py.Ok g, h')
    ∧ rows_in h1 x0 = Some (feature_rows tr) ∧ rows_in h' x0 = rows_in h1 x0
    ∧ elements_in h1 y0 = Some (label_column tr)
    ∧ elements_in h' y0 = elements_in h1 y0
    ∧ rows_in h1 xt0 = Some (feature_rows te) ∧ rows_in h' xt0 = rows_in h1 xt0
    ∧ y_test g = yt0
    ∧ elements_in h1 yt0 = Some (label_column te)
    ∧ elements_in h' yt0 = Some (replaced DInt (-1) 0 <$> label_column te).
Proof.
  intros Hs Ht Hs' Ht' Hperm.
  destruct (permutation_bounds _ _ Hperm) as [Hlen Hlt].
  destruct (mapM_lookup_Some (label_column tr) (draw (length tr))) as [ys' Hys'].
  { by rewrite (length_label_column tr c Ht). }
  destruct (mapM_lookup_Some (feature_rows tr) (draw (length tr))) as [xs' Hxs'].
  { unfold feature_rows. by rewrite !length_fmap. }
  destruct (prepare_run draw h tr c te c' xs' ys' Ht Ht' Hlen Hxs' Hys')
    as (g & h' & Hrun & _ & _ & _ & Hyt & _ & _ & _ & _ & _ & H10 & H11 & H12 & H13).
  eexists _, _, _, _, _, g, h'.
  split; [exact (load_data_run fs h tr c te c' Hs Ht Hs' Ht')|].
  split; [exact Hrun|].
  assert (∀ l rows w, is_table rows w →
            (h ++ [concat (float_rows tr); label_column tr;
                   concat (float_rows te); label_column te]) !! l
            = Some (concat (float_rows rows)) →
            rows_in (h ++ [concat (float_rows tr); label_column tr;
                           concat (float_rows te); label_column te])
              (loaded_x l (length rows) w) = Some (feature_rows rows)) as Hx.
  { intros l rows w Hw Hl. by apply (loaded_x_rows _ _ _ w). }
  assert (∀ l rows w, is_table rows w →
            (h ++ [concat (float_rows tr); label_column tr;
                   concat (float_rows te); label_column te]) !! S l
            = Some (label_column rows) →
            elements_in (h ++ [concat (float_rows tr); label_column tr;
                               concat (float_rows te); label_column te])
              (loaded_y l (length rows)) = Some (label_column rows)) as Hy.
  { intros l rows w Hw Hl. by apply (loaded_y_elements _ _ _ w). }
  rewrite (Hx _ _ _ Ht) by find_buffer.
  rewrite (Hx _ _ _ Ht') by find_buffer.
  rewrite (Hy _ _ _ Ht) by find_buffer.
  rewrite (Hy _ _ _ Ht') by find_buffer.
  done.
Qed.

(** C4.  [x.reshape((x.shape[0], x.shape[1], 1))] turns every array of
    shape (samples, timesteps) into one of shape (samples, timesteps, 1)
    with the same elements in the same order, hence the same element
    count; the loader does this to both [x_train] and [x_test]. *)
Theorem reshape_adds_feature_axis :
  (∀ (h : heap) x s t,
     shape x = [s; t] → length (strides x) = 2 →
     ∃ x', add_feature_axis x h = (Py.Ok x', h)
           ∧ shape x' = [s; t; 1]
           ∧ size (shape x') = size (shape x)
           ∧ elements_in h x' = elements_in h x)
  ∧ (∀ fs draw (h : heap) tr c te c',
       served fs train_url tr → is_table tr c →
       served fs test_url te → is_table te c' →
       Permutation (draw (length tr)) (seq 0 (length tr)) →
       ∃ g h', loader fs draw h = (Py.Ok g, h')
               ∧ shape (x_train g) = [length tr; c - 1; 1]
               ∧ shape (x_test g) = [length te; c' - 1; 1]
               ∧ size (shape (x_train g)) = length tr * (c - 1)
               ∧ size (shape (x_test g)) = length te * (c' - 1)
               ∧ rows_in h' (x_test g) = Some (feature_rows te)).
Proof.
  split.
  - intros h x s t Hshp Hlen.
    eexists. split; [exact (add_feature_axis_run h x s t Hshp Hlen)|].
    cbn [shape]. split; [done|]. split; [rewrite Hshp; simpl; lia|].
    unfold elements_in. cbn [base offset shape strides].
    change [s; t; 1] with ([s; t] ++ [1]). rewrite <- Hshp.
    rewrite addresses_unit_axis; [done|]. by rewrite Hshp.
  - intros fs draw h tr c te c' Hs Ht Hs' Ht' Hperm.
    destruct (permutation_bounds _ _ Hperm) as [Hlen Hlt].
    destruct (mapM_lookup_Some (label_column tr) (draw (length tr))) as [ys' Hys'].
    { by rewrite (length_label_column tr c Ht). }
    destruct (mapM_lookup_Some (feature_rows tr) (draw (length tr))) as [xs' Hxs'].
    { unfold feature_rows. by rewrite !length_fmap. }
    destruct (loader_run fs draw h tr c te c' xs' ys'
                Hs Ht Hs' Ht' Hlen Hxs' Hys')
      as (g & h' & Hrun & Hsx & Hsxt & _ & _ & _ & _ & _ & _ & Hxt & _).
    exists g, h'. rewrite Hsx, Hsxt. simpl. repeat split; try done; lia.
Qed.

(** C6, amended.  For a table of at least two rows and two columns
    [readucr] returns [(x, y)] where [y] holds column 0 of every row cast
    to integer and [x] the remaining columns of every row. *)
Theorem readucr_columns fs name rows c (h : heap) :
  served fs name rows → is_table rows c →
  ∃ x y h',
    readucr fs name h = (Py.Ok (x, y), h')
    ∧ shape x = [length rows; c - 1] ∧ shape y = [length rows]
    ∧ rows_in h' x = Some (fmap (M:=list) SFloat <$> (drop 1 <$> rows))
    ∧ elements_in h' y
      = Some (SInt <$> (float_to_int <$> concat (take 1 <$> rows))).
Proof.
  intros (text & Hfs & Hparse) Ht.
  eexists _, _, _. split; [exact (readucr_run fs name text rows c h Hfs Hparse Ht)|].
  split; [done|]. split; [done|]. rewrite <- label_column_alt. split.
  - apply (loaded_x_rows _ _ _ c); [find_buffer|done].
  - apply (loaded_y_elements _ _ _ c); [find_buffer|done].
Qed.

End loader_facts.

(** ** The loader on two small files *)

Section loader_runs.
Import Numpy Timeseries Decimal.

Lemma sample_train_served : served (F:=decimal) sample_fs train_url train_rows.
Proof. exists train_text. split; vm_compute; reflexivity. Defined.

Lemma sample_test_served : served (F:=decimal) sample_fs test_url test_rows.
Proof. exists test_text. split; vm_compute; reflexivity. Defined.

Lemma sample_train_table : is_table train_rows 3.
Proof. repeat split; [simpl; lia | lia | repeat constructor]. Defined.

Lemma sample_test_table : is_table test_rows 3.
Proof. repeat split; [simpl; lia | lia | repeat constructor]. Defined.

Lemma sample_draw_permutation n : Permutation (sample_draw n) (seq 0 n).
Proof. symmetry. apply Permutation_rev. Defined.

Lemma sample_labels_in_range :
  Forall (λ z, z = (-1)%Z ∨ z = 1%Z)
    (labels_of (F:=decimal) train_rows ++ labels_of (F:=decimal) test_rows).
Proof.
  vm_compute. repeat (apply List.Forall_cons; [auto|]). apply List.Forall_nil.
Defined.

Lemma labels_remapped_witness :
  ∃ g h' shuffled,
    loader (F:=decimal) sample_fs sample_draw [] = (Py.Ok g, h')
    ∧ mapM (λ i, labels_of (F:=decimal) train_rows !! i) (sample_draw 3)
      = Some shuffled
    ∧ elements_in h' (y_train g)
      = Some ((λ z, SInt (if (z =? -1)%Z then 0%Z else z)) <$> shuffled)
    ∧ elements_in h' (y_test g)
      = Some ((λ z, SInt (if (z =? -1)%Z then 0%Z else z))
                <$> labels_of (F:=decimal) test_rows)
    ∧ Forall (λ z, z = 0%Z ∨ z = 1%Z)
        ((λ z, if (z =? -1)%Z then 0%Z else z)
           <$> shuffled ++ labels_of (F:=decimal) test_rows).
Proof.
  destruct (labels_remapped (F:=decimal) sample_fs sample_draw [] train_rows 3
              test_rows 3 sample_train_served sample_train_table
              sample_test_served sample_test_table (sample_draw_permutation 3))
    as (g & h' & shuffled & Hrun & Hpick & Hytr & Hyte & Hrange).
  exists g, h', shuffled.
  repeat split; try assumption. exact (Hrange sample_labels_in_range).
Defined.

Lemma shuffle_keeps_pairs_witness :
  ∃ ix x' y' h' xs' ys',
    shuffle (F:=decimal) sample_draw (loaded_x 0 3 3) (loaded_y 0 3) loaded_heap
    = (Py.Ok (ix, x', y'), h')
    ∧ elements_in h' ix = Some (SInt ∘ Z.of_nat <$> sample_draw 3)
    ∧ rows_in h' x' = Some xs' ∧ rows_in h' y' = Some ys'
    ∧ mapM (λ i, feature_rows (F:=decimal) train_rows !! i) (sample_draw 3)
      = Some xs'
    ∧ mapM (λ i, (fmap (M:=list) (λ v, [v]) (label_column (F:=decimal) train_rows))
                   !! i) (sample_draw 3)
      = Some ys'
    ∧ Permutation (zip xs' ys')
        (zip (feature_rows (F:=decimal) train_rows)
             (fmap (M:=list) (λ v, [v]) (label_column (F:=decimal) train_rows))).
Proof.
  apply (shuffle_keeps_pairs (F:=decimal) sample_draw loaded_heap
           (loaded_x 0 3 3) (loaded_y 0 3) 3 [2] []).
  - reflexivity.
  - reflexivity.
  - vm_compute. reflexivity.
  - reflexivity.
  - reflexivity.
  - vm_compute. reflexivity.
  - apply sample_draw_permutation.
Defined.

Lemma loaded_arrays_after_prepare_witness :
  ∃ x0 y0 xt0 yt0 h1 g h',
    load_data (F:=decimal) sample_fs [] = (Py.Ok ((x0, y0), (xt0, yt0)), h1)
    ∧ prepare (F:=decimal) sample_draw ((x0, y0), (xt0, yt0)) h1 = (Py.Ok g, h')
    ∧ rows_in h1 x0 = Some (feature_rows (F:=decimal) train_rows)
    ∧ rows_in h' x0 = rows_in h1 x0
    ∧ elements_in h1 y0 = Some (label_column (F:=decimal) train_rows)
    ∧ elements_in h' y0 = elements_in h1 y0
    ∧ rows_in h1 xt0 = Some (feature_rows (F:=decimal) test_rows)
    ∧ rows_in h' xt0 = rows_in h1 xt0
    ∧ y_test g = yt0
    ∧ elements_in h1 yt0 = Some (label_column (F:=decimal) test_rows)
    ∧ elements_in h' yt0
      = Some (replaced DInt (-1) 0 <$> label_column (F:=decimal) test_rows).
Proof.
  exact (loaded_arrays_after_prepare (F:=decimal) sample_fs sample_draw []
           train_rows 3 test_rows 3 sample_train_served sample_train_table
           sample_test_served sample_test_table (sample_draw_permutation 3)).
Defined.

Lemma reshape_adds_feature_axis_witness :
  (∃ x', add_feature_axis (F:=decimal) (loaded_x 0 3 3) loaded_heap
         = (Py.Ok x', loaded_heap)
         ∧ shape x' = [3; 2; 1]
         ∧ size (shape x') = size (shape (loaded_x 0 3 3))
         ∧ elements_in loaded_heap x' = elements_in loaded_heap (loaded_x 0 3 3))
  ∧ (∃ g h', loader (F:=decimal) sample_fs sample_draw [] = (Py.Ok g, h')
             ∧ shape (x_train g) = [length train_rows; 3 - 1; 1]
             ∧ shape (x_test g) = [length test_rows; 3 - 1; 1]
             ∧ size (shape (x_train g)) = length train_rows * (3 - 1)
             ∧ size (shape (x_test g)) = length test_rows * (3 - 1)
             ∧ rows_in h' (x_test g) = Some (feature_rows (F:=decimal) test_rows)).
Proof.
  destruct (reshape_adds_feature_axis (F:=decimal)) as [Hgen Hloader].
  split.
  - apply (Hgen loaded_heap (loaded_x 0 3 3) 3 2); reflexivity.
  - exact (Hloader sample_fs sample_draw [] train_rows 3 test_rows 3
             sample_train_served sample_train_table
             sample_test_served sample_test_table (sample_draw_permutation 3)).
Defined.

Lemma readucr_columns_witness :
  ∃ x y h',
    readucr (F:=decimal) sample_fs train_url [] = (Py.Ok (x, y), h')
    ∧ shape x = [length train_rows; 3 - 1] ∧ shape y = [length train_rows]
    ∧ rows_in h' x
      = Some (fmap (M:=list) (SFloat (T:=Q)) <$> (drop 1 <$> train_rows))
    ∧ elements_in h' y
      = Some (SInt (T:=Q)
                <$> (float_to_int (Float64:=decimal)
                       <$> concat (take 1 <$> train_rows))).
Proof.
  exact (readucr_columns (F:=decimal) sample_fs train_url train_rows 3 []
           sample_train_served sample_train_table).
Defined.

(** C2 as stated fails: on the two sample files the array that [readucr]
    returned for [y_test] holds 1, -1 when [readucr] returns and 1, 0 when
    the loader has finished. *)
Lemma y_test_written_in_place :
  ∃ x0 y0 xt0 yt0 h1 g h',
    load_data (F:=decimal) sample_fs [] = (Py.Ok ((x0, y0), (xt0, yt0)), h1)
    ∧ prepare (F:=decimal) sample_draw ((x0, y0), (xt0, yt0)) h1 = (Py.Ok g, h')
    ∧ y_test g = yt0
    ∧ elements_in h1 yt0 = Some [SInt 1; SInt (-1)]
    ∧ elements_in h' yt0 = Some [SInt 1; SInt 0].
Proof.
  do 7 eexists. split; [vm_compute; reflexivity|].
  split; [vm_compute; reflexivity|].
  repeat split; vm_compute; reflexivity.
Qed.

(** C6 as stated fails: a file with a single well-formed row is loaded as
    a one-dimensional array, and [data[:, 0]] raises IndexError. *)
Lemma readucr_single_row_raises :
  parse_rows (F:=decimal) "009" one_row_text = Some [[1; 2; 3]]%Q
  ∧ readucr (F:=decimal) one_row_fs "one.tsv" []
    = (Py.Raise Py.IndexError, [[SFloat 1%Q; SFloat 2%Q; SFloat 3%Q]]).
Proof. split; vm_compute; reflexivity. Qed.

End loader_runs.

(** ** The model builder *)

Section builder_facts.
Import Keras.
Variable infer : layer → list tshape → Py.result tshape.
Variable n_classes : nat.

Lemma call_inv l ins (g : graph) t g' :
  call infer l ins g = (Py.Ok t, g') →
  tid t = length g ∧ g' = g ++ [{| n_layer := l; n_inputs := tid <$> ins |}].
Proof.
  unfold call. destruct (infer l (shape_of <$> ins)); [|done].
  by intros [= <- <-].
Qed.

(** Each monadic step of a successful run, taken apart. *)
Ltac step H :=
  let a := fresh "t" in
  let g1 := fresh "g" in
  let Hc := fresh "Hc" in
  apply bind_inv in H as (a & g1 & Hc & H);
  first [ apply call_inv in Hc as [? ->] | idtac ].

Lemma transformer_encoder_nodes x hs nh ff dr (g : graph) t g' :
  transformer_encoder infer x hs nh ff dr g = (Py.Ok t, g') →
  ∃ f, last (shape_of x) = Some f
       ∧ g' = g ++ encoder_nodes hs nh ff dr (tid x) (length g) f
       ∧ tid t = length g + 8.
Proof.
  unfold transformer_encoder. intros H.
  do 7 step H. step H.
  unfold shape_last in Hc. destruct (last (shape_of x)) as [f|]; [|done].
  injection Hc as <- <-. step H.
  apply call_inv in H as [Ht ->].
  exists f. split; [done|]. rewrite Ht. rewrite <- !app_assoc.
  rewrite !length_app in *. simpl in *.
  split; [|lia]. unfold encoder_nodes. simpl.
  repeat match goal with H : tid _ = _ |- _ => rewrite H; clear H end.
  repeat (f_equal; try lia).
Qed.


Lemma length_stack_nodes hs nh ff dr i k fs :
  length (stack_nodes hs nh ff dr i k fs) = 9 * length fs.
Proof.
  revert i k. induction fs as [|f fs IH]; intros i k; [done|].
  cbn [stack_nodes]. rewrite length_app, IH. simpl. lia.
Qed.

Lemma length_chain_nodes i k ls : length (chain_nodes i k ls) = length ls.
Proof.
  revert i k. induction ls as [|l ls IH]; intros i k; [done|].
  simpl. by rewrite IH.
Qed.

Lemma layers_chain_nodes ls : ∀ i k, n_layer <$> chain_nodes i k ls = ls.
Proof.
  induction ls as [|l ls IH]; intros i k; [done|].
  cbn [chain_nodes]. by rewrite fmap_cons, IH.
Qed.

Lemma layers_stack_nodes hs nh ff dr fs : ∀ i k,
  n_layer <$> stack_nodes hs nh ff dr i k fs
  = flat_map (encoder_layers hs nh ff dr) fs.
Proof.
  induction fs as [|f fs IH]; intros i k; [done|].
  cbn [stack_nodes flat_map]. by rewrite fmap_app, IH.
Qed.

Lemma chain_nodes_app i k ls1 l ls2 :
  chain_nodes i k (ls1 ++ l :: ls2)
  = chain_nodes i k ls1
    ++ chain_nodes (match ls1 with [] => i | _ => k + length ls1 - 1 end)
                   (k + length ls1) (l :: ls2).
Proof.
  revert i k. induction ls1 as [|l1 ls1 IH]; intros i k.
  - simpl. by rewrite Nat.add_0_r.
  - cbn [app chain_nodes]. rewrite IH. f_equal. simpl length.
    destruct ls1 as [|l2 ls1].
    + simpl. repeat f_equal; lia.
    + replace (S k + length (l2 :: ls1) - 1) with (k + S (length (l2 :: ls1)) - 1)
        by (simpl; lia).
      replace (S k + length (l2 :: ls1)) with (k + S (length (l2 :: ls1)))
        by (simpl; lia).
      done.
Qed.

(** The block stacked [n] times: [n] blocks are appended, each wired to
    the output of the one before. *)
Lemma encoder_stack_nodes n hs nh ff dr : ∀ x (g : graph) t g',
  encoder_stack infer n x hs nh ff dr g = (Py.Ok t, g') →
  ∃ fs, length fs = n
        ∧ g' = g ++ stack_nodes hs nh ff dr (tid x) (length g) fs
        ∧ tid t = match n with 0 => tid x | _ => length g + 9 * n - 1 end.
Proof.
  induction n as [|n IH]; intros x g t g' H.
  - injection H as <- <-. exists []. by rewrite app_nil_r.
  - cbn [encoder_stack] in H.
    apply bind_inv in H as (x1 & g1 & Henc & H).
    apply transformer_encoder_nodes in Henc as (f & _ & -> & Hx1).
    apply IH in H as (fs & Hlen & -> & Ht).
    exists (f :: fs). split; [simpl; lia|].
    rewrite length_app in *. cbn [encoder_nodes length] in *.
    split.
    + rewrite <- app_assoc. cbn [stack_nodes]. rewrite Hx1.
      do 3 f_equal; lia.
    + rewrite Ht. destruct n; lia.
Qed.

(** The [for] loop over [range(N)] is the [N]-fold application. *)
Lemma for_range_stack (N : Z) hs nh ff dr x (g : graph) :
  Py.for_each (Py.range N) (λ _ x, transformer_encoder infer x hs nh ff dr) x g
  = encoder_stack infer (Z.to_nat N) x hs nh ff dr g.
Proof.
  unfold Py.range. generalize 0. revert x g.
  induction (Z.to_nat N) as [|n IH]; intros x g j; [done|].
  cbn [seq fmap list_fmap Py.for_each encoder_stack].
  apply bind_ext. intros x1 g1. apply IH.
Qed.

(** The [for] loop over [mlp_units] makes one pair per entry, in order. *)
Lemma for_mlp_pairs ds mdr : ∀ x (g : graph),
  Py.for_each ds
    (λ dim x, x ← call infer (Dense dim (Some "relu")) [x];
              call infer (Dropout mdr) [x]) x g
  = mlp_pairs infer ds mdr x g.
Proof.
  induction ds as [|d ds IH]; intros x g; [done|].
  cbn [Py.for_each mlp_pairs].
  unfold mbind, Py.M_bind, Py.bind.
  destruct (call infer (Dense d (Some "relu")) [x] g) as [[x1|e] g1]; [|done].
  destruct (call infer (Dropout mdr) [x1] g1) as [[x2|e] g2]; [|done].
  apply IH.
Qed.

Lemma mlp_pairs_nodes ds mdr : ∀ x (g : graph) t g',
  mlp_pairs infer ds mdr x g = (Py.Ok t, g') →
  g' = g ++ chain_nodes (tid x) (length g)
              (flat_map (λ d, [Dense d (Some "relu"); Dropout mdr]) ds)
  ∧ tid t = match ds with [] => tid x | _ => length g + 2 * length ds - 1 end.
Proof.
  induction ds as [|d ds IH]; intros x g t g' H.
  - injection H as <- <-. by rewrite app_nil_r.
  - cbn [mlp_pairs] in H. do 2 step H.
    apply IH in H as [-> Ht]. rewrite !length_app in *. simpl in *.
    split.
    + rewrite <- !app_assoc. simpl.
      repeat match goal with H : tid _ = _ |- _ => rewrite H; clear H end.
      repeat (f_equal; try lia).
    + rewrite Ht. destruct ds; simpl; lia.
Qed.

Lemma classification_head_nodes ds mdr x (g : graph) t g' :
  classification_head infer n_classes ds mdr x g = (Py.Ok t, g') →
  g' = g ++ chain_nodes (tid x) (length g) (head_layers n_classes ds mdr)
  ∧ tid t = length g + 2 * length ds + 1.
Proof.
  unfold classification_head. intros H. step H.
  apply bind_inv in H as (x2 & g2 & Hm & H).
  apply mlp_pairs_nodes in Hm as [-> Hx2].
  apply call_inv in H as [Ht ->].
  rewrite Ht. rewrite !length_app, length_chain_nodes in *.
  assert (length (flat_map (λ d, [Dense d (Some "relu"); Dropout mdr]) ds)
          = 2 * length ds) as Hfl.
  { clear. induction ds as [|d ds IH]; [done|]. simpl. lia. }
  rewrite Hfl in *. simpl length in *. split; [|lia].
  rewrite <- !app_assoc. f_equal. unfold head_layers.
  cbn [chain_nodes]. rewrite chain_nodes_app. simpl app. do 2 f_equal.
  - by rewrite H0, Nat.add_1_r.
  - repeat f_equal; try lia. simpl. rewrite Hx2, Hfl.
    destruct ds; simpl; [congruence|lia].
Qed.


(** *** No failure of its own: if the framework accepts every layer and
    gives every tensor at least one axis, the builder returns. *)

Lemma call_returns l ins (g : graph) :
  accepts_all infer →
  ∃ t g', call infer l ins g = (Py.Ok t, g') ∧ shape_of t ≠ [].
Proof.
  intros Hacc. destruct (Hacc l (shape_of <$> ins)) as (shp & Hshp & Hne).
  unfold call. rewrite Hshp. eauto.
Qed.

Ltac run_call Hacc :=
  match goal with
  | |- ∃ t g', (call infer ?l ?ins ≫= ?k) ?g = _ ∧ _ =>
      let t := fresh "t" in
      let g1 := fresh "g" in
      let Hc := fresh "Hc" in
      let Hne := fresh "Hne" in
      destruct (call_returns l ins g Hacc) as (t & g1 & Hc & Hne);
      rewrite (bind_run _ _ _ _ _ Hc)
  end.

Lemma transformer_encoder_returns x hs nh ff dr (g : graph) :
  accepts_all infer → shape_of x ≠ [] →
  ∃ t g', transformer_encoder infer x hs nh ff dr g = (Py.Ok t, g')
          ∧ shape_of t ≠ [].
Proof.
  intros Hacc Hx. unfold transformer_encoder.
  do 7 run_call Hacc.
  assert (∃ f, last (shape_of x) = Some f) as [f Hf].
  { destruct (shape_of x) as [|d s] using rev_ind; [done|].
    rewrite last_snoc. eauto. }
  unfold shape_last. rewrite Hf, ret_bind_run.
  run_call Hacc. apply call_returns, Hacc.
Qed.

Lemma encoder_stack_returns n hs nh ff dr : ∀ x (g : graph),
  accepts_all infer → shape_of x ≠ [] →
  ∃ t g', encoder_stack infer n x hs nh ff dr g = (Py.Ok t, g')
          ∧ shape_of t ≠ [].
Proof.
  induction n as [|n IH]; intros x g Hacc Hx; [by exists x, g|].
  cbn [encoder_stack].
  destruct (transformer_encoder_returns x hs nh ff dr g Hacc Hx)
    as (t & g1 & Hrun & Hne).
  rewrite (bind_run _ _ _ _ _ Hrun). by apply IH.
Qed.

Lemma mlp_pairs_returns ds mdr : ∀ x (g : graph),
  accepts_all infer → ∃ t g', mlp_pairs infer ds mdr x g = (Py.Ok t, g') ∧ True.
Proof.
  induction ds as [|d ds IH]; intros x g Hacc; [by exists x, g|].
  cbn [mlp_pairs]. do 2 run_call Hacc. by apply IH.
Qed.

(** The loops of [build_model] are the stack and the head. *)
Lemma build_model_as_stack input_shape hs nh ff (N : Z) ds dr mdr (g : graph) :
  build_model infer n_classes input_shape hs nh ff N ds dr mdr g
  = stack_then_head infer n_classes input_shape hs nh ff (Z.to_nat N) ds dr mdr g.
Proof.
  unfold build_model, stack_then_head, classification_head.
  apply bind_ext. intros inputs g1.
  etrans; [apply bind_cong_l, for_range_stack|].
  apply bind_ext. intros x g2. rewrite bind_assoc.
  apply bind_ext. intros x1 g3. rewrite bind_assoc.
  etrans; [apply bind_cong_l, for_mlp_pairs|]. reflexivity.
Qed.

(** C5.  [build_model] is the sequential composition the specification
    describes: for every [N >= 0] it runs as "input, the encoder block [N]
    times in sequence, the classification head", whatever the framework
    does at each layer; and whenever it returns a model, the graph has
    grown by exactly the input node, [N] encoder blocks each fed by the
    one before, global average pooling, one Dense and Dropout pair per
    entry of [mlp_units] in order, and the softmax Dense of [n_classes]
    units.  It has no failure of its own: it returns whenever the
    framework accepts every layer. *)
Theorem build_model_composition input_shape hs nh ff (N : Z) ds dr mdr :
  (0 ≤ N)%Z →
  (∀ g : graph,
     build_model infer n_classes input_shape hs nh ff N ds dr mdr g
     = stack_then_head infer n_classes input_shape hs nh ff (Z.to_nat N) ds dr mdr g)
  ∧ (∀ (g : graph) m g',
       build_model infer n_classes input_shape hs nh ff N ds dr mdr g
       = (Py.Ok m, g') →
       ∃ fs, Z.of_nat (length fs) = N
             ∧ g' = g ++ {| n_layer := InputLayer input_shape; n_inputs := [] |}
                       :: stack_nodes hs nh ff dr (length g) (S (length g)) fs
                       ++ chain_nodes (length g + 9 * length fs)
                            (S (length g + 9 * length fs))
                            (head_layers n_classes ds mdr)
             ∧ n_layer <$> drop (length g) g'
               = InputLayer input_shape
                 :: flat_map (encoder_layers hs nh ff dr) fs
                 ++ head_layers n_classes ds mdr
             ∧ tid (m_inputs m) = length g
             ∧ tid (m_outputs m) = length g' - 1)
  ∧ (accepts_all infer →
     ∀ g : graph, ∃ m g',
       build_model infer n_classes input_shape hs nh ff N ds dr mdr g
       = (Py.Ok m, g')).
Proof.
  intros HN.
  pose proof (build_model_as_stack input_shape hs nh ff N ds dr mdr) as Heq.
  split; [exact Heq|]. split; cycle 1.
  { intros Hacc g. rewrite Heq. unfold stack_then_head, classification_head.
    destruct (call_returns (InputLayer input_shape) [] g Hacc)
      as (inputs & g1 & Hc & Hne).
    rewrite (bind_run _ _ _ _ _ Hc).
    destruct (encoder_stack_returns (Z.to_nat N) hs nh ff dr inputs g1 Hacc Hne)
      as (x & g2 & Hs & _).
    rewrite (bind_run _ _ _ _ _ Hs).
    destruct (call_returns (GlobalAveragePooling1D "channels_first") [x] g2 Hacc)
      as (x1 & g3 & Hc1 & _).
    destruct (mlp_pairs_returns ds mdr x1 g3 Hacc) as (x2 & g4 & Hm & _).
    destruct (call_returns (Dense (Z.of_nat n_classes) (Some "softmax")) [x2] g4 Hacc)
      as (x3 & g5 & Hc2 & _).
    eexists _, g5.
    erewrite bind_run; [reflexivity|].
    erewrite bind_run; [|exact Hc1].
    erewrite bind_run; [|exact Hm]. exact Hc2. }
  intros g m g' H. rewrite Heq in H. unfold stack_then_head in H.
  step H. rename H0 into Hin.
  apply bind_inv in H as (x & g2 & Hstack & H).
  apply encoder_stack_nodes in Hstack as (fs & Hlen & -> & Hx).
  apply bind_inv in H as (out & g3 & Hhead & H).
  apply classification_head_nodes in Hhead as [-> Hout].
  injection H as <- <-. exists fs.
  cbn [fmap list_fmap] in *.
  rewrite ?length_app, ?length_stack_nodes in *. cbn [length] in *.
  assert (length (head_layers n_classes ds mdr) = 2 * length ds + 2) as Hhl.
  { unfold head_layers. cbn [length]. rewrite length_app. cbn [length].
    assert (length (flat_map (λ d, [Dense d (Some "relu"); Dropout mdr]) ds)
            = 2 * length ds) as ->; [|lia].
    clear. induction ds as [|d ds IH]; [done|]. simpl. lia. }
  assert (tid x = length g + 9 * length fs) as Hx'.
  { rewrite Hx, Hin. destruct (Z.to_nat N); simpl in *; lia. }
  rewrite Hx', Hin in *. clear Hx.
  split; [rewrite Hlen; by apply Z2Nat.id|]. split; [|split; [|split]].
  - rewrite <- !app_assoc. unfold head_layers. cbn [app chain_nodes].
    replace (length g + 1) with (S (length g)) by lia.
    replace (S (length g) + 9 * length fs) with (S (length g + 9 * length fs))
      by lia.
    done.
  - rewrite <- !app_assoc, drop_app_length. cbn [app].
    rewrite fmap_cons, fmap_app, layers_stack_nodes. cbn [n_layer].
    do 2 f_equal. unfold head_layers.
    by rewrite fmap_cons, layers_chain_nodes.
  - done.
  - cbn [m_outputs]. rewrite Hout, length_chain_nodes.
    unfold head_layers in Hhl. cbn [length] in Hhl. lia.
Qed.

(** *** Where an exception of the builder comes from *)

Lemma call_raise l ins (g : graph) e g' :
  call infer l ins g = (Py.Raise e, g') → raised_by_framework infer e.
Proof.
  unfold call. destruct (infer l (shape_of <$> ins)) as [shp|e1] eqn:Hi; [done|].
  intros [= <- <-]. left. eauto.
Qed.

(** Takes a failed run apart, one step after the other. *)
Ltac blame H :=
  repeat (apply bind_raise_inv in H as [H|(? & ? & _ & H)];
          [by eapply call_raise|]).

Lemma transformer_encoder_raise x hs nh ff dr (g : graph) e g' :
  transformer_encoder infer x hs nh ff dr g = (Py.Raise e, g') →
  raised_by_framework infer e.
Proof.
  unfold transformer_encoder. intros H. blame H.
  apply bind_raise_inv in H as [H|(? & ? & _ & H)].
  { unfold shape_last in H. destruct (last (shape_of x)); [done|].
    injection H as <- <-. by right. }
  blame H. by eapply call_raise.
Qed.

Lemma encoder_stack_raise n hs nh ff dr : ∀ x (g : graph) e g',
  encoder_stack infer n x hs nh ff dr g = (Py.Raise e, g') →
  raised_by_framework infer e.
Proof.
  induction n as [|n IH]; intros x g e g' H; [done|].
  cbn [encoder_stack] in H.
  apply bind_raise_inv in H as [H|(? & ? & _ & H)].
  - by eapply transformer_encoder_raise.
  - by eapply IH.
Qed.

Lemma mlp_pairs_raise ds mdr : ∀ x (g : graph) e g',
  mlp_pairs infer ds mdr x g = (Py.Raise e, g') → raised_by_framework infer e.
Proof.
  induction ds as [|d ds IH]; intros x g e g' H; [done|].
  cbn [mlp_pairs] in H. blame H. by eapply IH.
Qed.

Lemma build_model_raise input_shape hs nh ff (N : Z) ds dr mdr (g : graph) e g' :
  build_model infer n_classes input_shape hs nh ff N ds dr mdr g = (Py.Raise e, g') →
  raised_by_framework infer e.
Proof.
  rewrite build_model_as_stack. unfold stack_then_head, classification_head.
  intros H. blame H.
  apply bind_raise_inv in H as [H|(? & ? & _ & H)];
    [by eapply encoder_stack_raise|].
  apply bind_raise_inv in H as [H|(? & ? & _ & H)]; [|done].
  blame H.
  apply bind_raise_inv in H as [H|(? & ? & _ & H)];
    [by eapply mlp_pairs_raise|].
  by eapply call_raise.
Qed.

End builder_facts.


Lemma build_model_composition_witness :
  Keras.notebook_build
  = Keras.stack_then_head Keras.sample_infer 2 [500; 1]%Z 256 4 4 (Z.to_nat 4)
      [128]%Z 0.25 0.4 []
  ∧ ∃ m g' fs,
      Keras.notebook_build = (Py.Ok m, g')
      ∧ length g' = 41
      ∧ Z.of_nat (length fs) = 4%Z
      ∧ Keras.n_layer <$> g'
        = Keras.InputLayer [500; 1]%Z
          :: flat_map (Keras.encoder_layers 256 4 4 0.25) fs
          ++ Keras.head_layers 2 [128]%Z 0.4
      ∧ Keras.tid (Keras.m_inputs m) = 0
      ∧ Keras.tid (Keras.m_outputs m) = 40.
Proof.
  destruct (build_model_composition Keras.sample_infer 2 [500; 1]%Z 256 4 4 4
              [128]%Z 0.25 0.4 ltac:(lia)) as (Heq & Hnodes & _).
  split; [exact (Heq [])|].
  unfold Keras.notebook_build.
  destruct (Keras.build_model Keras.sample_infer 2 [500; 1]%Z 256 4 4 4
              [128]%Z 0.25 0.4 []) as [[m|e] g'] eqn:Hrun;
    [|vm_compute in Hrun; discriminate].
  destruct (Hnodes [] m g' Hrun) as (fs & Hlen & _ & Hlayers & Hin & Hout).
  assert (length g' = 41) as Hg'.
  { clear -Hrun. vm_compute in Hrun. by injection Hrun as <- <-. }
  exists m, g', fs. rewrite Hg' in Hout. repeat split; done.
Defined.

(** ** The cloud notebook *)

Section notebook_facts.
Import Cloud.
Variable raises : nat → libcall → option Py.exn.

Lemma lib_bind {B} c (k : unit → Py.M world B) w :
  (lib raises c ≫= k) w
  = match raises (length (calls w)) c with
    | Some e => (Py.Raise e, add_call c w)
    | None => k tt (add_call c w)
    end.
Proof.
  unfold mbind, Py.M_bind, Py.bind, lib.
  by destruct (raises (length (calls w)) c).
Qed.

Lemma lib_bind_eq {B} c (k1 k2 : unit → Py.M world B) w :
  k1 tt (add_call c w) = k2 tt (add_call c w) →
  (lib raises c ≫= k1) w = (lib raises c ≫= k2) w.
Proof. intros Hk. rewrite !lib_bind. by destruct (raises _ _). Qed.

Lemma lib_ret c w : (lib raises c ≫= λ _, mret tt) w = lib raises c w.
Proof. rewrite lib_bind. unfold lib. by destruct (raises _ _). Qed.

Lemma remote_bind {B} (k : bool → Py.M world B) w :
  (remote ≫= k) w = k (remote_flag w) w.
Proof. reflexivity. Qed.

Lemma sys_modules_bind {B} name (k : bool → Py.M world B) w :
  (in_sys_modules name ≫= k) w = k (bool_decide (name ∈ sys_modules w)) w.
Proof. reflexivity. Qed.

Lemma length_calls_add c w :
  length (calls (add_call c w)) = S (length (calls w)).
Proof. cbn [calls add_call]. rewrite length_app. simpl. lia. Qed.

Lemma f_write_bind {B} name text (k : unit → Py.M world B) w :
  (f_write name text ≫= k) w = k tt (set_file name text w).
Proof. reflexivity. Qed.

Lemma loaded_bind {B} name (k : unit → Py.M world B) w :
  (loaded name ≫= k) w = k tt (add_module name w).
Proof. reflexivity. Qed.

Lemma remote_flag_apply_item w i :
  keeps_marker i → remote_flag (apply_item w i) = remote_flag w.
Proof.
  destruct i as [c|k v|n t|n]; simpl; intros Hk; try done.
  unfold remote_flag. simpl. by rewrite lookup_insert_ne.
Qed.

Lemma run_items_app items1 items2 w :
  run_items raises (items1 ++ items2) w
  = (run_items raises items1 ≫= λ _, run_items raises items2) w.
Proof.
  revert w. induction items1 as [|[c|k v|n t|n] items1 IH]; intros w.
  - done.
  - cbn [app run_items]. rewrite bind_assoc, !lib_bind.
    destruct (raises _ _); [done|]. apply IH.
  - cbn [app run_items]. apply IH.
  - cbn [app run_items]. apply IH.
  - cbn [app run_items]. apply IH.
Qed.

(** A script followed by code that is itself a script, chosen by the
    remote flag, which the first script leaves alone. *)
Lemma run_items_then items1 (rest : Py.M world unit) items2 b :
  Forall keeps_marker items1 →
  (∀ w1, remote_flag w1 = b → rest w1 = run_items raises (items2 b) w1) →
  ∀ w, remote_flag w = b →
       (run_items raises items1 ≫= λ _, rest) w
       = run_items raises (items1 ++ items2 b) w.
Proof.
  intros Hkeep Hrest.
  induction Hkeep as [|i items1 Hi _ IH]; intros w Hw.
  { by apply Hrest. }
  pose proof (remote_flag_apply_item w i Hi) as Hflag.
  destruct i as [c|k v|n t|n]; cbn [app run_items].
  - rewrite bind_assoc, !lib_bind.
    destruct (raises _ _); [done|].
    apply IH. by rewrite <- Hw, <- Hflag.
  - apply IH. by rewrite <- Hw, <- Hflag.
  - apply IH. by rewrite <- Hw, <- Hflag.
  - apply IH. by rewrite <- Hw, <- Hflag.
Qed.

(** Takes the next library call off both sides. *)
Ltac next_call :=
  unfold import_from; rewrite ?bind_assoc; apply lib_bind_eq;
  cbn beta; rewrite ?loaded_bind.

Lemma colab_script w :
  (c ← in_sys_modules "google.colab";
   when c (import_from raises "google.colab" "auth";;
           lib raises AuthenticateUser;;
           setenv "GOOGLE_CLOUD_PROJECT" GCP_PROJECT_ID)) w
  = run_items raises (if colab_flag w then script_colab else []) w.
Proof.
  rewrite sys_modules_bind. fold (colab_flag w).
  destruct (colab_flag w); [|reflexivity].
  cbn [when]. unfold script_colab. cbn [run_items].
  next_call. apply lib_bind_eq. reflexivity.
Qed.

Lemma colab_flag_kaggle w :
  colab_flag (add_module "kaggle_secrets" w) = colab_flag w.
Proof.
  unfold colab_flag. apply bool_decide_ext. cbn [sys_modules add_module].
  rewrite elem_of_union, elem_of_singleton. split; [|by right].
  by intros [|].
Qed.

Lemma authenticate_script w :
  authenticate raises w
  = run_items raises
      (script_authenticate (remote_flag w) (kaggle_flag w) (colab_flag w)) w.
Proof.
  unfold authenticate, script_authenticate. rewrite remote_bind.
  destruct (remote_flag w); cbn [negb when]; [reflexivity|].
  rewrite sys_modules_bind. fold (kaggle_flag w).
  destruct (kaggle_flag w); cbn [when app].
  - unfold script_kaggle. cbn [app run_items].
    do 3 next_call.
    rewrite colab_script.
    assert (∀ c w1, colab_flag (add_call c w1) = colab_flag w1) as Hadd by done.
    by rewrite !Hadd, colab_flag_kaggle, Hadd.
  - rewrite ret_bind_run. apply colab_script.
Qed.

Lemma script_authenticate_keeps b k c :
  Forall keeps_marker (script_authenticate b k c).
Proof. destruct b, k, c; repeat constructor; done. Qed.

(** The cells before the last run the script of their host. *)
Lemma cells_script w :
  cells_before_submit raises w
  = run_items raises
      (script_before_submit (remote_flag w) (kaggle_flag w) (colab_flag w)) w.
Proof.
  unfold cells_before_submit, script_before_submit.
  etrans; [apply bind_cong_l, authenticate_script|].
  apply (run_items_then _ _ (λ b, script_model ++ script_fit b) (remote_flag w));
    [apply script_authenticate_keeps| |done].
  generalize (remote_flag w). clear w. intros b w Hw.
  unfold load_and_split, create_model, quick_validation, remote_training,
    script_model.
  cbn [app run_items].
  do 11 next_call.
  rewrite ?bind_assoc, remote_bind.
  assert (∀ c w1, remote_flag (add_call c w1) = remote_flag w1) as Hadd by done.
  assert (∀ n w1, remote_flag (add_module n w1) = remote_flag w1) as Hmod by done.
  rewrite !Hadd, Hmod, !Hadd, Hw.
  unfold script_fit. destruct b; cbn [negb when run_items].
  - rewrite ret_bind_run, remote_bind, !Hadd, Hmod, !Hadd, Hw. cbn [when].
    do 4 next_call. symmetry. apply lib_ret.
  - do 3 next_call.
    rewrite remote_bind, !Hadd, Hmod, !Hadd, Hw. reflexivity.
Qed.

Lemma start_remote_training_script w :
  start_remote_training raises w = run_items raises script_submit w.
Proof.
  unfold start_remote_training, script_submit, write_file. cbn [run_items].
  next_call. rewrite !f_write_bind. do 2 next_call. symmetry. apply lib_ret.
Qed.

Lemma notebook_script w :
  notebook raises w
  = run_items raises
      (script_before_submit (remote_flag w) (kaggle_flag w) (colab_flag w)
       ++ script_submit) w.
Proof.
  unfold notebook. etrans; [apply bind_cong_l, cells_script|].
  rewrite run_items_app. apply bind_ext. intros _ w1.
  apply start_remote_training_script.
Qed.

(** What a script has done when it stops: all of it when it returns, and
    when it raises, everything up to the call that raised, the exception
    being the one the library raised there; every call before the last
    one made has returned, and so has the last one of a script that
    returns. *)
Lemma run_items_trace items : ∀ w r w',
  run_items raises items w = (r, w') →
  ∃ done post,
    items = done ++ post ∧ w' = foldl apply_item w done
    ∧ match r with
      | Py.Ok _ => post = []
      | Py.Raise e =>
          ∃ pre c, done = pre ++ [Call c]
                   ∧ raises (length (calls (foldl apply_item w pre))) c = Some e
      end
    ∧ (∀ pre c rest, done = pre ++ Call c :: rest →
         rest ≠ [] ∨ r = Py.Ok tt →
         raises (length (calls (foldl apply_item w pre))) c = None).
Proof.
  induction items as [|i items IH]; intros w r w' H.
  { injection H as <- <-. exists [], []. repeat split; try done.
    intros pre c rest Hd. by destruct pre. }
  assert (∀ r w', run_items raises items (apply_item w i) = (r, w') →
            (∀ c, i = Call c → raises (length (calls w)) c = None) →
            ∃ done post,
              i :: items = done ++ post ∧ w' = foldl apply_item w done
              ∧ match r with
                | Py.Ok _ => post = []
                | Py.Raise e =>
                    ∃ pre c, done = pre ++ [Call c]
                             ∧ raises (length (calls (foldl apply_item w pre))) c
                               = Some e
                end
              ∧ (∀ pre c rest, done = pre ++ Call c :: rest →
                   rest ≠ [] ∨ r = Py.Ok tt →
                   raises (length (calls (foldl apply_item w pre))) c = None))
    as Hnext.
  { intros r1 w1 H1 Hi. apply IH in H1 as (done & post & -> & -> & Hr & Hret).
    exists (i :: done), post. split; [done|]. split; [done|]. split.
    - destruct r1 as [[]|e]; [done|]. destruct Hr as (pre & c & -> & He).
      by exists (i :: pre), c.
    - intros [|i' pre] c rest Hd Hcase; simplify_eq/=; [by apply Hi|].
      by eapply Hret. }
  destruct i as [c|k v|n t|n]; cbn [run_items] in H.
  - rewrite lib_bind in H.
    destruct (raises (length (calls w)) c) as [e|] eqn:He.
    + injection H as <- <-. exists [Call c], items.
      split; [done|]. split; [done|]. split; [by exists [], c|].
      intros [|i' pre] c' rest Hd Hcase; simplify_eq/=.
      * by destruct Hcase.
      * by destruct pre.
    + apply Hnext; [done|]. by intros c' [= <-].
  - by apply Hnext.
  - by apply Hnext.
  - by apply Hnext.
Qed.

Lemma calls_foldl_apply_item items : ∀ w,
  calls (foldl apply_item w items) = calls w ++ calls_of items.
Proof.
  induction items as [|[c|k v|n t|n] items IH]; intros w;
    cbn [foldl calls_of omap list_omap].
  - by rewrite app_nil_r.
  - rewrite IH. simpl. by rewrite <- app_assoc.
  - by rewrite IH.
  - by rewrite IH.
  - by rewrite IH.
Qed.

Lemma calls_of_app items1 items2 :
  calls_of (items1 ++ items2) = calls_of items1 ++ calls_of items2.
Proof. apply omap_app. Qed.

(** The item behind a call of a script. *)
Lemma calls_of_split items : ∀ p c q,
  calls_of items = p ++ c :: q →
  ∃ pre rest, items = pre ++ Call c :: rest
              ∧ calls_of pre = p ∧ calls_of rest = q.
Proof.
  induction items as [|i items IH]; intros p c q H.
  { by destruct p. }
  destruct i as [c0|k v|n t|n]; cbn [calls_of omap list_omap] in H.
  - fold (calls_of items) in H. destruct p as [|c1 p].
    + injection H as -> <-. by exists [], items.
    + injection H as -> H.
      destruct (IH _ _ _ H) as (pre & rest & -> & <- & <-).
      by exists (Call c1 :: pre), rest.
  - fold (calls_of items) in H.
    destruct (IH _ _ _ H) as (pre & rest & -> & <- & <-).
    by exists (SetEnv k v :: pre), rest.
  - fold (calls_of items) in H.
    destruct (IH _ _ _ H) as (pre & rest & -> & <- & <-).
    by exists (WriteFile n t :: pre), rest.
  - fold (calls_of items) in H.
    destruct (IH _ _ _ H) as (pre & rest & -> & <- & <-).
    by exists (AddModule n :: pre), rest.
Qed.

(** A file is as before unless one of the items writes it. *)
Lemma files_foldl_other name items : ∀ w,
  Forall (λ i, match i with WriteFile n _ => n ≠ name | _ => True end) items →
  files (foldl apply_item w items) !! name = files w !! name.
Proof.
  induction items as [|i items IH]; intros w Hitems; [done|].
  inversion_clear Hitems as [|?? Hi Hrest]. cbn [foldl].
  rewrite IH by done. destruct i as [c|k v|n t|n]; try done.
  simpl. by rewrite lookup_insert_ne.
Qed.

(** A file only ever written with [text] holds [text] or is as before. *)
Lemma files_foldl_written name text items : ∀ w,
  Forall (λ i, match i with WriteFile n t => n = name → t = text | _ => True end)
         items →
  files (foldl apply_item w items) !! name = Some text
  ∨ files (foldl apply_item w items) !! name = files w !! name.
Proof.
  induction items as [|i items IH]; intros w Hitems; [by right|].
  inversion_clear Hitems as [|?? Hi Hrest]. cbn [foldl].
  destruct (IH (apply_item w i) Hrest) as [Hw|Hw]; [by left|].
  rewrite Hw. destruct i as [c|k v|n t|n]; try by right.
  simpl. destruct (decide (n = name)) as [->|Hne].
  - left. rewrite lookup_insert_eq. f_equal. by apply Hi.
  - right. by rewrite lookup_insert_ne.
Qed.

Lemma notebook_trace w r w' :
  notebook raises w = (r, w') →
  ∃ done post,
    script_before_submit (remote_flag w) (kaggle_flag w) (colab_flag w)
      ++ script_submit = done ++ post
    ∧ w' = foldl apply_item w done
    ∧ calls w' = calls w ++ calls_of done
    ∧ match r with
      | Py.Ok _ => post = []
      | Py.Raise e =>
          ∃ pre c, done = pre ++ [Call c]
                   ∧ raises (length (calls w ++ calls_of pre)) c = Some e
      end.
Proof.
  rewrite notebook_script. intros H.
  apply run_items_trace in H as (done & post & Hitems & -> & Hr & _).
  exists done, post. split; [done|]. split; [done|].
  split; [apply calls_foldl_apply_item|].
  destruct r as [[]|e]; [done|]. destruct Hr as (pre & c & -> & He).
  exists pre, c. by rewrite <- calls_foldl_apply_item.
Qed.

(** A call that raises is the last call of the script's run, and its
    exception is the result of the run. *)
Lemma run_items_stops items w r w' p c q e :
  run_items raises items w = (r, w') →
  calls w' = calls w ++ p ++ c :: q →
  raises (length (calls w ++ p)) c = Some e →
  q = [] ∧ r = Py.Raise e.
Proof.
  intros H Hcalls He.
  apply run_items_trace in H as (done & post & _ & -> & Hr & Hret).
  rewrite calls_foldl_apply_item in Hcalls. apply app_inv_head in Hcalls.
  apply calls_of_split in Hcalls as (pre & rest & -> & <- & <-).
  rewrite <- calls_foldl_apply_item in He.
  destruct (decide (rest = [])) as [->|Hrest]; cycle 1.
  { rewrite (Hret pre c rest eq_refl (or_introl Hrest)) in He. done. }
  split; [done|]. destruct r as [[]|e'].
  - rewrite (Hret pre c [] eq_refl (or_intror eq_refl)) in He. done.
  - destruct Hr as (pre' & c' & Hd & He').
    apply app_inj_tail in Hd as [<- [= <-]]. congruence.
Qed.

Lemma notebook_stops w r w' p c q e :
  notebook raises w = (r, w') →
  calls w' = calls w ++ p ++ c :: q →
  raises (length (calls w ++ p)) c = Some e →
  q = [] ∧ r = Py.Raise e.
Proof. rewrite notebook_script. apply run_items_stops. Qed.

(** C3.  The two trainings are chosen by [tfc.remote()] alone: the
    training calls of a run are, in order, those of the path the flag
    selects (on the remote worker the fit on all samples for 100 epochs
    with the three callbacks, then [model.save]; elsewhere the fit on the
    first 100 samples for one epoch), never a call of the other path; and
    a run that completes has made all of them. *)
Theorem one_fit_path_by_remote_flag w r w' :
  notebook raises w = (r, w') →
  ∃ cs rest,
    calls w' = calls w ++ cs
    ∧ List.filter is_training cs ++ rest
      = (if remote_flag w
         then [ Fit AllSamples AllSamples 0.2 100
                  (Some [ TensorBoard TENSORBOARD_LOGS_DIR;
                          ModelCheckpoint MODEL_CHECKPOINT_DIR true;
                          EarlyStopping "loss" 0.001 3 ]);
                Save SAVED_MODEL_DIR ]
         else [ Fit (FirstSamples 100) (FirstSamples 100) 0.2 1 None ])
    ∧ (r = Py.Ok tt → rest = []).
Proof.
  intros H. apply notebook_trace in H as (done & post & Hitems & _ & Hcalls & Hr).
  exists (calls_of done), (List.filter is_training (calls_of post)).
  split; [done|]. split.
  - rewrite <- List.filter_app, <- calls_of_app, <- Hitems.
    by destruct (remote_flag w), (kaggle_flag w), (colab_flag w).
  - intros ->. by subst post.
Qed.

(** C7.  The notebook writes no file but [requirements.txt], and writes
    into it nothing but the one line [tensorflow-cloud]; after a run that
    completes the file holds exactly that line. *)
Theorem requirements_txt_content w r w' :
  notebook raises w = (r, w') →
  (∀ name, name ≠ "requirements.txt" → files w' !! name = files w !! name)
  ∧ (files w' !! "requirements.txt" = Some requirements_text
     ∨ files w' !! "requirements.txt" = files w !! "requirements.txt")
  ∧ (r = Py.Ok tt → files w' !! "requirements.txt" = Some requirements_text)
  ∧ Numpy.split_on "010" requirements_text = ["tensorflow-cloud"; ""].
Proof.
  intros H. apply notebook_trace in H as (done & post & Hitems & -> & _ & Hr).
  split; [|split; [|split]].
  - intros name Hname. apply files_foldl_other.
    eapply (Forall_app _ done post). rewrite <- Hitems.
    destruct (remote_flag w), (kaggle_flag w), (colab_flag w);
      repeat constructor; done.
  - apply files_foldl_written.
    eapply (Forall_app _ done post). rewrite <- Hitems.
    destruct (remote_flag w), (kaggle_flag w), (colab_flag w);
      repeat constructor; done.
  - intros ->. subst post. rewrite app_nil_r in Hitems. subst done.
    destruct (remote_flag w), (kaggle_flag w), (colab_flag w);
      simpl; by rewrite lookup_insert_eq.
  - reflexivity.
Qed.

(** C10.  The constant named [TF_GPU_IMAGE] is bound to the tf2-cpu image
    and [TF_CPU_IMAGE] to the tf2-gpu image; the only call of [tfc.run]
    passes [TF_GPU_IMAGE], so the parent image of the submitted job is
    the tf2-cpu image, together with the machine configuration
    [K80_1X]. *)
Theorem run_parent_image_is_cpu_image w r w' :
  notebook raises w = (r, w') →
  TF_GPU_IMAGE = "gcr.io/deeplearning-platform-release/tf2-cpu.2-5"
  ∧ TF_CPU_IMAGE = "gcr.io/deeplearning-platform-release/tf2-gpu.2-5"
  ∧ ∃ cs, calls w' = calls w ++ cs
          ∧ (∀ ds rq docker chief labels,
               Run ds rq docker chief labels ∈ cs →
               parent_image docker
               = "gcr.io/deeplearning-platform-release/tf2-cpu.2-5"
               ∧ chief = "K80_1X")
          ∧ (r = Py.Ok tt →
             List.filter is_run cs
             = [ Run "auto" "requirements.txt"
                   {| parent_image := "gcr.io/deeplearning-platform-release/tf2-cpu.2-5";
                      image_build_bucket := GCS_BUCKET |}
                   "K80_1X" [("job", "mnist")] ]).
Proof.
  intros H. apply notebook_trace in H as (done & post & Hitems & _ & Hcalls & Hr).
  split; [done|]. split; [done|].
  exists (calls_of done). split; [done|]. split.
  - intros ds rq docker chief labels Hin.
    assert (Run ds rq docker chief labels
            ∈ calls_of (script_before_submit (remote_flag w) (kaggle_flag w)
                          (colab_flag w) ++ script_submit)) as Hin'.
    { rewrite Hitems, calls_of_app. apply elem_of_app. by left. }
    clear -Hin'.
    unfold script_before_submit, script_submit, run_call, full_fit, smoke_fit
      in Hin'.
    destruct (remote_flag w), (kaggle_flag w), (colab_flag w); simpl in Hin';
      repeat (apply elem_of_cons in Hin' as [Hin'|Hin']; [by simplify_eq|]);
      by apply elem_of_nil in Hin'.
  - intros ->. subst post. rewrite app_nil_r in Hitems. subst done.
    by destruct (remote_flag w), (kaggle_flag w), (colab_flag w).
Qed.

End notebook_facts.

Lemma one_fit_path_by_remote_flag_witness :
  ∃ cs rest,
    Cloud.calls (Cloud.notebook Cloud.never_raises Cloud.worker_world).2
    = Cloud.calls Cloud.worker_world ++ cs
    ∧ List.filter Cloud.is_training cs ++ rest
      = (if Cloud.remote_flag Cloud.worker_world
         then [ Cloud.Fit Cloud.AllSamples Cloud.AllSamples 0.2 100
                  (Some [ Cloud.TensorBoard Cloud.TENSORBOARD_LOGS_DIR;
                          Cloud.ModelCheckpoint Cloud.MODEL_CHECKPOINT_DIR true;
                          Cloud.EarlyStopping "loss" 0.001 3 ]);
                Cloud.Save Cloud.SAVED_MODEL_DIR ]
         else [ Cloud.Fit (Cloud.FirstSamples 100) (Cloud.FirstSamples 100)
                  0.2 1 None ])
    ∧ (Py.Ok tt = Py.Ok tt → rest = []).
Proof.
  apply (one_fit_path_by_remote_flag Cloud.never_raises Cloud.worker_world).
  vm_compute. reflexivity.
Defined.

Lemma requirements_txt_content_witness :
  (∀ name, name ≠ "requirements.txt" →
     Cloud.files (Cloud.notebook Cloud.never_raises Cloud.colab_world).2 !! name
     = Cloud.files Cloud.colab_world !! name)
  ∧ (Cloud.files (Cloud.notebook Cloud.never_raises Cloud.colab_world).2
       !! "requirements.txt" = Some Cloud.requirements_text
     ∨ Cloud.files (Cloud.notebook Cloud.never_raises Cloud.colab_world).2
         !! "requirements.txt"
       = Cloud.files Cloud.colab_world !! "requirements.txt")
  ∧ (Py.Ok tt = Py.Ok tt →
     Cloud.files (Cloud.notebook Cloud.never_raises Cloud.colab_world).2
       !! "requirements.txt" = Some Cloud.requirements_text)
  ∧ Numpy.split_on "010" Cloud.requirements_text = ["tensorflow-cloud"; ""].
Proof.
  apply (requirements_txt_content Cloud.never_raises Cloud.colab_world).
  vm_compute. reflexivity.
Defined.

Lemma run_parent_image_is_cpu_image_witness :
  Cloud.TF_GPU_IMAGE = "gcr.io/deeplearning-platform-release/tf2-cpu.2-5"
  ∧ Cloud.TF_CPU_IMAGE = "gcr.io/deeplearning-platform-release/tf2-gpu.2-5"
  ∧ ∃ cs, Cloud.calls (Cloud.notebook Cloud.never_raises Cloud.colab_world).2
          = Cloud.calls Cloud.colab_world ++ cs
          ∧ (∀ ds rq docker chief labels,
               Cloud.Run ds rq docker chief labels ∈ cs →
               Cloud.parent_image docker
               = "gcr.io/deeplearning-platform-release/tf2-cpu.2-5"
               ∧ chief = "K80_1X")
          ∧ (Py.Ok tt = Py.Ok tt →
             List.filter Cloud.is_run cs
             = [ Cloud.Run "auto" "requirements.txt"
                   {| Cloud.parent_image :=
                        "gcr.io/deeplearning-platform-release/tf2-cpu.2-5";
                      Cloud.image_build_bucket := Cloud.GCS_BUCKET |}
                   "K80_1X" [("job", "mnist")] ]).
Proof.
  apply (run_parent_image_is_cpu_image Cloud.never_raises Cloud.colab_world).
  vm_compute. reflexivity.
Defined.

(** ** Failures *)

Section builder_rejections.
Import Keras.
Variables infer infer' : layer → list tshape → Py.result tshape.
Variable e : Py.exn.
Hypothesis Hrej : rejecting e infer infer'.

Lemma agrees_ret {A} (a : A) : ends_or_agrees e (mret a) (mret a).
Proof. intros g. by right. Qed.

Lemma agrees_call l ins : ends_or_agrees e (call infer' l ins) (call infer l ins).
Proof.
  intros g. unfold call.
  destruct (Hrej l (shape_of <$> ins)) as [-> | ->]; [by right|by left].
Qed.

Lemma agrees_bind {A B} (m' m : Py.M graph A) (k' k : A → Py.M graph B) :
  ends_or_agrees e m' m → (∀ a, ends_or_agrees e (k' a) (k a)) →
  ends_or_agrees e (m' ≫= k') (m ≫= k).
Proof.
  intros Hm Hk g. unfold mbind, Py.M_bind, Py.bind.
  destruct (Hm g) as [Hr|Heq].
  - left. destruct (m' g) as [[a|e1] g1]; [done|]. by simplify_eq/=.
  - rewrite Heq. destruct (m g) as [[a|e1] g1]; [apply Hk|by right].
Qed.

Lemma agrees_for_each {A X} (xs : list X) (body' body : X → A → Py.M graph A) :
  (∀ x a, ends_or_agrees e (body' x a) (body x a)) →
  ∀ a, ends_or_agrees e (Py.for_each xs body' a) (Py.for_each xs body a).
Proof.
  intros Hbody. induction xs as [|x xs IH]; intros a; cbn [Py.for_each].
  - apply agrees_ret.
  - by apply agrees_bind.
Qed.

Lemma transformer_encoder_agrees x hs nh ff dr :
  ends_or_agrees e (transformer_encoder infer' x hs nh ff dr)
    (transformer_encoder infer x hs nh ff dr).
Proof.
  unfold transformer_encoder.
  repeat (apply agrees_bind; [apply agrees_call|intros ?]).
  apply agrees_bind; [intros g; by right|intros ?].
  apply agrees_bind; [apply agrees_call|intros ?]. apply agrees_call.
Qed.

Lemma build_model_agrees n_classes input_shape hs nh ff N ds dr mdr :
  ends_or_agrees e
    (build_model infer' n_classes input_shape hs nh ff N ds dr mdr)
    (build_model infer n_classes input_shape hs nh ff N ds dr mdr).
Proof.
  unfold build_model.
  apply agrees_bind; [apply agrees_call|intros ?].
  apply agrees_bind.
  { apply agrees_for_each. intros ??. apply transformer_encoder_agrees. }
  intros ?. apply agrees_bind; [apply agrees_call|intros ?].
  apply agrees_bind.
  { apply agrees_for_each. intros ??.
    apply agrees_bind; [apply agrees_call|intros ?]. apply agrees_call. }
  intros ?. apply agrees_bind; [apply agrees_call|intros ?].
  apply agrees_ret.
Qed.

End builder_rejections.

Section failures.
Context {F : Float64}.
Import Numpy Timeseries Cloud.

(** C8.  Nothing catches, retries or translates an exception; a failure
    of a library is the failure of the notebook.

    In the loader, an exception of [np.loadtxt] is the exception of
    [readucr], and an exception of [readucr] at either call is the
    loader's, the heap left as it was at the raise.

    In the cloud notebook, whenever a library call raises, the run ends
    there with that very exception: no call is made after it.  Conversely
    a run that ends with an exception ends with the one the library raised
    at the last call made.  In a Colab session a failure of
    [auth.authenticate_user] is the result of the run, the assignment of
    GOOGLE_CLOUD_PROJECT not reached; a failure of [tfc.run] is the result
    of the run, [requirements.txt] written.

    In the model builder, let the framework reject any layer calls with
    [e]: then [transformer_encoder] and [build_model] end with [e], or
    they never meet a rejected call and run as before; they never return
    after a rejected call and never change the exception.  Conversely an
    exception of [build_model] is one the framework raised at a layer call
    (or the IndexError of [shape[-1]]). *)
Theorem library_failures_propagate :
  (∀ fs name (h : heap) e h1,
     loadtxt fs name "009" h = (Py.Raise e, h1) →
     readucr fs name h = (Py.Raise e, h1))
  ∧ (∀ fs draw (h : heap) e h1,
       readucr fs train_url h = (Py.Raise e, h1) →
       loader fs draw h = (Py.Raise e, h1))
  ∧ (∀ fs draw (h : heap) train h1 e h2,
       readucr fs train_url h = (Py.Ok train, h1) →
       readucr fs test_url h1 = (Py.Raise e, h2) →
       loader fs draw h = (Py.Raise e, h2))
  ∧ (∀ raises w r w' pre c post e,
       notebook raises w = (r, w') →
       calls w' = calls w ++ pre ++ c :: post →
       raises (length (calls w ++ pre)) c = Some e →
       post = [] ∧ r = Py.Raise e)
  ∧ (∀ raises w e w',
       notebook raises w = (Py.Raise e, w') →
       ∃ cs c, calls w' = calls w ++ cs ++ [c]
               ∧ raises (length (calls w ++ cs)) c = Some e)
  ∧ (∀ raises w e,
       remote_flag w = false → kaggle_flag w = false → colab_flag w = true →
       raises (length (calls w)) (ImportFrom "google.colab" "auth") = None →
       raises (S (length (calls w))) AuthenticateUser = Some e →
       notebook raises w
       = (Py.Raise e,
          add_call AuthenticateUser
            (add_module "google.colab"
               (add_call (ImportFrom "google.colab" "auth") w))))
  ∧ (∀ raises w w1 e,
       cells_before_submit raises w = (Py.Ok tt, w1) →
       raises (length (calls w1)) (Open "requirements.txt" "w") = None →
       raises (S (length (calls w1))) (NewDockerConfig run_docker_config) = None →
       raises (S (S (length (calls w1)))) (MachineConfig "K80_1X") = None →
       raises (S (S (S (length (calls w1))))) run_call = Some e →
       notebook raises w
       = (Py.Raise e,
          add_call run_call
            (add_call (MachineConfig "K80_1X")
               (add_call (NewDockerConfig run_docker_config)
                  (set_file "requirements.txt" requirements_text
                     (add_call (Open "requirements.txt" "w") w1))))))
  ∧ (∀ infer infer' e,
       Keras.rejecting e infer infer' →
       (∀ x hs nh ff dr g,
          (Keras.transformer_encoder infer' x hs nh ff dr g).1 = Py.Raise e
          ∨ Keras.transformer_encoder infer' x hs nh ff dr g
            = Keras.transformer_encoder infer x hs nh ff dr g)
       ∧ (∀ n_classes input_shape hs nh ff N ds dr mdr g,
            (Keras.build_model infer' n_classes input_shape hs nh ff N ds dr mdr g).1
            = Py.Raise e
            ∨ Keras.build_model infer' n_classes input_shape hs nh ff N ds dr mdr g
              = Keras.build_model infer n_classes input_shape hs nh ff N ds dr mdr g))
  ∧ (∀ infer n_classes input_shape hs nh ff N ds dr mdr g e g',
       Keras.build_model infer n_classes input_shape hs nh ff N ds dr mdr g
       = (Py.Raise e, g') →
       Keras.raised_by_framework infer e).
Proof.
  repeat apply conj.
  - intros fs name h e h1 H. unfold readucr. by apply bind_raise.
  - intros fs draw h e h1 H. unfold loader, load_data. by do 2 apply bind_raise.
  - intros fs draw h train h1 e h2 Htrain H. unfold loader, load_data.
    apply bind_raise. rewrite (bind_run _ _ _ _ _ Htrain). by apply bind_raise.
  - intros raises w r w' pre c post e. apply notebook_stops.
  - intros raises w e w' H.
    apply notebook_trace in H as (done & post & _ & _ & Hcalls & pre & c & -> & He).
    exists (calls_of pre), c. by rewrite Hcalls, calls_of_app.
  - intros raises w e Hr Hk Hc Himport Hauth.
    rewrite notebook_script, Hr, Hk, Hc.
    unfold script_before_submit, script_authenticate, script_colab.
    cbn [app run_items]. rewrite lib_bind, Himport, loaded_bind, lib_bind.
    change (calls (add_module ?n ?w0)) with (calls w0).
    by rewrite length_calls_add, Hauth.
  - intros raises w w1 e Hcells Ho Hd Hm He. unfold notebook.
    rewrite (bind_run _ _ _ _ _ Hcells), start_remote_training_script.
    unfold script_submit. cbn [run_items].
    rewrite lib_bind, Ho, f_write_bind, lib_bind.
    change (calls (set_file ?n ?t ?w0)) with (calls w0).
    rewrite length_calls_add, Hd, lib_bind, length_calls_add.
    change (calls (set_file ?n ?t ?w0)) with (calls w0).
    rewrite length_calls_add, Hm, lib_bind, !length_calls_add.
    change (calls (set_file ?n ?t ?w0)) with (calls w0).
    by rewrite length_calls_add, He.
  - intros infer infer' e Hrej. split.
    + intros x hs nh ff dr g. by apply transformer_encoder_agrees.
    + intros n_classes input_shape hs nh ff N ds dr mdr g.
      by apply build_model_agrees.
  - intros infer n_classes input_shape hs nh ff N ds dr mdr g e g'.
    apply build_model_raise.
Qed.

End failures.

Lemma reject_dense_rejecting :
  Keras.rejecting (Py.LibraryError "Dense" 400) Keras.sample_infer Keras.reject_dense.
Proof. intros l ins. destruct l; (by right) || (by left). Defined.

Lemma library_failures_propagate_witness :
  Timeseries.readucr (F:=Decimal.decimal) ∅ Timeseries.train_url []
  = (Py.Raise Py.OSError, [])
  ∧ Timeseries.loader (F:=Decimal.decimal) ∅ Decimal.sample_draw []
    = (Py.Raise Py.OSError, [])
  ∧ (Timeseries.loader (F:=Decimal.decimal)
       {[Timeseries.train_url := Decimal.train_text]} Decimal.sample_draw []).1
    = Py.Raise Py.OSError
  ∧ (@nil Cloud.libcall = []
     ∧ (Cloud.notebook Cloud.auth_raises Cloud.colab_world).1
       = Py.Raise (Py.LibraryError "auth.authenticate_user" 401))
  ∧ (∃ cs c,
       Cloud.calls (Cloud.notebook Cloud.run_raises Cloud.worker_world).2
       = Cloud.calls Cloud.worker_world ++ cs ++ [c]
       ∧ Cloud.run_raises (length (Cloud.calls Cloud.worker_world ++ cs)) c
         = Some (Py.LibraryError "tfc.run" 403))
  ∧ Cloud.notebook Cloud.auth_raises Cloud.colab_world
    = (Py.Raise (Py.LibraryError "auth.authenticate_user" 401),
       Cloud.add_call Cloud.AuthenticateUser
         (Cloud.add_module "google.colab"
            (Cloud.add_call (Cloud.ImportFrom "google.colab" "auth")
               Cloud.colab_world)))
  ∧ Cloud.notebook Cloud.run_raises Cloud.worker_world
    = (Py.Raise (Py.LibraryError "tfc.run" 403),
       Cloud.add_call Cloud.run_call
         (Cloud.add_call (Cloud.MachineConfig "K80_1X")
            (Cloud.add_call (Cloud.NewDockerConfig Cloud.run_docker_config)
               (Cloud.set_file "requirements.txt" Cloud.requirements_text
                  (Cloud.add_call (Cloud.Open "requirements.txt" "w")
                     (Cloud.cells_before_submit Cloud.run_raises
                        Cloud.worker_world).2)))))
  ∧ ((Keras.build_model Keras.reject_dense 2 [500; 1]%Z 256 4 4 4 [128]%Z
        0.25 0.4 []).1
     = Py.Raise (Py.LibraryError "Dense" 400)
     ∨ Keras.build_model Keras.reject_dense 2 [500; 1]%Z 256 4 4 4 [128]%Z
         0.25 0.4 []
       = Keras.build_model Keras.sample_infer 2 [500; 1]%Z 256 4 4 4 [128]%Z
           0.25 0.4 [])
  ∧ Keras.raised_by_framework Keras.sample_infer Py.ValueError.
Proof.
  destruct (library_failures_propagate (F:=Decimal.decimal))
    as (Hload & Htrain & Htest & Hstop & Hlast & Hauth & Hrun & Hreject & Hbuild).
  split; [|split; [|split; [|split; [|split; [|split; [|split; [|split]]]]]]].
  - apply Hload. vm_compute. reflexivity.
  - apply Htrain. vm_compute. reflexivity.
  - destruct (Timeseries.readucr (F:=Decimal.decimal)
                {[Timeseries.train_url := Decimal.train_text]}
                Timeseries.train_url []) as [[train|e] h1] eqn:Hr;
      [|vm_compute in Hr; discriminate].
    rewrite (Htest _ Decimal.sample_draw _ train h1 Py.OSError h1 Hr); [done|].
    unfold Timeseries.readucr, Numpy.loadtxt.
    assert (({[Timeseries.train_url := Decimal.train_text]} : gmap string string)
              !! Timeseries.test_url = None) as -> by (vm_compute; reflexivity).
    reflexivity.
  - apply (Hstop Cloud.auth_raises Cloud.colab_world
             (Cloud.notebook Cloud.auth_raises Cloud.colab_world).1
             (Cloud.notebook Cloud.auth_raises Cloud.colab_world).2
             [Cloud.ImportFrom "google.colab" "auth"] Cloud.AuthenticateUser []
             (Py.LibraryError "auth.authenticate_user" 401));
      vm_compute; reflexivity.
  - apply (Hlast Cloud.run_raises Cloud.worker_world (Py.LibraryError "tfc.run" 403)
             (Cloud.notebook Cloud.run_raises Cloud.worker_world).2).
    vm_compute. reflexivity.
  - apply Hauth; vm_compute; reflexivity.
  - apply Hrun; vm_compute; reflexivity.
  - exact (proj2 (Hreject Keras.sample_infer Keras.reject_dense
                    (Py.LibraryError "Dense" 400) reject_dense_rejecting)
             2 [500; 1]%Z 256%Z 4%Z 4%Z 4%Z [128]%Z 0.25%Q 0.4%Q []).
  - apply (Hbuild Keras.sample_infer 2 [500]%Z 256%Z 4%Z 4%Z 4%Z [128]%Z
             0.25%Q 0.4%Q [] Py.ValueError
             (Keras.build_model Keras.sample_infer 2 [500]%Z 256 4 4 4 [128]%Z
                0.25 0.4 []).2).
    vm_compute. reflexivity.
Defined.

(** * Further properties of the code *)

(** ** The loader: which files it accepts *)

Section loader_edges.
Context {F : Float64}.
Import Numpy Timeseries.

Lemma uniform_forallb {A} (r0 : list A) rs c :
  Forall (λ r, length r = c) (r0 :: rs) →
  forallb (λ r, length r =? length r0) rs = true.
Proof.
  intros Hu. inversion_clear Hu as [|?? Hr0 Hrs].
  apply forallb_forall. intros r Hr. apply Nat.eqb_eq.
  rewrite Forall_forall in Hrs. rewrite Hr0. apply Hrs. by apply list_elem_of_In.
Qed.

Lemma forallb_uniform {A} (r0 : list A) rs :
  forallb (λ r, length r =? length r0) rs = true →
  Forall (λ r, length r = length r0) (r0 :: rs).
Proof.
  intros Hu. constructor; [done|]. apply Forall_forall. intros r Hr.
  apply Nat.eqb_eq. rewrite forallb_forall in Hu. apply Hu. by apply list_elem_of_In.
Qed.

(** A table that is too narrow is loaded and squeezed to fewer than two
    axes (or has no column); [data[:, 0]] then raises. *)
Lemma readucr_narrow_run fs name rows c (h : heap) :
  served fs name rows → Forall (λ r, length r = c) rows →
  length rows ≤ 1 ∨ c ≤ 1 →
  readucr fs name h = (Py.Raise Py.IndexError, h ++ [SFloat <$> concat rows]).
Proof.
  intros (text & Hfs & Hparse) Hu Hnarrow. unfold readucr, loadtxt.
  rewrite Hfs, Hparse. destruct rows as [|r0 rs]; [reflexivity|].
  rewrite (uniform_forallb _ _ _ Hu).
  inversion_clear Hu as [|?? Hr0 _]. rewrite Hr0.
  rewrite (bind_run _ _ _ _ _ (new_array_run _ _ _ _)).
  unfold getitem_col, squeeze. cbn [shape strides List.filter length].
  destruct rs as [|r1 rs].
  - cbn [length Nat.eqb negb]. by destruct (c =? 1).
  - destruct Hnarrow as [Hn|Hc]; [simpl in Hn; lia|].
    cbn [length Nat.eqb negb].
    destruct c as [|[|c]]; [reflexivity|reflexivity|lia].
Qed.

(** The outcomes of [readucr], by what the file holds. *)
Lemma readucr_outcome fs name (h : heap) :
  match fs !! name with
  | None => readucr fs name h = (Py.Raise Py.OSError, h)
  | Some text =>
      match parse_rows "009" text with
      | None => readucr fs name h = (Py.Raise Py.ValueError, h)
      | Some rows =>
          (¬ (∃ c, Forall (λ r, length r = c) rows)
           ∧ readucr fs name h = (Py.Raise Py.ValueError, h))
          ∨ (∃ c, Forall (λ r, length r = c) rows ∧ (length rows ≤ 1 ∨ c ≤ 1)
                  ∧ readucr fs name h
                    = (Py.Raise Py.IndexError, h ++ [SFloat <$> concat rows]))
          ∨ (∃ c, is_table rows c)
      end
  end.
Proof.
  destruct (fs !! name) as [text|] eqn:Hfs; cycle 1.
  { unfold readucr, loadtxt. by rewrite Hfs. }
  destruct (parse_rows "009" text) as [rows|] eqn:Hparse; cycle 1.
  { unfold readucr, loadtxt. by rewrite Hfs, Hparse. }
  assert (served fs name rows) as Hs by (by exists text).
  destruct rows as [|r0 rs].
  { right. left. exists 0. split; [constructor|]. split; [simpl; lia|].
    apply (readucr_narrow_run _ _ [] 0); [done|constructor|simpl; lia]. }
  destruct (forallb (λ r, length r =? length r0) rs) eqn:Hu.
  - apply forallb_uniform in Hu.
    destruct (decide (2 ≤ length (r0 :: rs) ∧ 2 ≤ length r0)) as [[Hn Hc]|Hno].
    + right. right. by exists (length r0).
    + right. left. exists (length r0). split; [done|].
      split; [lia|]. apply (readucr_narrow_run _ _ _ (length r0)); [done|done|lia].
  - left. split.
    + intros [c Hc]. by rewrite (uniform_forallb _ _ _ Hc) in Hu.
    + unfold readucr, loadtxt. by rewrite Hfs, Hparse, Hu.
Qed.

Lemma readucr_ok_table fs name (h : heap) res h' :
  readucr fs name h = (Py.Ok res, h') →
  ∃ rows c, served fs name rows ∧ is_table rows c.
Proof.
  intros Hrun. pose proof (readucr_outcome fs name h) as Hout.
  destruct (fs !! name) as [text|] eqn:Hfs; [|congruence].
  destruct (parse_rows "009" text) as [rows|] eqn:Hparse; [|congruence].
  destruct Hout as [[_ Hr]|[(c & _ & _ & Hr)|[c Ht]]]; [congruence..|].
  exists rows, c. split; [by exists text|done].
Qed.

(** [readucr] returns exactly when the file exists, every field of it is
    a number, and its rows form a table of at least two rows and two
    columns. *)
Theorem readucr_returns_iff_table fs name (h : heap) :
  (∃ res h', readucr fs name h = (Py.Ok res, h'))
  ↔ (∃ rows c, served fs name rows ∧ is_table rows c).
Proof.
  split.
  - intros (res & h' & Hrun). by eapply readucr_ok_table.
  - intros (rows & c & (text & Hfs & Hparse) & Ht).
    eexists _, _. exact (readucr_run fs name text rows c h Hfs Hparse Ht).
Qed.

(** On a file of numbers with a single row, a single column or no row at
    all, [readucr] raises IndexError at [data[:, 0]]: [np.loadtxt] has
    dropped the axis of length one.  The loaded data stay allocated. *)
Theorem readucr_narrow_table_raises fs name rows c (h : heap) :
  served fs name rows → Forall (λ r, length r = c) rows →
  length rows ≤ 1 ∨ c ≤ 1 →
  readucr fs name h = (Py.Raise Py.IndexError, h ++ [SFloat <$> concat rows]).
Proof. apply readucr_narrow_run. Qed.

(** The three ways [readucr] fails, and nothing else.  It raises OSError
    when the file is missing, ValueError when a field is not a number or
    the rows differ in width (nothing has been allocated in these two
    cases), IndexError when the table is too narrow; and a failure of
    [readucr] is one of these three. *)
Theorem readucr_failure_cause fs name (h : heap) :
  (fs !! name = None → readucr fs name h = (Py.Raise Py.OSError, h))
  ∧ (∀ text, fs !! name = Some text →
       parse_rows "009" text = None
       ∨ (∃ rows, parse_rows "009" text = Some rows
                  ∧ ¬ ∃ c, Forall (λ r, length r = c) rows) →
       readucr fs name h = (Py.Raise Py.ValueError, h))
  ∧ (∀ rows c, served fs name rows → Forall (λ r, length r = c) rows →
       length rows ≤ 1 ∨ c ≤ 1 →
       readucr fs name h = (Py.Raise Py.IndexError, h ++ [SFloat <$> concat rows]))
  ∧ (∀ e h', readucr fs name h = (Py.Raise e, h') →
       (e = Py.OSError ∧ h' = h ∧ fs !! name = None)
       ∨ (e = Py.ValueError ∧ h' = h
          ∧ ∃ text, fs !! name = Some text
                    ∧ (parse_rows "009" text = None
                       ∨ ∃ rows, parse_rows "009" text = Some rows
                                 ∧ ¬ ∃ c, Forall (λ r, length r = c) rows))
       ∨ (e = Py.IndexError
          ∧ ∃ rows c, served fs name rows ∧ Forall (λ r, length r = c) rows
                      ∧ (length rows ≤ 1 ∨ c ≤ 1)
                      ∧ h' = h ++ [SFloat <$> concat rows])).
Proof.
  pose proof (readucr_outcome fs name h) as Hout.
  split; [|split; [|split]].
  - intros Hfs. by rewrite Hfs in Hout.
  - intros text Hfs Hbad. rewrite Hfs in Hout.
    destruct Hbad as [Hparse|(rows & Hparse & Hno)]; rewrite Hparse in Hout;
      [done|].
    destruct Hout as [[_ Hr]|[(c & Hu & _)|(c & _ & _ & Hu)]]; [done| |];
      destruct Hno; by exists c.
  - intros rows c. apply readucr_narrow_run.
  - intros e h' Hrun.
    destruct (fs !! name) as [text|] eqn:Hfs.
    2:{ left. rewrite Hout in Hrun. by injection Hrun as <- <-. }
    destruct (parse_rows "009" text) as [rows|] eqn:Hparse.
    2:{ right. left. rewrite Hout in Hrun. injection Hrun as <- <-.
        split; [done|]. split; [done|]. exists text. split; [done|]. by left. }
    destruct Hout as [[Hno Hr]|[(c & Hu & Hn & Hr)|[c Ht]]].
    + right. left. rewrite Hr in Hrun. injection Hrun as <- <-.
      split; [done|]. split; [done|]. exists text. split; [done|]. right. eauto.
    + right. right. rewrite Hr in Hrun. injection Hrun as <- <-.
      split; [done|]. exists rows, c. split; [by exists text|done].
    + by rewrite (readucr_run fs name text rows c h Hfs Hparse Ht) in Hrun.
Qed.

(** ** The loader: what it leaves in the globals *)

Lemma filter_ints z (ds : list Z) :
  List.filter (λ u, negb (scalar_eqb (SInt z) u)) (SInt <$> ds)
  = SInt <$> List.filter (λ y, negb (z =? y)%Z) ds.
Proof.
  induction ds as [|d ds IH]; [done|].
  rewrite fmap_cons. cbn [List.filter].
  change (scalar_eqb (SInt z) (SInt d)) with (z =? d)%Z.
  destruct (z =? d)%Z; cbn [negb]; by rewrite IH.
Qed.

(** [np.unique] on integers keeps one copy of every value. *)
Lemma distinct_ints (zs : list Z) :
  ∃ ds, distinct (SInt <$> zs) = SInt <$> ds ∧ NoDup ds ∧ ∀ z, z ∈ ds ↔ z ∈ zs.
Proof.
  induction zs as [|z zs (ds & Hds & Hnd & Hin)].
  { exists []. split; [done|]. split; [constructor|done]. }
  exists (z :: List.filter (λ y, negb (z =? y)%Z) ds).
  rewrite fmap_cons. cbn [distinct]. rewrite Hds, filter_ints.
  split; [done|]. split.
  - apply NoDup_cons. split.
    + rewrite list_elem_of_In, filter_In, Z.eqb_refl. by intros [_ ?].
    + apply NoDup_ListNoDup, List.NoDup_filter. by apply NoDup_ListNoDup.
  - intros x. rewrite !elem_of_cons, list_elem_of_In, filter_In,
      <- list_elem_of_In, Hin.
    destruct (Z.eqb_spec z x) as [->|Hne]; simpl; [tauto|].
    split; [tauto|]. intros [->|?]; [done|tauto].
Qed.

Lemma distinct_labels_count rows :
  length (distinct (label_column rows))
  = stdpp.base.size (list_to_set (C:=gset Z) (labels_of rows)).
Proof.
  unfold label_column.
  destruct (distinct_ints (labels_of rows)) as (ds & -> & Hnd & Hin).
  rewrite length_fmap, <- (size_list_to_set (C:=gset Z) ds) by done.
  f_equal. apply set_eq. intros z. by rewrite !elem_of_list_to_set.
Qed.

(** The loader on two tables, with the rows and labels the shuffle
    picks. *)
Lemma loader_total fs draw (h : heap) tr c te c' :
  served fs train_url tr → is_table tr c →
  served fs test_url te → is_table te c' →
  Permutation (draw (length tr)) (seq 0 (length tr)) →
  ∃ g h' xs' zs,
    loader fs draw h = (Py.Ok g, h')
    ∧ mapM (λ i, feature_rows tr !! i) (draw (length tr)) = Some xs'
    ∧ mapM (λ i, labels_of tr !! i) (draw (length tr)) = Some zs
    ∧ shape (x_train g) = [length tr; c - 1; 1]
    ∧ shape (x_test g) = [length te; c' - 1; 1]
    ∧ n_classes g = length (distinct (label_column tr))
    ∧ elements_in h' (idx g) = Some (SInt ∘ Z.of_nat <$> draw (length tr))
    ∧ rows_in h' (x_train g) = Some xs'
    ∧ elements_in h' (y_train g)
      = Some (SInt ∘ (λ z, if (z =? -1)%Z then 0%Z else z) <$> zs)
    ∧ rows_in h' (x_test g) = Some (feature_rows te)
    ∧ elements_in h' (y_test g)
      = Some (SInt ∘ (λ z, if (z =? -1)%Z then 0%Z else z) <$> labels_of te).
Proof.
  intros Hs Ht Hs' Ht' Hperm.
  destruct (permutation_bounds _ _ Hperm) as [Hlen Hlt].
  destruct (mapM_lookup_Some (labels_of tr) (draw (length tr))) as [zs Hzs].
  { pose proof (length_label_column tr c Ht) as Hl.
    unfold label_column in Hl. rewrite length_fmap in Hl. by rewrite Hl. }
  destruct (mapM_lookup_Some (feature_rows tr) (draw (length tr))) as [xs' Hxs'].
  { unfold feature_rows. by rewrite !length_fmap. }
  destruct (loader_run fs draw h tr c te c' xs' (SInt <$> zs)
              Hs Ht Hs' Ht' Hlen Hxs' (pick_fmap SInt _ _ _ Hzs))
    as (g & h' & Hrun & Hsx & Hsxt & _ & _ & Hn & Hidx & Hx & Hytr & Hxt & Hyte).
  exists g, h', xs', zs.
  unfold label_column in Hyte. rewrite replaced_labels in Hytr, Hyte.
  repeat split; done.
Qed.

(** [n_classes] is the number of distinct labels of the training file,
    whatever the shuffle draws and whatever the test file holds: it is
    computed before the labels are remapped. *)
Theorem n_classes_counts_training_labels fs draw (h : heap) tr c te c' :
  served fs train_url tr → is_table tr c →
  served fs test_url te → is_table te c' →
  Permutation (draw (length tr)) (seq 0 (length tr)) →
  ∃ g h', loader fs draw h = (Py.Ok g, h')
          ∧ n_classes g
            = stdpp.base.size (list_to_set (C:=gset Z) (labels_of tr)).
Proof.
  intros Hs Ht Hs' Ht' Hperm.
  destruct (loader_total fs draw h tr c te c' Hs Ht Hs' Ht' Hperm)
    as (g & h' & _ & _ & Hrun & _ & _ & _ & _ & Hn & _).
  exists g, h'. split; [done|]. by rewrite Hn, distinct_labels_count.
Qed.

(** When the labels of both files are -1 or 1 and the training file has
    both, [n_classes] is 2 and every label of [y_train] and [y_test] is a
    class index below [n_classes], as the softmax output of the model and
    the sparse categorical loss need. *)
Theorem remapped_labels_below_n_classes fs draw (h : heap) tr c te c' :
  served fs train_url tr → is_table tr c →
  served fs test_url te → is_table te c' →
  Permutation (draw (length tr)) (seq 0 (length tr)) →
  Forall (λ z, z = (-1)%Z ∨ z = 1%Z) (labels_of tr ++ labels_of te) →
  (-1)%Z ∈ labels_of tr → 1%Z ∈ labels_of tr →
  ∃ g h' ys yt,
    loader fs draw h = (Py.Ok g, h')
    ∧ n_classes g = 2
    ∧ elements_in h' (y_train g) = Some (SInt <$> ys)
    ∧ elements_in h' (y_test g) = Some (SInt <$> yt)
    ∧ Forall (λ z, 0 ≤ z < Z.of_nat (n_classes g))%Z (ys ++ yt).
Proof.
  intros Hs Ht Hs' Ht' Hperm Hin Hneg Hpos.
  destruct (loader_total fs draw h tr c te c' Hs Ht Hs' Ht' Hperm)
    as (g & h' & xs' & zs & Hrun & _ & Hzs & _ & _ & Hn & _ & _ & Hytr & _ & Hyte).
  apply Forall_app in Hin as [Htr Hte].
  assert (n_classes g = 2) as Hn2.
  { rewrite Hn, distinct_labels_count.
    assert (list_to_set (C:=gset Z) (labels_of tr) = {[(-1)%Z; 1%Z]}) as ->.
    { apply set_eq. intros z. rewrite elem_of_list_to_set, elem_of_union,
        !elem_of_singleton. split.
      - intros Hz. rewrite Forall_forall in Htr. by apply Htr.
      - by intros [->| ->]. }
    rewrite size_union by set_solver. by rewrite !size_singleton. }
  exists g, h', ((λ z, if (z =? -1)%Z then 0%Z else z) <$> zs),
    ((λ z, if (z =? -1)%Z then 0%Z else z) <$> labels_of te).
  rewrite <- !list_fmap_compose. split; [done|]. split; [done|].
  split; [done|]. split; [done|]. rewrite Hn2.
  assert (Forall (λ z, z = (-1)%Z ∨ z = 1%Z) zs) as Hzs'
    by (by eapply Forall_pick).
  apply Forall_app. split; apply Forall_fmap.
  - eapply Forall_impl; [exact Hzs'|]. intros z [-> | ->]; simpl; lia.
  - eapply Forall_impl; [exact Hte|]. intros z [-> | ->]; simpl; lia.
Qed.

Lemma pick_lookup {A} (l : list A) (ixs : list nat) p k i :
  mapM (λ i, l !! i) ixs = Some p → ixs !! k = Some i → p !! k = l !! i.
Proof.
  rewrite mapM_Some. intros Hp Hk.
  destruct (Forall2_lookup_l _ _ _ _ _ Hp Hk) as (x & Hx & Hl).
  simpl in Hl. by rewrite Hx, Hl.
Qed.

(** After the loader, sample [k] of [x_train] and label [k] of [y_train]
    come from the same line of the training file, the line [idx[k]]; the
    training set is the file's set of (sample, label) pairs rearranged,
    and the test set is in the order of its file. *)
Theorem loader_keeps_rows_with_labels fs draw (h : heap) tr c te c' :
  served fs train_url tr → is_table tr c →
  served fs test_url te → is_table te c' →
  Permutation (draw (length tr)) (seq 0 (length tr)) →
  ∃ g h' xs zs,
    loader fs draw h = (Py.Ok g, h')
    ∧ elements_in h' (idx g) = Some (SInt ∘ Z.of_nat <$> draw (length tr))
    ∧ rows_in h' (x_train g) = Some xs
    ∧ elements_in h' (y_train g)
      = Some (SInt ∘ (λ z, if (z =? -1)%Z then 0%Z else z) <$> zs)
    ∧ (∀ k i, draw (length tr) !! k = Some i →
              xs !! k = feature_rows tr !! i ∧ zs !! k = labels_of tr !! i)
    ∧ Permutation (zip xs zs) (zip (feature_rows tr) (labels_of tr))
    ∧ rows_in h' (x_test g) = Some (feature_rows te)
    ∧ elements_in h' (y_test g)
      = Some (SInt ∘ (λ z, if (z =? -1)%Z then 0%Z else z) <$> labels_of te).
Proof.
  intros Hs Ht Hs' Ht' Hperm.
  destruct (loader_total fs draw h tr c te c' Hs Ht Hs' Ht' Hperm)
    as (g & h' & xs & zs & Hrun & Hxs & Hzs & _ & _ & _ & Hidx & Hx & Hytr & Hxt & Hyte).
  exists g, h', xs, zs. repeat split; try done.
  - by eapply pick_lookup.
  - by eapply pick_lookup.
  - apply (pick_permutation _ (draw (length tr))); [|by apply pick_zip].
    pose proof (length_label_column tr c Ht) as Hl.
    unfold label_column in Hl. rewrite length_fmap in Hl.
    rewrite length_zip_with, Hl. unfold feature_rows.
    by rewrite !length_fmap, Nat.min_id.
Qed.

(** The loader returns exactly when both URLs serve a table; the two
    tables need not have the same number of columns. *)
Theorem loader_returns_iff_tables fs draw (h : heap) :
  (∀ n, Permutation (draw n) (seq 0 n)) →
  (∃ g h', loader fs draw h = (Py.Ok g, h'))
  ↔ (∃ tr c te c', served fs train_url tr ∧ is_table tr c
                   ∧ served fs test_url te ∧ is_table te c').
Proof.
  intros Hperm. split.
  - intros (g & h' & Hrun). unfold loader in Hrun.
    apply bind_inv in Hrun as (loaded & h1 & Hload & _).
    unfold load_data in Hload.
    apply bind_inv in Hload as (train & h2 & Htrain & Hload).
    apply bind_inv in Hload as (test & h3 & Htest & _).
    apply readucr_ok_table in Htrain as (tr & c & Hs & Ht).
    apply readucr_ok_table in Htest as (te & c' & Hs' & Ht').
    by exists tr, c, te, c'.
  - intros (tr & c & te & c' & Hs & Ht & Hs' & Ht').
    destruct (loader_total fs draw h tr c te c' Hs Ht Hs' Ht' (Hperm _))
      as (g & h' & _ & _ & Hrun & _).
    by exists g, h'.
Qed.

(** ** The statements of the loader, one by one *)

Lemma replaced_twice v :
  replaced DInt (-1) 0 (replaced (F:=F) DInt (-1) 0 v) = replaced DInt (-1) 0 v.
Proof.
  unfold replaced. destruct (scalar_eq_int v (-1)) eqn:Hv; [done|]. by rewrite Hv.
Qed.

Lemma replaced_not_minus_one v :
  scalar_eq_int (replaced (F:=F) DInt (-1) 0 v) (-1) = false.
Proof. unfold replaced. by destruct (scalar_eq_int v (-1)) eqn:Hv. Qed.

(** [y[y == -1] = 0] on an integer array leaves no -1 in it, keeps its
    length, writes to no other buffer, and has no further effect on the
    array when it is run again (as when the notebook cell is re-run on
    the same array). *)
Theorem remap_labels_idempotent (h : heap) y l :
  well_formed y → dt y = DInt → elements_in h y = Some l →
  ∃ h1 h2 l1,
    remap_labels y h = (Py.Ok tt, h1)
    ∧ elements_in h1 y = Some l1
    ∧ length l1 = length l
    ∧ Forall (λ v, scalar_eq_int v (-1) = false) l1
    ∧ remap_labels y h1 = (Py.Ok tt, h2)
    ∧ elements_in h2 y = Some l1
    ∧ (∀ a la, base a ≠ base y → elements_in h a = Some la →
               elements_in h1 a = Some la ∧ elements_in h2 a = Some la).
Proof.
  intros Hwf Hdt Hl.
  destruct (remap_run h y l Hwf Hl) as (b1 & m1 & Hrun1 & Hread1).
  destruct (remap_run _ y _ Hwf Hread1) as (b2 & m2 & Hrun2 & Hread2).
  rewrite Hdt in *.
  eexists _, _, _. split; [exact Hrun1|]. split; [exact Hread1|].
  split; [by rewrite length_fmap|]. split.
  { apply Forall_fmap, Forall_forall. intros v _. apply replaced_not_minus_one. }
  split; [exact Hrun2|]. split.
  { rewrite Hread2. f_equal. rewrite <- list_fmap_compose.
    apply list_fmap_ext. intros _ v _. apply replaced_twice. }
  intros a la Hne Ha.
  assert (elements_in (<[base y:=b1]> (h ++ [m1])) a = Some la) as Ha1.
  { rewrite elements_in_insert_ne by done. by apply elements_in_app. }
  split; [done|].
  rewrite elements_in_insert_ne by done. by apply elements_in_app.
Qed.

(** [x.reshape((x.shape[0], x.shape[1], 1))] raises IndexError on an
    array with fewer than two axes ([x.shape[1]] does not exist) and
    ValueError when the axes after the second hold more than one element
    per sample; the heap is as before. *)
Theorem add_feature_axis_rejects (h : heap) x :
  (length (shape x) < 2 → add_feature_axis x h = (Py.Raise Py.IndexError, h))
  ∧ (∀ a b rest, shape x = a :: b :: rest → a * b * size rest ≠ a * b →
       add_feature_axis x h = (Py.Raise Py.ValueError, h)).
Proof.
  split.
  - intros Hlen. unfold add_feature_axis, Py.tuple_get.
    destruct (shape x) as [|a [|b rest]]; [done|done|simpl in Hlen; lia].
  - intros a b rest Hshp Hne. unfold add_feature_axis, Py.tuple_get.
    rewrite Hshp. cbn [lookup list_lookup]. rewrite !ret_bind_run.
    unfold reshape. rewrite Hshp.
    replace (size [a; b; 1] =? size (a :: b :: rest)) with false; [done|].
    symmetry. apply Nat.eqb_neq. simpl. fold (size rest). lia.
Qed.

End loader_edges.

(** ** The loader on small files, again *)

Section loader_edge_runs.
Import Numpy Timeseries Decimal.

Lemma one_column_served :
  served (F:=decimal) one_column_fs "labels.tsv" [[1]; [-1]]%Q.
Proof. exists one_column_text. split; vm_compute; reflexivity. Defined.

Lemma sample_labels_both :
  (-1)%Z ∈ labels_of (F:=decimal) train_rows
  ∧ 1%Z ∈ labels_of (F:=decimal) train_rows.
Proof. vm_compute. split; [|apply list_elem_of_further]; apply list_elem_of_here. Defined.

Lemma readucr_narrow_table_raises_witness :
  readucr (F:=decimal) one_column_fs "labels.tsv" []
  = (Py.Raise Py.IndexError, [] ++ [SFloat <$> concat [[1]; [-1]]%Q]).
Proof.
  apply (readucr_narrow_table_raises (F:=decimal) one_column_fs "labels.tsv"
           [[1]; [-1]]%Q 1 []).
  - exact one_column_served.
  - repeat constructor.
  - right. lia.
Defined.

Lemma readucr_returns_iff_table_witness :
  ∃ res h', readucr (F:=decimal) mac_fs "mac.tsv" [] = (Py.Ok res, h').
Proof.
  apply (proj2 (readucr_returns_iff_table (F:=decimal) mac_fs "mac.tsv" [])).
  exists [[1; 2]; [-1; 3]]%Q, 2. split.
  - exists mac_text. split; vm_compute; reflexivity.
  - split; [simpl; lia|]. split; [lia|repeat constructor].
Defined.

Lemma readucr_failure_cause_witness :
  readucr (F:=decimal) ∅ "missing.tsv" [] = (Py.Raise Py.OSError, [])
  ∧ readucr (F:=decimal) ragged_fs "ragged.tsv" [] = (Py.Raise Py.ValueError, [])
  ∧ readucr (F:=decimal) one_column_fs "labels.tsv" []
    = (Py.Raise Py.IndexError, [] ++ [SFloat <$> concat [[1]; [-1]]%Q]).
Proof.
  destruct (readucr_failure_cause (F:=decimal) ∅ "missing.tsv" [])
    as (Hmissing & _).
  destruct (readucr_failure_cause (F:=decimal) ragged_fs "ragged.tsv" [])
    as (_ & Hragged & _).
  destruct (readucr_failure_cause (F:=decimal) one_column_fs "labels.tsv" [])
    as (_ & _ & Hnarrow & _).
  split; [|split].
  - apply Hmissing. reflexivity.
  - apply (Hragged ragged_text); [reflexivity|]. right.
    exists [[1; 2]; [3]]%Q. split; [vm_compute; reflexivity|].
    intros [c Hc]. inversion Hc as [|?? H1 Hc']. inversion Hc' as [|?? H2 _].
    simpl in H1, H2. lia.
  - apply (Hnarrow [[1]; [-1]]%Q 1).
    + exact one_column_served.
    + repeat constructor.
    + right. lia.
Defined.

Lemma n_classes_counts_training_labels_witness :
  ∃ g h', loader (F:=decimal) sample_fs sample_draw [] = (Py.Ok g, h')
          ∧ n_classes g
            = stdpp.base.size
                (list_to_set (C:=gset Z) (labels_of (F:=decimal) train_rows)).
Proof.
  exact (n_classes_counts_training_labels (F:=decimal) sample_fs sample_draw []
           train_rows 3 test_rows 3 sample_train_served sample_train_table
           sample_test_served sample_test_table (sample_draw_permutation 3)).
Defined.

Lemma remapped_labels_below_n_classes_witness :
  ∃ g h' ys yt,
    loader (F:=decimal) sample_fs sample_draw [] = (Py.Ok g, h')
    ∧ n_classes g = 2
    ∧ elements_in h' (y_train g) = Some (SInt <$> ys)
    ∧ elements_in h' (y_test g) = Some (SInt <$> yt)
    ∧ Forall (λ z, 0 ≤ z < Z.of_nat (n_classes g))%Z (ys ++ yt).
Proof.
  exact (remapped_labels_below_n_classes (F:=decimal) sample_fs sample_draw []
           train_rows 3 test_rows 3 sample_train_served sample_train_table
           sample_test_served sample_test_table (sample_draw_permutation 3)
           sample_labels_in_range (proj1 sample_labels_both)
           (proj2 sample_labels_both)).
Defined.

Lemma loader_keeps_rows_with_labels_witness :
  ∃ g h' xs zs,
    loader (F:=decimal) sample_fs sample_draw [] = (Py.Ok g, h')
    ∧ elements_in h' (idx g) = Some (SInt ∘ Z.of_nat <$> sample_draw 3)
    ∧ rows_in h' (x_train g) = Some xs
    ∧ elements_in h' (y_train g)
      = Some (SInt ∘ (λ z, if (z =? -1)%Z then 0%Z else z) <$> zs)
    ∧ (∀ k i, sample_draw 3 !! k = Some i →
              xs !! k = feature_rows (F:=decimal) train_rows !! i
              ∧ zs !! k = labels_of (F:=decimal) train_rows !! i)
    ∧ Permutation (zip xs zs)
        (zip (feature_rows (F:=decimal) train_rows)
             (labels_of (F:=decimal) train_rows))
    ∧ rows_in h' (x_test g) = Some (feature_rows (F:=decimal) test_rows)
    ∧ elements_in h' (y_test g)
      = Some (SInt ∘ (λ z, if (z =? -1)%Z then 0%Z else z)
                <$> labels_of (F:=decimal) test_rows).
Proof.
  exact (loader_keeps_rows_with_labels (F:=decimal) sample_fs sample_draw []
           train_rows 3 test_rows 3 sample_train_served sample_train_table
           sample_test_served sample_test_table (sample_draw_permutation 3)).
Defined.

Lemma loader_returns_iff_tables_witness :
  (∃ g h', loader (F:=decimal) sample_fs sample_draw [] = (Py.Ok g, h'))
  ↔ (∃ tr c te c', served (F:=decimal) sample_fs train_url tr ∧ is_table tr c
                   ∧ served (F:=decimal) sample_fs test_url te ∧ is_table te c').
Proof.
  exact (loader_returns_iff_tables (F:=decimal) sample_fs sample_draw []
           sample_draw_permutation).
Defined.

Lemma remap_labels_idempotent_witness :
  ∃ h1 h2 l1,
    remap_labels (F:=decimal) (loaded_y 0 3) loaded_heap = (Py.Ok tt, h1)
    ∧ elements_in h1 (loaded_y 0 3) = Some l1
    ∧ length l1 = length [SInt (T:=Q) (-1); SInt 1; SInt (-1)]
    ∧ Forall (λ v, scalar_eq_int (F:=decimal) v (-1) = false) l1
    ∧ remap_labels (F:=decimal) (loaded_y 0 3) h1 = (Py.Ok tt, h2)
    ∧ elements_in h2 (loaded_y 0 3) = Some l1
    ∧ (∀ a la, base a ≠ base (loaded_y 0 3) →
               elements_in loaded_heap a = Some la →
               elements_in h1 a = Some la ∧ elements_in h2 a = Some la).
Proof.
  apply (remap_labels_idempotent (F:=decimal) loaded_heap (loaded_y 0 3)
           [SInt (-1); SInt 1; SInt (-1)]).
  - apply loaded_y_well_formed.
  - reflexivity.
  - vm_compute. reflexivity.
Defined.

Lemma add_feature_axis_rejects_witness :
  add_feature_axis (F:=decimal) (loaded_y 0 3) loaded_heap
  = (Py.Raise Py.IndexError, loaded_heap)
  ∧ add_feature_axis (F:=decimal)
      {| base := 0; offset := 0; shape := [3; 1; 3]; strides := [3; 3; 1];
         dt := DFloat |} loaded_heap
    = (Py.Raise Py.ValueError, loaded_heap).
Proof.
  split.
  - apply (proj1 (add_feature_axis_rejects (F:=decimal) loaded_heap (loaded_y 0 3))).
    simpl. lia.
  - apply (proj2 (add_feature_axis_rejects (F:=decimal) loaded_heap
                    {| base := 0; offset := 0; shape := [3; 1; 3];
                       strides := [3; 3; 1]; dt := DFloat |}) 3 1 [3]).
    + reflexivity.
    + simpl. lia.
Defined.

End loader_edge_runs.

(** ** The model builder: shapes, wiring *)

Section builder_shapes.
Import Keras.
Variable infer : layer → list tshape → Py.result tshape.
Variable n_classes : nat.

Lemma call_run l ins (g : graph) shp :
  infer l (shape_of <$> ins) = Py.Ok shp →
  call infer l ins g
  = (Py.Ok {| tid := length g; shape_of := shp |},
     g ++ [{| n_layer := l; n_inputs := tid <$> ins |}]).
Proof. unfold call. by intros ->. Qed.

(** Runs the next layer call of a builder, the framework accepting it by
    [Hk]; [Hx] is the shape of the builder's argument. *)
Ltac layer_ok Hk Hx :=
  erewrite bind_run;
  [|apply call_run; cbn [fmap list_fmap shape_of]; rewrite ?Hx; by apply Hk].

(** One block on a tensor of shape (batch, steps, channels): the second
    convolution restores the channels, so both residual sums are of equal
    shapes and the block returns a tensor of the shape of its input. *)
Lemma transformer_encoder_run x hs nh ff dr b t c (g : graph) :
  keras_shapes infer → shape_of x = [b; Some t; Some c] →
  (0 < hs)%Z → (0 < nh)%Z → (0 < ff)%Z → (0 <= dr)%Q → (dr < 1)%Q → (0 < c)%Z →
  transformer_encoder infer x hs nh ff dr g
  = (Py.Ok {| tid := length g + 8; shape_of := [b; Some t; Some c] |},
     g ++ encoder_nodes hs nh ff dr (tid x) (length g) (Some c)).
Proof.
  intros Hk Hx Hhs Hnh Hff Hdr0 Hdr1 Hc. unfold transformer_encoder.
  do 7 layer_ok Hk Hx.
  unfold shape_last. rewrite Hx. cbn [last]. rewrite ret_bind_run.
  layer_ok Hk Hx.
  erewrite call_run; cycle 1.
  { cbn [fmap list_fmap shape_of]. by apply Hk. }
  rewrite <- !app_assoc, !length_app. cbn [length app fmap list_fmap tid].
  unfold encoder_nodes. repeat f_equal; lia.
Qed.

Lemma encoder_stack_run n hs nh ff dr b t c : ∀ x (g : graph),
  keras_shapes infer → shape_of x = [b; Some t; Some c] →
  (0 < hs)%Z → (0 < nh)%Z → (0 < ff)%Z → (0 <= dr)%Q → (dr < 1)%Q → (0 < c)%Z →
  ∃ y, encoder_stack infer n x hs nh ff dr g
       = (Py.Ok y,
          g ++ stack_nodes hs nh ff dr (tid x) (length g) (replicate n (Some c)))
       ∧ shape_of y = [b; Some t; Some c]
       ∧ tid y = match n with 0 => tid x | _ => length g + 9 * n - 1 end.
Proof.
  induction n as [|n IH]; intros x g Hk Hx Hhs Hnh Hff Hdr0 Hdr1 Hc.
  { exists x. cbn [encoder_stack replicate stack_nodes]. by rewrite app_nil_r. }
  cbn [encoder_stack].
  rewrite (bind_run _ _ _ _ _
    (transformer_encoder_run x hs nh ff dr b t c g Hk Hx Hhs Hnh Hff Hdr0 Hdr1 Hc)).
  destruct (IH {| tid := length g + 8; shape_of := [b; Some t; Some c] |}
              (g ++ encoder_nodes hs nh ff dr (tid x) (length g) (Some c))
              Hk eq_refl Hhs Hnh Hff Hdr0 Hdr1 Hc) as (y & Hrun & Hy & Hty).
  exists y. rewrite Hrun. split; [|split; [done|]].
  - rewrite <- app_assoc, length_app. cbn [replicate stack_nodes tid encoder_nodes length].
    reflexivity.
  - rewrite Hty, length_app. cbn [tid encoder_nodes length]. destruct n; lia.
Qed.

Lemma mlp_pairs_run ds mdr b : ∀ c x (g : graph),
  keras_shapes infer → shape_of x = [b; Some c] →
  Forall (λ d, 0 < d)%Z ds → (0 <= mdr)%Q → (mdr < 1)%Q →
  ∃ y g' c', mlp_pairs infer ds mdr x g = (Py.Ok y, g')
             ∧ shape_of y = [b; Some c'].
Proof.
  induction ds as [|d ds IH]; intros c x g Hk Hx Hds Hm0 Hm1.
  { by exists x, g, c. }
  inversion_clear Hds as [|?? Hd Hrest]. cbn [mlp_pairs].
  do 2 layer_ok Hk Hx. by eapply IH.
Qed.

(** *** The graph a successful run leaves *)

Ltac take H :=
  let a := fresh "t" in
  let g1 := fresh "g" in
  let Hc := fresh "Hc" in
  apply bind_inv in H as (a & g1 & Hc & H);
  first [ apply call_inv in Hc as [? ->] | idtac ].

Lemma length_head_layers ds mdr :
  length (head_layers n_classes ds mdr) = 2 * length ds + 2.
Proof.
  unfold head_layers. cbn [length]. rewrite length_app. cbn [length].
  assert (length (flat_map (λ d, [Dense d (Some "relu"); Dropout mdr]) ds)
          = 2 * length ds) as ->; [|lia].
  induction ds as [|d ds IH]; [done|]. simpl. lia.
Qed.

Lemma stack_then_head_nodes input_shape hs nh ff blocks ds dr mdr (g : graph) m g' :
  stack_then_head infer n_classes input_shape hs nh ff blocks ds dr mdr g
  = (Py.Ok m, g') →
  ∃ fs, length fs = blocks
        ∧ g' = g ++ {| n_layer := InputLayer input_shape; n_inputs := [] |}
                  :: stack_nodes hs nh ff dr (length g) (S (length g)) fs
                  ++ chain_nodes (length g + 9 * length fs)
                       (S (length g + 9 * length fs))
                       (head_layers n_classes ds mdr)
        ∧ tid (m_inputs m) = length g
        ∧ tid (m_outputs m) = length g + 9 * blocks + 2 * length ds + 2.
Proof.
  unfold stack_then_head. intros H. take H. rename H0 into Hin.
  apply bind_inv in H as (x & g2 & Hstack & H).
  apply (encoder_stack_nodes infer) in Hstack as (fs & Hlen & -> & Hx).
  apply bind_inv in H as (out & g3 & Hhead & H).
  apply (classification_head_nodes infer) in Hhead as [-> Hout].
  injection H as <- <-. exists fs.
  rewrite ?length_app, ?length_stack_nodes in *. cbn [length] in *.
  assert (tid x = length g + 9 * length fs) as Hx'.
  { rewrite Hx, Hin. destruct blocks; simpl in *; lia. }
  rewrite Hx' in *. clear Hx.
  split; [done|]. split; [|split; [done|]].
  - rewrite Hin, <- !app_assoc. unfold head_layers. cbn [app chain_nodes].
    replace (length g + 1) with (S (length g)) by lia.
    replace (S (length g) + 9 * length fs) with (S (length g + 9 * length fs))
      by lia.
    done.
  - cbn [m_outputs]. rewrite Hout. lia.
Qed.

(** *** Wiring *)

Lemma encoder_nodes_wired hs nh ff dr lo i f j nd :
  lo ≤ i → encoder_nodes hs nh ff dr i (S i) f !! j = Some nd →
  i + j ∈ n_inputs nd ∧ Forall (λ a, lo ≤ a ≤ i + j) (n_inputs nd).
Proof.
  intros Hi Hj. unfold encoder_nodes in Hj.
  do 9 (destruct j as [|j];
        [injection Hj as <-; cbn [n_inputs]; split;
         [apply list_elem_of_In; simpl; lia|repeat constructor; lia]|]).
  done.
Qed.

Lemma stack_nodes_wired hs nh ff dr lo fs : ∀ i j nd,
  lo ≤ i → stack_nodes hs nh ff dr i (S i) fs !! j = Some nd →
  i + j ∈ n_inputs nd ∧ Forall (λ a, lo ≤ a ≤ i + j) (n_inputs nd).
Proof.
  induction fs as [|f fs IH]; intros i j nd Hi Hj; [done|].
  cbn [stack_nodes] in Hj. apply lookup_app_Some in Hj as [Hj|[Hle Hj]].
  - by eapply encoder_nodes_wired.
  - replace (S i + 9) with (S (S i + 8)) in Hj by lia.
    apply IH in Hj; [|lia]. cbn [encoder_nodes length] in *.
    by replace (S i + 8 + (j - 9)) with (i + j) in Hj by lia.
Qed.

Lemma chain_nodes_wired lo ls : ∀ i j nd,
  lo ≤ i → chain_nodes i (S i) ls !! j = Some nd →
  i + j ∈ n_inputs nd ∧ Forall (λ a, lo ≤ a ≤ i + j) (n_inputs nd).
Proof.
  induction ls as [|l ls IH]; intros i j nd Hi Hj; [done|].
  cbn [chain_nodes] in Hj. destruct j as [|j].
  - injection Hj as <-. cbn [n_inputs]. rewrite Nat.add_0_r. split.
    + apply list_elem_of_here.
    + repeat constructor; lia.
  - apply IH in Hj; [|lia].
    by replace (S i + j) with (i + S j) in Hj by lia.
Qed.

Lemma last_head_nodes i ds mdr :
  last (chain_nodes i (S i) (head_layers n_classes ds mdr))
  = Some {| n_layer := Dense (Z.of_nat n_classes) (Some "softmax");
            n_inputs := [i + 2 * length ds + 1] |}.
Proof.
  unfold head_layers.
  rewrite app_comm_cons, chain_nodes_app. cbn [chain_nodes].
  rewrite last_snoc. do 3 f_equal. cbn [length].
  assert (length (flat_map (λ d, [Dense d (Some "relu"); Dropout mdr]) ds)
          = 2 * length ds) as ->; [|lia].
  clear. induction ds as [|d ds IH]; [done|]. simpl. lia.
Qed.

(** The graph of the model [build_model] returns.  The nodes it has
    added start with the input layer, which is the model's input; every
    later node reads the output of the node added just before it, and
    nothing older than the input (the residual sums read one more such
    output); the last node is the softmax layer of [n_classes] units, and
    it is the model's output. *)
Theorem build_model_wiring input_shape hs nh ff N ds dr mdr (g : graph) m g' :
  build_model infer n_classes input_shape hs nh ff N ds dr mdr g = (Py.Ok m, g') →
  ∃ added,
    g' = g ++ added
    ∧ added !! 0 = Some {| n_layer := InputLayer input_shape; n_inputs := [] |}
    ∧ tid (m_inputs m) = length g
    ∧ (∀ j nd, added !! S j = Some nd →
         length g + j ∈ n_inputs nd
         ∧ Forall (λ a, length g ≤ a ≤ length g + j) (n_inputs nd))
    ∧ last added = Some {| n_layer := Dense (Z.of_nat n_classes) (Some "softmax");
                           n_inputs := [length g' - 2] |}
    ∧ tid (m_outputs m) = length g' - 1.
Proof.
  rewrite build_model_as_stack. intros H.
  apply stack_then_head_nodes in H as (fs & Hlen & -> & Hin & Hout).
  eexists. split; [reflexivity|]. split; [reflexivity|]. split; [done|].
  assert (length (g ++ {| n_layer := InputLayer input_shape; n_inputs := [] |}
                    :: stack_nodes hs nh ff dr (length g) (S (length g)) fs
                    ++ chain_nodes (length g + 9 * length fs)
                         (S (length g + 9 * length fs))
                         (head_layers n_classes ds mdr))
          = length g + 9 * length fs + 2 * length ds + 3) as Hg'.
  { rewrite length_app. cbn [length].
    rewrite length_app, length_stack_nodes, length_chain_nodes, length_head_layers.
    lia. }
  split; [|split].
  - intros j nd Hj. cbn [lookup list_lookup] in Hj.
    apply lookup_app_Some in Hj as [Hj|[Hle Hj]].
    + by apply (stack_nodes_wired _ _ _ _ (length g)) in Hj.
    + rewrite length_stack_nodes in *.
      apply (chain_nodes_wired (length g)) in Hj; [|lia].
      by replace (length g + 9 * length fs + (j - 9 * length fs))
        with (length g + j) in Hj by lia.
  - rewrite Hg'. rewrite last_cons, last_app, last_head_nodes.
    do 3 f_equal. lia.
  - rewrite Hg', Hout, Hlen. lia.
Qed.

(** With [num_transformer_blocks <= 0] the loop body never runs
    ([range] is empty): the model is the input followed directly by the
    pooling and the head. *)
Theorem build_model_without_blocks input_shape hs nh ff N ds dr mdr (g : graph) m g' :
  (N ≤ 0)%Z →
  build_model infer n_classes input_shape hs nh ff N ds dr mdr g = (Py.Ok m, g') →
  g' = g ++ {| n_layer := InputLayer input_shape; n_inputs := [] |}
         :: chain_nodes (length g) (S (length g)) (head_layers n_classes ds mdr)
  ∧ length g' = length g + 2 * length ds + 3.
Proof.
  intros HN H. rewrite build_model_as_stack in H.
  replace (Z.to_nat N) with 0 in H by lia.
  apply stack_then_head_nodes in H as (fs & Hlen & -> & _).
  apply length_zero_iff_nil in Hlen as ->. cbn [stack_nodes app length].
  rewrite Nat.mul_0_r, Nat.add_0_r. split; [done|].
  rewrite length_app. cbn [length]. rewrite length_chain_nodes, length_head_layers. lia.
Qed.

(** One encoder block returns a tensor of the shape of its input, which
    is why blocks can be stacked: the second convolution has as many
    filters as the input has channels, so that both residual sums add
    tensors of equal shape.  The block adds nine layers. *)
Theorem transformer_encoder_keeps_shape x hs nh ff dr b t c (g : graph) :
  keras_shapes infer → shape_of x = [b; Some t; Some c] →
  (0 < hs)%Z → (0 < nh)%Z → (0 < ff)%Z → (0 <= dr)%Q → (dr < 1)%Q → (0 < c)%Z →
  transformer_encoder infer x hs nh ff dr g
  = (Py.Ok {| tid := length g + 8; shape_of := shape_of x |},
     g ++ encoder_nodes hs nh ff dr (tid x) (length g) (Some c)).
Proof.
  intros Hk Hx. rewrite Hx. by apply transformer_encoder_run.
Qed.

Lemma classification_head_run ds mdr b t c x (g : graph) :
  keras_shapes infer → shape_of x = [b; Some t; Some c] →
  Forall (λ d, 0 < d)%Z ds → (0 <= mdr)%Q → (mdr < 1)%Q → 0 < n_classes →
  ∃ out, classification_head infer n_classes ds mdr x g
         = (Py.Ok out,
            g ++ chain_nodes (tid x) (length g) (head_layers n_classes ds mdr))
         ∧ shape_of out = [b; Some (Z.of_nat n_classes)]
         ∧ tid out = length g + 2 * length ds + 1.
Proof.
  intros Hk Hx Hds Hm0 Hm1 Hn.
  assert (∃ out g', classification_head infer n_classes ds mdr x g = (Py.Ok out, g')
                    ∧ shape_of out = [b; Some (Z.of_nat n_classes)])
    as (out & g' & Hrun & Hout).
  { unfold classification_head.
    erewrite bind_run; cycle 1.
    { apply call_run. cbn [fmap list_fmap]. rewrite Hx. apply Hk. }
    match goal with
    | |- ∃ out g', (mlp_pairs _ _ _ ?y ≫= _) ?g1 = _ ∧ _ =>
        destruct (mlp_pairs_run ds mdr b t y g1 Hk eq_refl Hds Hm0 Hm1)
          as (z & g2 & c' & Hp & Hz)
    end.
    rewrite (bind_run _ _ _ _ _ Hp). eexists _, _.
    split; [apply call_run; cbn [fmap list_fmap]; rewrite Hz; apply Hk; lia|].
    reflexivity. }
  exists out. pose proof Hrun as Hnodes.
  apply (classification_head_nodes infer) in Hnodes as [-> Ht]. done.
Qed.

Lemma build_model_total hs nh ff N ds dr mdr t c (g : graph) :
  keras_shapes infer →
  (0 < t)%Z → (0 < c)%Z → (0 < hs)%Z → (0 < nh)%Z → (0 < ff)%Z →
  (0 <= dr)%Q → (dr < 1)%Q → Forall (λ d, 0 < d)%Z ds →
  (0 <= mdr)%Q → (mdr < 1)%Q → 0 < n_classes →
  ∃ m,
    build_model infer n_classes [t; c] hs nh ff N ds dr mdr g
    = (Py.Ok m,
       g ++ {| n_layer := InputLayer [t; c]; n_inputs := [] |}
         :: stack_nodes hs nh ff dr (length g) (S (length g))
              (replicate (Z.to_nat N) (Some c))
         ++ chain_nodes (length g + 9 * Z.to_nat N) (S (length g + 9 * Z.to_nat N))
              (head_layers n_classes ds mdr))
    ∧ shape_of (m_inputs m) = [None; Some t; Some c]
    ∧ shape_of (m_outputs m) = [None; Some (Z.of_nat n_classes)].
Proof.
  intros Hk Ht Hc Hhs Hnh Hff Hdr0 Hdr1 Hds Hm0 Hm1 Hn.
  rewrite build_model_as_stack. unfold stack_then_head.
  erewrite bind_run; cycle 1.
  { apply call_run. cbn [fmap list_fmap]. apply Hk. by repeat constructor. }
  cbn [fmap list_fmap].
  match goal with
  | |- ∃ m, (encoder_stack _ _ ?x _ _ _ _ ≫= _) ?g1 = _ ∧ _ =>
      destruct (encoder_stack_run (Z.to_nat N) hs nh ff dr None t c x g1
                  Hk eq_refl Hhs Hnh Hff Hdr0 Hdr1 Hc) as (y & Hs & Hy & Hty)
  end.
  rewrite (bind_run _ _ _ _ _ Hs).
  match goal with
  | |- ∃ m, (classification_head _ _ _ _ _ ≫= _) ?g2 = _ ∧ _ =>
      destruct (classification_head_run ds mdr None t c y g2 Hk Hy Hds Hm0 Hm1 Hn)
        as (out & Hh & Hout & _)
  end.
  rewrite (bind_run _ _ _ _ _ Hh).
  exists {| m_inputs := {| tid := length g; shape_of := [None; Some t; Some c] |};
            m_outputs := out |}.
  split; [|done].
  unfold mret, Py.M_ret, Py.ret. f_equal.
  rewrite <- !app_assoc. cbn [app tid]. do 3 f_equal.
  { rewrite length_app. cbn [length]. f_equal; lia. }
  rewrite Hty, !length_app. cbn [length tid].
  rewrite length_stack_nodes, length_replicate.
  f_equal; destruct (Z.to_nat N); lia.
Qed.

(** For an input of shape (steps, channels) and valid hyperparameters
    [build_model] returns a model from (batch, steps, channels) to
    (batch, n_classes); every block projects back to the channels of the
    input, and the graph has [9 * blocks + 2 * len(mlp_units) + 3]
    layers. *)
Theorem build_model_output_shape hs nh ff N ds dr mdr t c (g : graph) :
  keras_shapes infer →
  (0 < t)%Z → (0 < c)%Z → (0 < hs)%Z → (0 < nh)%Z → (0 < ff)%Z →
  (0 <= dr)%Q → (dr < 1)%Q → Forall (λ d, 0 < d)%Z ds →
  (0 <= mdr)%Q → (mdr < 1)%Q → 0 < n_classes →
  ∃ m g',
    build_model infer n_classes [t; c] hs nh ff N ds dr mdr g = (Py.Ok m, g')
    ∧ shape_of (m_inputs m) = [None; Some t; Some c]
    ∧ shape_of (m_outputs m) = [None; Some (Z.of_nat n_classes)]
    ∧ g' = g ++ {| n_layer := InputLayer [t; c]; n_inputs := [] |}
             :: stack_nodes hs nh ff dr (length g) (S (length g))
                  (replicate (Z.to_nat N) (Some c))
             ++ chain_nodes (length g + 9 * Z.to_nat N)
                  (S (length g + 9 * Z.to_nat N))
                  (head_layers n_classes ds mdr)
    ∧ length g' = length g + 9 * Z.to_nat N + 2 * length ds + 3.
Proof.
  intros Hk Ht Hc Hhs Hnh Hff Hdr0 Hdr1 Hds Hm0 Hm1 Hn.
  destruct (build_model_total hs nh ff N ds dr mdr t c g
              Hk Ht Hc Hhs Hnh Hff Hdr0 Hdr1 Hds Hm0 Hm1 Hn)
    as (m & Hrun & Hin & Hout).
  eexists m, _. split; [exact Hrun|]. split; [done|]. split; [done|].
  split; [done|].
  rewrite length_app. cbn [length].
  rewrite length_app, length_stack_nodes, length_replicate, length_chain_nodes,
    length_head_layers.
  lia.
Qed.

End builder_shapes.

Lemma sample_infer_shapes : Keras.keras_shapes Keras.sample_infer.
Proof.
  split; intros; cbn [Keras.sample_infer]; try done.
  by rewrite bool_decide_eq_true_2.
Defined.

Lemma build_model_wiring_witness :
  ∃ m g',
    Keras.build_model Keras.sample_infer 2 [500; 1]%Z 256 4 4 4 [128]%Z
      0.25 0.4 [] = (Py.Ok m, g')
    ∧ ∃ added,
        g' = [] ++ added
        ∧ added !! 0 = Some {| Keras.n_layer := Keras.InputLayer [500; 1]%Z;
                               Keras.n_inputs := [] |}
        ∧ Keras.tid (Keras.m_inputs m) = length (@nil Keras.node)
        ∧ (∀ j nd, added !! S j = Some nd →
             length (@nil Keras.node) + j ∈ Keras.n_inputs nd
             ∧ Forall (λ a, length (@nil Keras.node) ≤ a
                            ≤ length (@nil Keras.node) + j)
                      (Keras.n_inputs nd))
        ∧ last added
          = Some {| Keras.n_layer := Keras.Dense (Z.of_nat 2) (Some "softmax");
                    Keras.n_inputs := [length g' - 2] |}
        ∧ Keras.tid (Keras.m_outputs m) = length g' - 1.
Proof.
  destruct (Keras.build_model Keras.sample_infer 2 [500; 1]%Z 256 4 4 4
              [128]%Z 0.25 0.4 []) as [[m|e] g'] eqn:Hrun;
    [|vm_compute in Hrun; discriminate].
  exists m, g'. split; [reflexivity|].
  exact (build_model_wiring Keras.sample_infer 2 [500; 1]%Z 256 4 4 4
           [128]%Z 0.25 0.4 [] m g' Hrun).
Defined.

Lemma build_model_without_blocks_witness :
  ∃ m g',
    Keras.build_model Keras.sample_infer 2 [500; 1]%Z 256 4 4 (-1) [128]%Z
      0.25 0.4 [] = (Py.Ok m, g')
    ∧ g' = [] ++ {| Keras.n_layer := Keras.InputLayer [500; 1]%Z;
                    Keras.n_inputs := [] |}
              :: Keras.chain_nodes (length (@nil Keras.node))
                   (S (length (@nil Keras.node)))
                   (Keras.head_layers 2 [128]%Z 0.4)
    ∧ length g' = length (@nil Keras.node) + 2 * length [128%Z] + 3.
Proof.
  destruct (Keras.build_model Keras.sample_infer 2 [500; 1]%Z 256 4 4 (-1)
              [128]%Z 0.25 0.4 []) as [[m|e] g'] eqn:Hrun;
    [|vm_compute in Hrun; discriminate].
  exists m, g'. split; [reflexivity|].
  apply (build_model_without_blocks Keras.sample_infer 2 [500; 1]%Z 256 4 4
           (-1) [128]%Z 0.25 0.4 [] m g'); [lia|exact Hrun].
Defined.

Lemma transformer_encoder_keeps_shape_witness :
  Keras.transformer_encoder Keras.sample_infer
    {| Keras.tid := 0; Keras.shape_of := [None; Some 500%Z; Some 1%Z] |}
    256 4 4 0.25
    [{| Keras.n_layer := Keras.InputLayer [500; 1]%Z; Keras.n_inputs := [] |}]
  = (Py.Ok {| Keras.tid := 1 + 8;
              Keras.shape_of := [None; Some 500%Z; Some 1%Z] |},
     [{| Keras.n_layer := Keras.InputLayer [500; 1]%Z; Keras.n_inputs := [] |}]
     ++ Keras.encoder_nodes 256 4 4 0.25 0 1 (Some 1%Z)).
Proof.
  apply (transformer_encoder_keeps_shape Keras.sample_infer
           {| Keras.tid := 0; Keras.shape_of := [None; Some 500%Z; Some 1%Z] |}
           256 4 4 0.25 None 500 1
           [{| Keras.n_layer := Keras.InputLayer [500; 1]%Z; Keras.n_inputs := [] |}]).
  - exact sample_infer_shapes.
  - reflexivity.
  - lia.
  - lia.
  - lia.
  - unfold Qle. simpl. lia.
  - unfold Qlt. simpl. lia.
  - lia.
Defined.

Lemma build_model_output_shape_witness :
  ∃ m g',
    Keras.build_model Keras.sample_infer 2 [500; 1]%Z 256 4 4 4 [128]%Z
      0.25 0.4 [] = (Py.Ok m, g')
    ∧ Keras.shape_of (Keras.m_inputs m) = [None; Some 500%Z; Some 1%Z]
    ∧ Keras.shape_of (Keras.m_outputs m) = [None; Some (Z.of_nat 2)]
    ∧ g' = [] ++ {| Keras.n_layer := Keras.InputLayer [500; 1]%Z;
                    Keras.n_inputs := [] |}
              :: Keras.stack_nodes 256 4 4 0.25 (length (@nil Keras.node))
                   (S (length (@nil Keras.node)))
                   (replicate (Z.to_nat 4) (Some 1%Z))
              ++ Keras.chain_nodes (length (@nil Keras.node) + 9 * Z.to_nat 4)
                   (S (length (@nil Keras.node) + 9 * Z.to_nat 4))
                   (Keras.head_layers 2 [128]%Z 0.4)
    ∧ length g' = length (@nil Keras.node) + 9 * Z.to_nat 4 + 2 * length [128%Z] + 3.
Proof.
  apply (build_model_output_shape Keras.sample_infer 2 256 4 4 4 [128]%Z
           0.25 0.4 500 1 []).
  - exact sample_infer_shapes.
  - lia.
  - lia.
  - lia.
  - lia.
  - lia.
  - unfold Qle. simpl. lia.
  - unfold Qlt. simpl. lia.
  - repeat constructor.
  - unfold Qle. simpl. lia.
  - unfold Qlt. simpl. lia.
  - lia.
Defined.

(** ** From the loaded data to the model *)

Section driver_facts.
Context {F : Float64}.
Import Numpy Timeseries Keras.

Lemma labels_nonempty rows c :
  is_table rows c → ∃ z, z ∈ labels_of rows.
Proof.
  intros (Hn & Hc & Hrows). destruct rows as [|r rows]; [simpl in Hn; lia|].
  inversion_clear Hrows as [|?? Hr _]. destruct r as [|v r]; [simpl in Hr; lia|].
  exists (float_to_int v). unfold labels_of. cbn. apply elem_of_cons. by left.
Qed.

(** The model of the notebook is built for the loaded data: its input
    has the shape of one training sample, (columns - 1, 1), its output one
    unit per distinct label of the training file, and it has 41 layers.
    The test samples have the shape the model expects exactly when the
    test file has as many columns as the training file. *)
Theorem model_matches_loaded_data infer fs draw (h : heap) tr c te c' :
  served fs train_url tr → is_table tr c →
  served fs test_url te → is_table te c' →
  Permutation (draw (length tr)) (seq 0 (length tr)) →
  keras_shapes infer →
  ∃ g h' m gr,
    loader fs draw h = (Py.Ok g, h')
    ∧ Training.input_shape g = [Z.of_nat (c - 1); 1%Z]
    ∧ Training.build infer g [] = (Py.Ok m, gr)
    ∧ shape_of (m_inputs m)
      = None :: (Some ∘ Z.of_nat <$> drop 1 (shape (x_train g)))
    ∧ shape_of (m_outputs m)
      = [None; Some (Z.of_nat (stdpp.base.size (list_to_set (C:=gset Z) (labels_of tr))))]
    ∧ length gr = 41
    ∧ (drop 1 (shape (x_test g)) = drop 1 (shape (x_train g)) ↔ c' = c).
Proof.
  intros Hs Ht Hs' Ht' Hperm Hk.
  destruct (loader_total fs draw h tr c te c' Hs Ht Hs' Ht' Hperm)
    as (g & h' & _ & _ & Hrun & _ & _ & Hsx & Hsxt & Hn & _).
  pose proof Ht as (_ & Hc & _). pose proof Ht' as (_ & Hc' & _).
  assert (0 < n_classes g) as Hpos.
  { rewrite Hn, distinct_labels_count.
    destruct (labels_nonempty tr c Ht) as [z Hz].
    assert (stdpp.base.size (list_to_set (C:=gset Z) (labels_of tr)) ≠ 0); [|lia].
    apply size_non_empty_iff. intros Hempty.
    assert (z ∈ list_to_set (C:=gset Z) (labels_of tr)) as Hin
      by (by apply elem_of_list_to_set).
    rewrite Hempty in Hin. by apply elem_of_empty in Hin. }
  assert (Training.input_shape g = [Z.of_nat (c - 1); 1%Z]) as Hshape.
  { unfold Training.input_shape. by rewrite Hsx. }
  destruct (build_model_total infer (n_classes g) 256 4 4 4 [128]%Z 0.25 0.4
              (Z.of_nat (c - 1)) 1 [] Hk) as (m & Hb & Hin & Hout);
    try done; try lia.
  { by repeat constructor. }
  eexists g, h', m, _. unfold Training.build. rewrite Hshape.
  split; [done|]. split; [done|]. split; [exact Hb|].
  rewrite Hin, Hout, Hsx, Hsxt, Hn, distinct_labels_count. cbn [drop fmap list_fmap].
  repeat split; try done; [intros [= ?]|intros ->; done]. lia.
Qed.

End driver_facts.

Lemma model_matches_loaded_data_witness :
  ∃ g h' m gr,
    Timeseries.loader (F:=Decimal.decimal) Decimal.sample_fs Decimal.sample_draw []
    = (Py.Ok g, h')
    ∧ Training.input_shape g = [Z.of_nat (3 - 1); 1%Z]
    ∧ Training.build Keras.sample_infer g [] = (Py.Ok m, gr)
    ∧ Keras.shape_of (Keras.m_inputs m)
      = None :: (Some ∘ Z.of_nat <$> drop 1 (Numpy.shape (Timeseries.x_train g)))
    ∧ Keras.shape_of (Keras.m_outputs m)
      = [None; Some (Z.of_nat (stdpp.base.size
                                 (list_to_set (C:=gset Z)
                                    (Timeseries.labels_of (F:=Decimal.decimal)
                                       Decimal.train_rows))))]
    ∧ length gr = 41
    ∧ (drop 1 (Numpy.shape (Timeseries.x_test g))
       = drop 1 (Numpy.shape (Timeseries.x_train g)) ↔ 3 = 3).
Proof.
  exact (model_matches_loaded_data (F:=Decimal.decimal) Keras.sample_infer
           Decimal.sample_fs Decimal.sample_draw [] Decimal.train_rows 3
           Decimal.test_rows 3 sample_train_served sample_train_table
           sample_test_served sample_test_table (sample_draw_permutation 3)
           sample_infer_shapes).
Defined.

(** ** The cloud notebook: order of calls *)

Section notebook_more.
Import Cloud.
Variable raises : nat → libcall → option Py.exn.

(** The environment is as before unless one of the items sets a
    variable. *)
Lemma environ_foldl_none items : ∀ w,
  Forall (λ i, match i with SetEnv _ _ => False | _ => True end) items →
  environ (foldl apply_item w items) = environ w.
Proof.
  induction items as [|i items IH]; intros w Hitems; [done|].
  inversion_clear Hitems as [|?? Hi Hrest]. cbn [foldl].
  rewrite IH by done. by destruct i.
Qed.

Lemma files_foldl_none items : ∀ w,
  Forall (λ i, match i with WriteFile _ _ => False | _ => True end) items →
  files (foldl apply_item w items) = files w.
Proof.
  induction items as [|i items IH]; intros w Hitems; [done|].
  inversion_clear Hitems as [|?? Hi Hrest]. cbn [foldl].
  rewrite IH by done. by destruct i.
Qed.

Lemma Forall_prefix {A} (P : A → Prop) (l1 l2 l : list A) :
  l = l1 ++ l2 → Forall P l → Forall P l1.
Proof. intros ->. by intros [? _]%Forall_app. Qed.

(** The calls of a run of a script: a prefix of the script's calls, all
    of them when it returns; a call that raises is the last one. *)
Lemma run_items_calls items w r w' :
  run_items raises items w = (r, w') →
  ∃ cs, calls w' = calls w ++ cs
        ∧ cs `prefix_of` calls_of items
        ∧ (r = Py.Ok tt → cs = calls_of items)
        ∧ (∀ pre c post e,
             cs = pre ++ c :: post →
             raises (length (calls w ++ pre)) c = Some e →
             post = [] ∧ r = Py.Raise e)
        ∧ (∀ e, r = Py.Raise e →
             ∃ pre c, cs = pre ++ [c]
                      ∧ raises (length (calls w ++ pre)) c = Some e).
Proof.
  intros H. pose proof H as Hstop.
  apply run_items_trace in H as (done & post & Hitems & -> & Hr & _).
  exists (calls_of done). split; [apply calls_foldl_apply_item|].
  split; [|split; [|split]].
  - rewrite Hitems, calls_of_app. by apply prefix_app_r.
  - intros ->. subst post. by rewrite Hitems, app_nil_r.
  - intros pre c post' e Hcs He.
    apply (run_items_stops raises items w r _ pre c post' e Hstop); [|done].
    by rewrite calls_foldl_apply_item, Hcs.
  - intros e ->. destruct Hr as (pre & c & -> & He).
    exists (calls_of pre), c. rewrite calls_of_app. split; [done|].
    by rewrite <- calls_foldl_apply_item.
Qed.

(** The library calls of a run are those of the host's script, in its
    order, each argument built before the call that receives it: all of
    them when the run completes; and a call that raises is the last call
    made, its exception the result of the run (no fit after a failed
    model setup or callback, no [model.save] after a failed fit, no
    [tfc.run] after any failure). *)
Theorem notebook_calls_follow_script w r w' :
  notebook raises w = (r, w') →
  ∃ cs, calls w' = calls w ++ cs
        ∧ cs `prefix_of`
            calls_of (script_before_submit (remote_flag w) (kaggle_flag w)
                        (colab_flag w) ++ script_submit)
        ∧ (r = Py.Ok tt →
           cs = calls_of (script_before_submit (remote_flag w) (kaggle_flag w)
                            (colab_flag w) ++ script_submit))
        ∧ (∀ pre c post e,
             cs = pre ++ c :: post →
             raises (length (calls w ++ pre)) c = Some e →
             post = [] ∧ r = Py.Raise e)
        ∧ (∀ e, r = Py.Raise e →
             ∃ pre c, cs = pre ++ [c]
                      ∧ raises (length (calls w ++ pre)) c = Some e).
Proof. rewrite notebook_script. apply run_items_calls. Qed.

(** The authentication cell, by host.  It does nothing on the remote
    worker and in a session that is neither Kaggle nor Colab.  Otherwise
    it makes the calls of its host in order (import, client and
    [set_gcloud_credentials] for Kaggle, then import and
    [authenticate_user] for Colab), all of them when it returns, and a
    call that raises ends the cell with its exception.
    The cell assigns GOOGLE_CLOUD_PROJECT exactly when it returns in a
    Colab session, that is after [authenticate_user] has returned; it
    assigns no variable in any other case, and writes no file. *)
Theorem authenticate_by_host w r w' :
  authenticate raises w = (r, w') →
  (remote_flag w = true ∨ (kaggle_flag w = false ∧ colab_flag w = false) →
   r = Py.Ok tt ∧ w' = w)
  ∧ (∃ cs, calls w' = calls w ++ cs
           ∧ cs `prefix_of`
               calls_of (script_authenticate (remote_flag w) (kaggle_flag w)
                           (colab_flag w))
           ∧ (r = Py.Ok tt →
              cs = calls_of (script_authenticate (remote_flag w) (kaggle_flag w)
                               (colab_flag w)))
           ∧ (∀ pre c post e,
                cs = pre ++ c :: post →
                raises (length (calls w ++ pre)) c = Some e →
                post = [] ∧ r = Py.Raise e))
  ∧ environ w'
    = match r with
      | Py.Ok _ =>
          if negb (remote_flag w) && colab_flag w
          then <["GOOGLE_CLOUD_PROJECT" := GCP_PROJECT_ID]> (environ w)
          else environ w
      | Py.Raise _ => environ w
      end
  ∧ files w' = files w.
Proof.
  rewrite authenticate_script. intros H.
  destruct (run_items_calls _ _ _ _ H) as (cs & Hcalls & Hpre & Hok & Hstop & _).
  apply run_items_trace in H as (done & post & Hitems & -> & Hr & _).
  split; [|split; [|split]].
  - intros Hhost.
    assert (done = [] ∧ post = []) as [-> ->].
    { apply app_eq_nil. rewrite <- Hitems. unfold script_authenticate.
      destruct Hhost as [->|[-> ->]]; [done|]. by destruct (remote_flag w). }
    split; [|done]. destruct r as [[]|e]; [done|].
    destruct Hr as (pre & c & Hd & _). by destruct pre.
  - exists cs. split; [done|]. split; [done|]. split; [done|]. exact Hstop.
  - destruct r as [[]|e].
    + subst post. rewrite app_nil_r in Hitems. subst done.
      unfold script_authenticate.
      by destruct (remote_flag w), (kaggle_flag w), (colab_flag w).
    + destruct Hr as (pre & c & -> & _). apply environ_foldl_none.
      unfold script_authenticate, script_kaggle, script_colab in Hitems.
      destruct (remote_flag w); [by destruct pre|].
      destruct (kaggle_flag w), (colab_flag w); cbn [app] in Hitems;
        repeat (destruct pre as [|? pre]; simplify_eq/=;
                try by repeat constructor).
  - apply files_foldl_none.
    eapply Forall_prefix; [exact Hitems|]. unfold script_authenticate.
    destruct (remote_flag w), (kaggle_flag w), (colab_flag w); repeat constructor.
Qed.

Lemma script_before_no_submission b k c :
  Forall (λ x, x ≠ run_call)
    (calls_of (script_before_submit b k c)
     ++ [Open "requirements.txt" "w"; NewDockerConfig run_docker_config;
         MachineConfig "K80_1X"]).
Proof. destruct b, k, c; repeat constructor; done. Qed.

Lemma script_before_writes_no_file b k c :
  Forall (λ i, match i with WriteFile _ _ => False | _ => True end)
         (script_before_submit b k c).
Proof. destruct b, k, c; repeat constructor. Qed.

(** [tfc.run] is called only with [requirements.txt] opened and written,
    also when it then fails; it is the last call of the run, made right
    after its Docker and machine configurations have been built. *)
Theorem run_submitted_with_requirements w r w' :
  notebook raises w = (r, w') →
  ∃ cs, calls w' = calls w ++ cs
        ∧ (run_call ∈ cs →
           files w' = <["requirements.txt" := requirements_text]> (files w)
           ∧ ∃ pre, cs = pre ++ [Open "requirements.txt" "w";
                                 NewDockerConfig run_docker_config;
                                 MachineConfig "K80_1X"; run_call]
                    ∧ run_call ∉ pre).
Proof.
  intros H. apply notebook_trace in H as (done & post & Hitems & -> & Hcalls & Hr).
  exists (calls_of done). split; [done|]. intros Hin.
  set (before := script_before_submit (remote_flag w) (kaggle_flag w) (colab_flag w))
    in *.
  pose proof (script_before_no_submission (remote_flag w) (kaggle_flag w)
                (colab_flag w)) as Hno. fold before in Hno.
  assert (post = []) as ->.
  { destruct post as [|x post _] using rev_ind; [done|]. exfalso.
    assert (before ++ script_submit
            = (before ++ [Call (Open "requirements.txt" "w");
                          WriteFile "requirements.txt" requirements_text;
                          Call (NewDockerConfig run_docker_config);
                          Call (MachineConfig "K80_1X")])
              ++ [Call run_call]) as Heq by (by rewrite <- app_assoc).
    rewrite Heq, app_assoc in Hitems. apply app_inj_tail in Hitems as [Hitems _].
    assert (run_call ∈ calls_of (done ++ post)) as Hin'.
    { rewrite calls_of_app. apply elem_of_app. by left. }
    rewrite <- Hitems, calls_of_app in Hin'. cbn in Hin'.
    rewrite Forall_forall in Hno. by apply (Hno run_call). }
  rewrite app_nil_r in Hitems. subst done. split.
  - unfold script_submit. rewrite foldl_app. cbn [foldl apply_item].
    unfold add_call, set_file. cbn [files].
    by rewrite files_foldl_none by apply script_before_writes_no_file.
  - exists (calls_of before). rewrite calls_of_app. split; [done|].
    intros Hb. rewrite Forall_forall in Hno. apply (Hno run_call); [|done].
    apply elem_of_app. by left.
Qed.

End notebook_more.

Lemma notebook_calls_follow_script_witness :
  ∃ cs, Cloud.calls (Cloud.notebook Cloud.never_raises Cloud.colab_world).2
        = Cloud.calls Cloud.colab_world ++ cs
        ∧ cs `prefix_of`
            Cloud.calls_of
              (Cloud.script_before_submit (Cloud.remote_flag Cloud.colab_world)
                 (Cloud.kaggle_flag Cloud.colab_world)
                 (Cloud.colab_flag Cloud.colab_world) ++ Cloud.script_submit)
        ∧ (Py.Ok tt = Py.Ok tt →
           cs = Cloud.calls_of
                  (Cloud.script_before_submit (Cloud.remote_flag Cloud.colab_world)
                     (Cloud.kaggle_flag Cloud.colab_world)
                     (Cloud.colab_flag Cloud.colab_world) ++ Cloud.script_submit))
        ∧ (∀ pre c post e,
             cs = pre ++ c :: post →
             Cloud.never_raises (length (Cloud.calls Cloud.colab_world ++ pre)) c
             = Some e →
             post = [] ∧ Py.Ok tt = Py.Raise e)
        ∧ (∀ e, Py.Ok tt = Py.Raise e →
             ∃ pre c, cs = pre ++ [c]
                      ∧ Cloud.never_raises
                          (length (Cloud.calls Cloud.colab_world ++ pre)) c
                        = Some e).
Proof.
  apply (notebook_calls_follow_script Cloud.never_raises Cloud.colab_world).
  vm_compute. reflexivity.
Defined.

Lemma authenticate_by_host_witness :
  (Cloud.remote_flag Cloud.colab_world = true
   ∨ (Cloud.kaggle_flag Cloud.colab_world = false
      ∧ Cloud.colab_flag Cloud.colab_world = false) →
   Py.Raise (A:=unit) (Py.LibraryError "auth.authenticate_user" 401) = Py.Ok tt
   ∧ (Cloud.authenticate Cloud.auth_raises Cloud.colab_world).2 = Cloud.colab_world)
  ∧ (∃ cs, Cloud.calls (Cloud.authenticate Cloud.auth_raises Cloud.colab_world).2
           = Cloud.calls Cloud.colab_world ++ cs
           ∧ cs `prefix_of`
               Cloud.calls_of
                 (Cloud.script_authenticate (Cloud.remote_flag Cloud.colab_world)
                    (Cloud.kaggle_flag Cloud.colab_world)
                    (Cloud.colab_flag Cloud.colab_world))
           ∧ (Py.Raise (A:=unit) (Py.LibraryError "auth.authenticate_user" 401)
              = Py.Ok tt →
              cs = Cloud.calls_of
                     (Cloud.script_authenticate
                        (Cloud.remote_flag Cloud.colab_world)
                        (Cloud.kaggle_flag Cloud.colab_world)
                        (Cloud.colab_flag Cloud.colab_world)))
           ∧ (∀ pre c post e,
                cs = pre ++ c :: post →
                Cloud.auth_raises (length (Cloud.calls Cloud.colab_world ++ pre)) c
                = Some e →
                post = []
                ∧ Py.Raise (A:=unit) (Py.LibraryError "auth.authenticate_user" 401)
                  = Py.Raise e))
  ∧ Cloud.environ (Cloud.authenticate Cloud.auth_raises Cloud.colab_world).2
    = Cloud.environ Cloud.colab_world
  ∧ Cloud.files (Cloud.authenticate Cloud.auth_raises Cloud.colab_world).2
    = Cloud.files Cloud.colab_world.
Proof.
  apply (authenticate_by_host Cloud.auth_raises Cloud.colab_world
           (Py.Raise (Py.LibraryError "auth.authenticate_user" 401))).
  vm_compute. reflexivity.
Defined.

Lemma run_submitted_with_requirements_witness :
  ∃ cs, Cloud.calls (Cloud.notebook Cloud.run_raises Cloud.worker_world).2
        = Cloud.calls Cloud.worker_world ++ cs
        ∧ (Cloud.run_call ∈ cs →
           Cloud.files (Cloud.notebook Cloud.run_raises Cloud.worker_world).2
           = <["requirements.txt" := Cloud.requirements_text]>
               (Cloud.files Cloud.worker_world)
           ∧ ∃ pre, cs = pre ++ [Cloud.Open "requirements.txt" "w";
                                 Cloud.NewDockerConfig Cloud.run_docker_config;
                                 Cloud.MachineConfig "K80_1X"; Cloud.run_call]
                    ∧ Cloud.run_call ∉ pre).
Proof.
  apply (run_submitted_with_requirements Cloud.run_raises Cloud.worker_world
           (Py.Raise (Py.LibraryError "tfc.run" 403))).
  vm_compute. reflexivity.
Defined.
